(** * A.I. reply arena: the coordinator screen and the chat widget

    A shallow embedding of [frontend/src/App.jsx] (the coordinator, module
    [App] below) and of the chat widget that the same file carries after it
    (module [ChatInstance]).  React state is a record, one field per
    [useState]; an event handler is a function on that record which also
    returns the effects it performs on the outside world (requests, console
    output, timers, windows), in program order.  A handler that awaits a
    request is written in two halves: what runs up to the [await], and what
    runs once the request has settled, the settled outcome being an input.

    What the browser and the server decide is an input as well: how a request
    ends, the clock and the random suffix of a new identifier, whether a URL
    parses, what [querySelector] finds.  A string is the UTF-8 bytes of its
    text; counters are natural numbers (a JavaScript number counts exactly
    up to 2^53). *)

From Stdlib Require Import ZArith Ascii DecimalString DecimalNat DecimalFacts.
From stdpp Require Import gmap strings list.

(** ** The fragment of JavaScript the two components use *)
Module JS.

(** Values as they come out of [JSON.parse] or sit in React state.  JSON
    numbers are kept to the integers. *)
#[local] Unset Elimination Schemes.
Inductive value : Type :=
| Undefined
| Null
| Bool (b : bool)
| Num (z : Z)
| Str (s : string)
| Arr (elems : list value)
| Obj (props : list (string * value)).
#[local] Set Elimination Schemes.

(** ToBoolean. *)
Definition truthy (v : value) : bool :=
  match v with
  | Undefined | Null => false
  | Bool b => b
  | Num z => negb (z =? 0)%Z
  | Str "" => false
  | Str _ => true
  | Arr _ | Obj _ => true
  end.

(** [a || b] *)
Definition or_else (a b : value) : value := if truthy a then a else b.

Definition nonempty (s : string) : bool := truthy (Str s).

Definition is_array (v : value) : bool :=
  match v with Arr _ => true | _ => false end.

Definition is_string (v : value) : bool :=
  match v with Str _ => true | _ => false end.

Inductive error_kind := Error | TypeError | ReferenceError | SyntaxError.

(** A thrown error object: its constructor and its [message]. *)
Record exn := Exn { kind : error_kind; message : string }.

(** The result of running a piece of code that may throw. *)
Inductive completion (A : Type) : Type :=
| Return (a : A)
| Throw (e : exn).
Global Arguments Return {A} a.
Global Arguments Throw {A} e.

Definition bind {A B} (c : completion A) (k : A -> completion B) : completion B :=
  match c with
  | Return a => k a
  | Throw e => Throw e
  end.

Definition dquote : string := String "034"%char "".

Fixpoint assoc (props : list (string * value)) (field : string) : value :=
  match props with
  | [] => Undefined
  | (k, v) :: rest => if String.eqb k field then v else assoc rest field
  end.

(** Member access [v.field] for a field that no prototype defines
    ([models], [apiKey], [reply], [error], [name]). *)
Definition get (v : value) (field : string) : completion value :=
  match v with
  | Undefined =>
      Throw (Exn TypeError
               ("Cannot read properties of undefined (reading '" +:+ field +:+ "')"))
  | Null =>
      Throw (Exn TypeError
               ("Cannot read properties of null (reading '" +:+ field +:+ "')"))
  | Obj props => Return (assoc props field)
  | _ => Return Undefined
  end.

Definition string_of_Z (z : Z) : string := NilZero.string_of_int (Z.to_int z).
Definition string_of_nat (n : nat) : string := NilZero.string_of_uint (Nat.to_uint n).

Fixpoint join (sep : string) (parts : list string) : string :=
  match parts with
  | [] => ""
  | [p] => p
  | p :: rest => p +:+ sep +:+ join sep rest
  end.

(** ToString, as string concatenation and template literals apply it.  A
    number is an integer here and prints as its decimal digits, which is how
    JavaScript prints an integer below 10^21. *)
Fixpoint to_string (v : value) : string :=
  match v with
  | Undefined => "undefined"
  | Null => "null"
  | Bool true => "true"
  | Bool false => "false"
  | Num z => string_of_Z z
  | Str s => s
  | Arr elems =>
      join "," (map (fun e => match e with
                              | Undefined | Null => ""
                              | _ => to_string e
                              end) elems)
  | Obj _ => "[object Object]"
  end.

(** [s] without [prefix] in front, when it starts with it. *)
Fixpoint strip_prefix (prefix s : string) : option string :=
  match prefix, s with
  | "", _ => Some s
  | String a prefix, String b s => if Ascii.eqb a b then strip_prefix prefix s else None
  | String _ _, "" => None
  end.

Definition utf8 (bytes : list nat) : string :=
  String.string_of_list_ascii (map ascii_of_nat bytes).

(** The white space and line terminators that [trim] strips, in UTF-8:
    U+0009 to U+000D, U+0020, U+00A0, U+1680, U+2000 to U+200A, U+2028,
    U+2029, U+202F, U+205F, U+3000 and U+FEFF. *)
Definition white_space : list string :=
  map utf8
    [ [9]; [10]; [11]; [12]; [13]; [32]; [194; 160]; [225; 154; 128];
      [226; 128; 128]; [226; 128; 129]; [226; 128; 130]; [226; 128; 131];
      [226; 128; 132]; [226; 128; 133]; [226; 128; 134]; [226; 128; 135];
      [226; 128; 136]; [226; 128; 137]; [226; 128; 138];
      [226; 128; 168]; [226; 128; 169]; [226; 128; 175];
      [226; 129; 159]; [227; 128; 128]; [239; 187; 191] ]%nat.

Fixpoint strip_any (prefixes : list string) (s : string) : option string :=
  match prefixes with
  | [] => None
  | p :: prefixes =>
      match strip_prefix p s with
      | Some rest => Some rest
      | None => strip_any prefixes s
      end
  end.

(** Strip prefixes of the list for as long as there is one, at most [n] times. *)
Fixpoint strip_all (prefixes : list string) (n : nat) (s : string) : string :=
  match n with
  | O => s
  | S n =>
      match strip_any prefixes s with
      | Some rest => strip_all prefixes n rest
      | None => s
      end
  end.

Definition trimStart (s : string) : string :=
  strip_all white_space (String.length s) s.

Definition trimEnd (s : string) : string :=
  String.rev (strip_all (map String.rev white_space) (String.length s) (String.rev s)).

(** [String.prototype.trim] *)
Definition trim (s : string) : string := trimEnd (trimStart s).

Definition lower_char (c : ascii) : ascii :=
  let n := nat_of_ascii c in
  if (65 <=? n)%nat && (n <=? 90)%nat then ascii_of_nat (n + 32) else c.

(** [String.prototype.toLowerCase], as far as a comparison with a name in
    ASCII letters can tell: the letters A to Z and the Kelvin sign U+212A
    (in UTF-8: 226, 132, 170) are the only characters whose lower case is an
    ASCII letter; every other character is left as it is. *)
Fixpoint toLowerCase (s : string) : string :=
  match s with
  | "" => ""
  | String c rest =>
      match strip_prefix (utf8 [226; 132; 170]%nat) s with
      | Some _ =>
          match rest with
          | String _ (String _ rest') => String "k" (toLowerCase rest')
          | _ => String (lower_char c) (toLowerCase rest)
          end
      | None => String (lower_char c) (toLowerCase rest)
      end
  end.

(** [s.split(sep)] for a separator of one character. *)
Fixpoint split (sep : ascii) (s : string) : list string :=
  match s with
  | "" => [""]
  | String c rest =>
      if Ascii.eqb c sep then "" :: split sep rest
      else match split sep rest with
           | piece :: pieces => String c piece :: pieces
           | [] => [String c ""]
           end
  end.

(** [s.replace(pattern, replacement)] for a pattern that is a string and a
    replacement without [$]: the first occurrence is replaced. *)
Fixpoint replace (pattern replacement s : string) : string :=
  match strip_prefix pattern s with
  | Some rest => replacement +:+ rest
  | None =>
      match s with
      | "" => ""
      | String c rest => String c (replace pattern replacement rest)
      end
  end.

End JS.

(** [x ← c; k] runs [c] and hands its value to [k]; a throw skips [k]. *)
#[global] Instance completion_bind : MBind JS.completion := λ A B k c, JS.bind c k.
#[global] Instance completion_ret : MRet JS.completion := λ A a, JS.Return a.

(** ** The network and the other browser facilities *)
Module Net.

(** What [response.json()] gives once a request has been answered. *)
Record response := Response { status : Z; json : JS.completion JS.value }.

Definition ok (r : response) : bool := (200 <=? status r)%Z && (status r <=? 299)%Z.

(** A request either fails to reach the server or is answered. *)
Inductive outcome :=
| Rejected (e : JS.exn)
| Resolved (r : response).

Definition await (o : outcome) : JS.completion response :=
  match o with
  | Rejected e => JS.Throw e
  | Resolved r => JS.Return r
  end.

Inductive timer := ReloadPage | ResetAddForm.

(** What a handler does to the world outside React state. *)
Inductive effect :=
| Fetch (url : string) (credentials_include : bool) (body : JS.value)
| ConsoleError (label : string) (e : JS.exn)
| WindowOpen (href : string) (appended : list (string * string)) (target : string)
| Alert (msg : string)
| SetTimeout (cb : timer) (ms : nat)
| LocationReload
| Callback (name : string) (arg : JS.value).

Definition is_fetch_to (url : string) (e : effect) : bool :=
  match e with
  | Fetch u _ _ => String.eqb u url
  | _ => false
  end.

Definition requests_to (url : string) (es : list effect) : list effect :=
  filter (fun e => is_fetch_to url e = true) es.

End Net.

(** [try { body } catch (error) { handler }]: the handler sees what was thrown. *)
Definition try_catch {A} (body : JS.completion A)
    (handler : JS.exn -> JS.completion A * list Net.effect)
  : JS.completion A * list Net.effect :=
  match body with
  | JS.Return a => (JS.Return a, [])
  | JS.Throw e => handler e
  end.

(** ** The coordinator, [App.jsx] *)
Module Icon.
Record t := { path : string; name : string }.
End Icon.

(** One record of [activeModels]. *)
Module Model.
Record t := {
  id : string;
  name : JS.value;
  provider : string;
  icon : string;
  url : string;
  encryptedApiKey : JS.value
}.

Definition with_key (k : JS.value) (m : t) : t :=
  {| id := id m; name := name m; provider := provider m; icon := icon m;
     url := url m; encryptedApiKey := k |}.
End Model.

(** [localStorage].  An entry is the text stored under a key; the text that
    [JSON.stringify] makes of a list of records is kept as that list, and
    [JSON.parse] gives the list back.  Any other non-empty text stored under
    ['activeModels'] is taken not to parse. *)
Module Storage.
Inductive item :=
| Text (s : string)
| ModelsJSON (l : list Model.t).

Definition is_text (s : string) (o : option item) : bool :=
  match o with
  | Some (Text s') => String.eqb s' s
  | _ => false
  end.

(** [JSON.parse(localStorage.getItem('activeModels') || '[]')] *)
Definition parse_models (o : option item) : JS.completion (list Model.t) :=
  match o with
  | None | Some (Text "") => JS.Return []
  | Some (ModelsJSON l) => JS.Return l
  | Some (Text _) => JS.Throw (JS.Exn JS.SyntaxError "Unexpected token in JSON")
  end.
End Storage.

Module App.

(** *** The icons *)

(** [path.split('/').pop().replace('.svg', '')]; [split] gives at least one
    piece, so there is a last one to [pop]. *)
Definition fileName (path : string) : string :=
  JS.replace ".svg" "" (default "" (last (JS.split "/" path))).

(** The [icons] array, from the entries of [import.meta.glob]: the path of
    each file of [./assets/*.svg] with the URL that its module exports. *)
Definition iconsOf (iconModules : list (string * string)) : list Icon.t :=
  map (fun entry => {| Icon.path := entry.2; Icon.name := fileName entry.1 |})
      iconModules.

(** *** The helpers that talk to the server *)

Definition http_error (r : Net.response) : JS.exn :=
  JS.Exn JS.Error ("HTTP error! status: " +:+ JS.string_of_Z (Net.status r)).

(** The body of the [try] that the three helpers share: await the request,
    throw on a status outside 200-299, parse the body. *)
Definition ok_json (o : Net.outcome) : JS.completion JS.value :=
  response ← Net.await o;
  if negb (Net.ok response) then JS.Throw (http_error response)
  else Net.json response.

(** Each helper is its request and what it makes of the settled request. *)
Definition with_request {A} (request : Net.effect)
    (settled : JS.completion A * list Net.effect)
  : JS.completion A * list Net.effect :=
  (settled.1, request :: settled.2).

Definition fetchProviderModels_request (providerName : string) : Net.effect :=
  Net.Fetch "/api/models/provider" false (JS.Obj [("provider", JS.Str providerName)]).

Definition fetchProviderModels_settle (o : Net.outcome)
  : JS.completion JS.value * list Net.effect :=
  try_catch
    (data ← ok_json o;
     models ← JS.get data "models";
     mret (JS.or_else models (JS.Arr [])))
    (fun error => (JS.Return (JS.Arr []),
                   [Net.ConsoleError "Error fetching models:" error])).

Definition fetchProviderModels (providerName : string) (o : Net.outcome)
  : JS.completion JS.value * list Net.effect :=
  with_request (fetchProviderModels_request providerName)
               (fetchProviderModels_settle o).

Inductive save_result :=
| Saved (data : JS.value)          (* { success: true, data } *)
| NotSaved (error : string).       (* { success: false, error } *)

Definition saveProviderApiKey_request (provider apiKey : string) : Net.effect :=
  Net.Fetch "/api/keys/save" true
    (JS.Obj [("provider", JS.Str provider); ("apiKey", JS.Str apiKey)]).

Definition saveProviderApiKey_settle (o : Net.outcome)
  : JS.completion save_result * list Net.effect :=
  try_catch
    (data ← ok_json o; mret (Saved data))
    (fun error => (JS.Return (NotSaved (JS.message error)),
                   [Net.ConsoleError "Error saving API key:" error])).

Definition saveProviderApiKey (provider apiKey : string) (o : Net.outcome)
  : JS.completion save_result * list Net.effect :=
  with_request (saveProviderApiKey_request provider apiKey)
               (saveProviderApiKey_settle o).

Definition fetchProviderApiKey_request (provider : string) : Net.effect :=
  Net.Fetch "/api/keys/get" true (JS.Obj [("provider", JS.Str provider)]).

Definition fetchProviderApiKey_settle (o : Net.outcome)
  : JS.completion JS.value * list Net.effect :=
  try_catch
    (data ← ok_json o;
     apiKey ← JS.get data "apiKey";
     mret (JS.or_else apiKey JS.Null))
    (fun error => (JS.Return JS.Null,
                   [Net.ConsoleError "Error fetching API key:" error])).

Definition fetchProviderApiKey (provider : string) (o : Net.outcome)
  : JS.completion JS.value * list Net.effect :=
  with_request (fetchProviderApiKey_request provider)
               (fetchProviderApiKey_settle o).

Definition getProviderURL (providerName : string) : JS.completion string :=
  let p := JS.toLowerCase providerName in
  if String.eqb p "openai" then JS.Return "https://chatgpt.com/c/?prompt="
  else if String.eqb p "claude" then JS.Return "https://claude.ai/new?q="
  else if String.eqb p "cohere" then
    JS.Return "https://dashboard.cohere.com/playground/chat?q="
  else if String.eqb p "copilot" then JS.Return "https://copilot.microsoft.com/?q="
  else if String.eqb p "deepseek" then JS.Return "https://chat.deepseek.com/?q="
  else if String.eqb p "gemini" then
    JS.Return "https://aistudio.google.com/prompts/new_chat?prompt="
  else if String.eqb p "grok" then JS.Return "https://grok.com/?q="
  else if String.eqb p "llama" then JS.Return "https://llama.online/chat#"
  else if String.eqb p "mistral" then
    JS.Return "https://console.mistral.ai/build/playground?from=agents#"
  else if String.eqb p "qwen" then JS.Return "https://chat.qwen.ai/?text="
  else JS.Throw (JS.Exn JS.Error ("Unsupported provider: " +:+ providerName)).

(** *** State: one field per [useState] *)

(** The fields the source groups as "Modal states". *)
Record Modal := {
  selectedProvider : option string;
  availableModels : JS.value;
  loadingModels : bool;
  selectedModel : JS.value;
  apiKeyInput : string;
  savingApiKey : bool;
  saveMessage : string;
  instanceCount : nat
}.

Record State := {
  hasConsented : bool;
  showConsentModal : bool;
  masterPrompt : string;
  activeModels : list Model.t;
  showAddModal : bool;
  isStarted : bool;
  triggerSend : nat;
  modal : Modal
}.

Definition initial : State := {|
  hasConsented := false; showConsentModal := false; masterPrompt := "";
  activeModels := []; showAddModal := false; isStarted := false;
  triggerSend := 0;
  modal := {| selectedProvider := None; availableModels := JS.Arr [];
              loadingModels := false; selectedModel := JS.Null;
              apiKeyInput := ""; savingApiKey := false; saveMessage := "";
              instanceCount := 1 |}
|}.

(** The [set...] functions of the hooks. *)
Definition setHasConsented (v : bool) (st : State) : State :=
  {| hasConsented := v; showConsentModal := showConsentModal st;
     masterPrompt := masterPrompt st; activeModels := activeModels st;
     showAddModal := showAddModal st; isStarted := isStarted st;
     triggerSend := triggerSend st; modal := modal st |}.

Definition setShowConsentModal (v : bool) (st : State) : State :=
  {| hasConsented := hasConsented st; showConsentModal := v;
     masterPrompt := masterPrompt st; activeModels := activeModels st;
     showAddModal := showAddModal st; isStarted := isStarted st;
     triggerSend := triggerSend st; modal := modal st |}.

Definition setMasterPrompt (v : string) (st : State) : State :=
  {| hasConsented := hasConsented st; showConsentModal := showConsentModal st;
     masterPrompt := v; activeModels := activeModels st;
     showAddModal := showAddModal st; isStarted := isStarted st;
     triggerSend := triggerSend st; modal := modal st |}.

(** [setActiveModels(prev => f(prev))] *)
Definition setActiveModels (f : list Model.t -> list Model.t) (st : State) : State :=
  {| hasConsented := hasConsented st; showConsentModal := showConsentModal st;
     masterPrompt := masterPrompt st; activeModels := f (activeModels st);
     showAddModal := showAddModal st; isStarted := isStarted st;
     triggerSend := triggerSend st; modal := modal st |}.

Definition setShowAddModal (v : bool) (st : State) : State :=
  {| hasConsented := hasConsented st; showConsentModal := showConsentModal st;
     masterPrompt := masterPrompt st; activeModels := activeModels st;
     showAddModal := v; isStarted := isStarted st;
     triggerSend := triggerSend st; modal := modal st |}.

Definition setIsStarted (v : bool) (st : State) : State :=
  {| hasConsented := hasConsented st; showConsentModal := showConsentModal st;
     masterPrompt := masterPrompt st; activeModels := activeModels st;
     showAddModal := showAddModal st; isStarted := v;
     triggerSend := triggerSend st; modal := modal st |}.

(** [setTriggerSend(prev => f(prev))] *)
Definition setTriggerSend (f : nat -> nat) (st : State) : State :=
  {| hasConsented := hasConsented st; showConsentModal := showConsentModal st;
     masterPrompt := masterPrompt st; activeModels := activeModels st;
     showAddModal := showAddModal st; isStarted := isStarted st;
     triggerSend := f (triggerSend st); modal := modal st |}.

Definition onModal (f : Modal -> Modal) (st : State) : State :=
  {| hasConsented := hasConsented st; showConsentModal := showConsentModal st;
     masterPrompt := masterPrompt st; activeModels := activeModels st;
     showAddModal := showAddModal st; isStarted := isStarted st;
     triggerSend := triggerSend st; modal := f (modal st) |}.

Definition setSelectedProvider (v : option string) : State -> State :=
  onModal (fun m =>
    {| selectedProvider := v; availableModels := availableModels m;
       loadingModels := loadingModels m; selectedModel := selectedModel m;
       apiKeyInput := apiKeyInput m; savingApiKey := savingApiKey m;
       saveMessage := saveMessage m; instanceCount := instanceCount m |}).

Definition setAvailableModels (v : JS.value) : State -> State :=
  onModal (fun m =>
    {| selectedProvider := selectedProvider m; availableModels := v;
       loadingModels := loadingModels m; selectedModel := selectedModel m;
       apiKeyInput := apiKeyInput m; savingApiKey := savingApiKey m;
       saveMessage := saveMessage m; instanceCount := instanceCount m |}).

Definition setLoadingModels (v : bool) : State -> State :=
  onModal (fun m =>
    {| selectedProvider := selectedProvider m; availableModels := availableModels m;
       loadingModels := v; selectedModel := selectedModel m;
       apiKeyInput := apiKeyInput m; savingApiKey := savingApiKey m;
       saveMessage := saveMessage m; instanceCount := instanceCount m |}).

Definition setSelectedModel (v : JS.value) : State -> State :=
  onModal (fun m =>
    {| selectedProvider := selectedProvider m; availableModels := availableModels m;
       loadingModels := loadingModels m; selectedModel := v;
       apiKeyInput := apiKeyInput m; savingApiKey := savingApiKey m;
       saveMessage := saveMessage m; instanceCount := instanceCount m |}).

Definition setApiKeyInput (v : string) : State -> State :=
  onModal (fun m =>
    {| selectedProvider := selectedProvider m; availableModels := availableModels m;
       loadingModels := loadingModels m; selectedModel := selectedModel m;
       apiKeyInput := v; savingApiKey := savingApiKey m;
       saveMessage := saveMessage m; instanceCount := instanceCount m |}).

Definition setSavingApiKey (v : bool) : State -> State :=
  onModal (fun m =>
    {| selectedProvider := selectedProvider m; availableModels := availableModels m;
       loadingModels := loadingModels m; selectedModel := selectedModel m;
       apiKeyInput := apiKeyInput m; savingApiKey := v;
       saveMessage := saveMessage m; instanceCount := instanceCount m |}).

Definition setSaveMessage (v : string) : State -> State :=
  onModal (fun m =>
    {| selectedProvider := selectedProvider m; availableModels := availableModels m;
       loadingModels := loadingModels m; selectedModel := selectedModel m;
       apiKeyInput := apiKeyInput m; savingApiKey := savingApiKey m;
       saveMessage := v; instanceCount := instanceCount m |}).

Definition setInstanceCount (v : nat) : State -> State :=
  onModal (fun m =>
    {| selectedProvider := selectedProvider m; availableModels := availableModels m;
       loadingModels := loadingModels m; selectedModel := selectedModel m;
       apiKeyInput := apiKeyInput m; savingApiKey := savingApiKey m;
       saveMessage := saveMessage m; instanceCount := v |}).

(** *** Effects that run when the screen mounts *)

(** "Load consent" *)
Definition loadConsent (ls : gmap string Storage.item) (st : State) : State :=
  if Storage.is_text "true" (ls !! "apiKeyConsent")
  then setHasConsented true st
  else setShowConsentModal true st.

(** "Load active models from localStorage" *)
Definition loadActiveModels (ls : gmap string Storage.item) (st : State)
  : JS.completion State :=
  savedModels ← Storage.parse_models (ls !! "activeModels");
  mret (if (0 <? length savedModels)%nat
        then setActiveModels (fun _ => savedModels) st
        else st).

(** The key-loading effect, which runs again whenever [hasConsented] or
    [activeModels] changes.  [loadKeysForModels_begin] is what runs up to
    [Promise.all]: the guards and one request per record without a key. *)
Definition modelsNeedingKeys (st : State) : list Model.t :=
  filter (fun m => JS.truthy (Model.encryptedApiKey m) = false) (activeModels st).

Definition loadKeysForModels_begin (st : State) : list Model.t * list Net.effect :=
  if negb (hasConsented st) then ([], [])
  else
    let needing := modelsNeedingKeys st in
    (needing, map (fun m => fetchProviderApiKey_request (Model.provider m)) needing).

(** [new Map(pairs)]: a later pair replaces an earlier one with its key. *)
Definition keyMap (updatedKeys : list (string * JS.value)) : gmap string JS.value :=
  list_to_map (reverse updatedKeys).

(** What runs once every request of [needing] has settled, [os] being the
    outcomes in the order of [needing]. *)
Definition loadKeysForModels_resume (needing : list Model.t) (os : list Net.outcome)
    (st : State) : State * list Net.effect * JS.completion unit :=
  match needing with
  | [] => (st, [], JS.Return tt)
  | _ =>
      let settled := zip_with (fun m o => (Model.id m, fetchProviderApiKey_settle o))
                              needing os in
      let logged := concat (map (fun s => s.2.2) settled) in
      match mapM (fun s => key ← s.2.1; mret (s.1, key)) settled with
      | JS.Throw e => (st, logged, JS.Throw e)
      | JS.Return updatedKeys =>
          let keys := keyMap updatedKeys in
          (setActiveModels
             (map (fun model =>
                     match keys !! Model.id model with
                     | Some k => Model.with_key k model
                     | None => model
                     end)) st,
           logged, JS.Return tt)
      end
  end.

(** *** Consent *)
Definition handleConsent (w : State * gmap string Storage.item)
  : State * gmap string Storage.item :=
  (setShowConsentModal false (setHasConsented true w.1),
   <["apiKeyConsent" := Storage.Text "true"]> w.2).

Definition handleReject (w : State * gmap string Storage.item)
  : (State * gmap string Storage.item) * list Net.effect :=
  ((w.1, delete "apiKeyConsent" w.2), [Net.LocationReload]).

(** *** Master input *)
Definition handleMasterPromptChange (value : string) (st : State) : State :=
  let st := setMasterPrompt value st in
  if JS.nonempty (JS.trim value) && negb (isStarted st) then setIsStarted true st else st.

Definition handleSendMasterPrompt (st : State) : State :=
  if JS.nonempty (JS.trim (masterPrompt st)) then
    setTriggerSend (fun prev => prev + 1)
      (if negb (isStarted st) then setIsStarted true st else st)
  else st.

Definition handleKeyPress (key : string) (st : State) : State :=
  if String.eqb key "Enter" then handleSendMasterPrompt st else st.

(** *** Add-model dialog *)
Definition handleAddModel : State -> State := setShowAddModal true.

Definition handleCloseAddModal (st : State) : State :=
  setInstanceCount 1
    (setSaveMessage ""
       (setApiKeyInput ""
          (setSelectedModel JS.Null
             (setAvailableModels (JS.Arr [])
                (setSelectedProvider None (setShowAddModal false st)))))).

Definition handleIconSelect_begin (iconName : string) (st : State)
  : State * list Net.effect :=
  (setLoadingModels true
     (setSaveMessage ""
        (setApiKeyInput "" (setSelectedModel JS.Null (setSelectedProvider (Some iconName) st)))),
   [fetchProviderModels_request iconName]).

Definition handleIconSelect_resume (o : Net.outcome) (st : State)
  : State * list Net.effect * JS.completion unit :=
  let '(models, logged) := fetchProviderModels_settle o in
  match models with
  | JS.Throw e => (st, logged, JS.Throw e)
  | JS.Return models =>
      (setLoadingModels false (setAvailableModels models st), logged, JS.Return tt)
  end.

Definition handleModelSelect (model : JS.value) (st : State) : State :=
  setSaveMessage "" (setApiKeyInput "" (setSelectedModel model st)).

(** The callback of the 1500 ms timer that a successful save sets. *)
Definition resetAddForm (st : State) : State :=
  setInstanceCount 1
    (setSaveMessage "" (setSelectedModel JS.Null (setApiKeyInput "" st))).

(** *** "Save API key and add model(s)" *)

(** What the closure of [handleSaveApiKey] holds on to across its [await]. *)
Record saving := {
  s_provider : string;
  s_apiKey : string;
  s_model : JS.value;
  s_count : nat
}.

(** [!selectedProvider] *)
Definition noProvider (p : option string) : bool :=
  match p with
  | None => true
  | Some name => negb (JS.nonempty name)
  end.

Definition handleSaveApiKey_begin (st : State)
  : State * list Net.effect * option saving :=
  let m := modal st in
  if negb (JS.nonempty (JS.trim (apiKeyInput m))) then
    (setSaveMessage "❌ Please enter an API key" st, [], None)
  else if negb (JS.truthy (selectedModel m)) || noProvider (selectedProvider m) then
    (setSaveMessage "❌ Please select a model" st, [], None)
  else
    let provider := default "" (selectedProvider m) in
    (setSaveMessage "⏳ Saving..." (setSavingApiKey true st),
     [saveProviderApiKey_request provider (apiKeyInput m)],
     Some {| s_provider := provider; s_apiKey := apiKeyInput m;
             s_model := selectedModel m; s_count := instanceCount m |}).

(** [typeof selectedModel === 'string' ? selectedModel : selectedModel.name] *)
Definition modelNameOf (selectedModel : JS.value) : JS.completion JS.value :=
  if JS.is_string selectedModel then mret selectedModel
  else JS.get selectedModel "name".

Section Saving.
(** [icons]: one entry per file of [./assets/*.svg]. *)
Variable icons : list Icon.t.
(** What [Date.now()] and [Math.random().toString(36).substr(2, 5)] give
    when the record of index [i] is built. *)
Variable now : nat -> Z.
Variable suffix : nat -> string.

(** [icons.find(i => i.name === selectedProvider)?.path || ''] *)
Definition iconOf (provider : string) : string :=
  match List.find (fun i => String.eqb (Icon.name i) provider) icons with
  | Some i => Icon.path i
  | None => ""
  end.

(** The callback of [Array.from({ length: instanceCount }, ...)]. *)
Definition newModel (c : saving) (modelName : JS.value) (i : nat)
  : JS.completion Model.t :=
  url ← getProviderURL (s_provider c);
  mret {| Model.id :=
            s_provider c +:+ "-" +:+ JS.to_string modelName +:+ "-"
            +:+ JS.string_of_Z (now i) +:+ "-" +:+ JS.string_of_nat i +:+ "-"
            +:+ suffix i;
          Model.name := modelName;
          Model.provider := s_provider c;
          Model.icon := iconOf (s_provider c);
          Model.url := url;
          Model.encryptedApiKey := JS.Str (s_apiKey c) |}.

Definition newModels (c : saving) : JS.completion (list Model.t) :=
  modelName ← modelNameOf (s_model c);
  mapM (newModel c modelName) (seq 0 (s_count c)).

(** What runs once the save request has settled. *)
Definition handleSaveApiKey_resume (c : saving) (o : Net.outcome)
    (w : State * gmap string Storage.item)
  : (State * gmap string Storage.item) * list Net.effect * JS.completion unit :=
  let '(saveResult, logged) := saveProviderApiKey_settle o in
  match saveResult with
  | JS.Throw e => (w, logged, JS.Throw e)
  | JS.Return (NotSaved error) =>
      ((setSavingApiKey false
          (setSaveMessage ("❌ Failed to save: " +:+ error) w.1), w.2),
       logged, JS.Return tt)
  | JS.Return (Saved _) =>
      match newModels c with
      | JS.Throw e => (w, logged, JS.Throw e)
      | JS.Return new =>
          let updated := activeModels w.1 ++ new in
          ((setSavingApiKey false
              (setSaveMessage "✓ Model(s) added successfully!"
                 (setActiveModels (fun prevModels => prevModels ++ new) w.1)),
            <["activeModels" := Storage.ModelsJSON updated]> w.2),
           logged ++ [Net.SetTimeout Net.ResetAddForm 1500], JS.Return tt)
      end
  end.

(** The handler with nothing else happening while it awaits. *)
Definition handleSaveApiKey (o : Net.outcome) (w : State * gmap string Storage.item)
  : (State * gmap string Storage.item) * list Net.effect * JS.completion unit :=
  let '(st, requests, pending) := handleSaveApiKey_begin w.1 in
  match pending with
  | None => ((st, w.2), requests, JS.Return tt)
  | Some c =>
      let '(w', settled, result) := handleSaveApiKey_resume c o (st, w.2) in
      (w', requests ++ settled, result)
  end.
End Saving.

(** *** The coordinator over its lifetime *)

(** The first render and the two effects that load from the storage. *)
Definition mount (ls : gmap string Storage.item) : JS.completion State :=
  loadActiveModels ls (loadConsent ls initial).

(** What can happen to the mounted coordinator.  A handler that awaits is
    two events, the click and the settling of its request; the settling
    carries what the closure of the click holds. *)
Inductive event :=
| ConsentClicked
| RejectClicked
| MasterTyped (value : string)
| MasterKeyDown (key : string)
| AddClicked
| CloseClicked
| IconPicked (iconName : string)
| ModelsSettled (o : Net.outcome)
| ModelPicked (model : JS.value)
| ApiKeyTyped (value : string)
| SaveClicked
| SaveSettled (c : saving) (o : Net.outcome)
| ResetTimerFired
| KeysRequested
| KeysSettled (needing : list Model.t) (os : list Net.outcome).

Section Lifetime.
Variable icons : list Icon.t.
Variable now : nat -> Z.
Variable suffix : nat -> string.

Definition step (ev : event) (w : State * gmap string Storage.item)
  : (State * gmap string Storage.item) * list Net.effect :=
  match ev with
  | ConsentClicked => (handleConsent w, [])
  | RejectClicked => handleReject w
  | MasterTyped value => ((handleMasterPromptChange value w.1, w.2), [])
  | MasterKeyDown key => ((handleKeyPress key w.1, w.2), [])
  | AddClicked => ((handleAddModel w.1, w.2), [])
  | CloseClicked => ((handleCloseAddModal w.1, w.2), [])
  | IconPicked iconName =>
      let r := handleIconSelect_begin iconName w.1 in ((r.1, w.2), r.2)
  | ModelsSettled o =>
      let r := handleIconSelect_resume o w.1 in ((r.1.1, w.2), r.1.2)
  | ModelPicked model => ((handleModelSelect model w.1, w.2), [])
  | ApiKeyTyped value => ((setApiKeyInput value w.1, w.2), [])
  | SaveClicked =>
      let r := handleSaveApiKey_begin w.1 in ((r.1.1, w.2), r.1.2)
  | SaveSettled c o =>
      let r := handleSaveApiKey_resume icons now suffix c o w in (r.1.1, r.1.2)
  | ResetTimerFired => ((resetAddForm w.1, w.2), [])
  | KeysRequested => (w, (loadKeysForModels_begin w.1).2)
  | KeysSettled needing os =>
      let r := loadKeysForModels_resume needing os w.1 in ((r.1.1, w.2), r.1.2)
  end.

Fixpoint run (evs : list event) (w : State * gmap string Storage.item)
  : State * gmap string Storage.item :=
  match evs with
  | [] => w
  | ev :: rest => run rest (step ev w).1
  end.
End Lifetime.

(** *** What the screen renders *)

(** The records for which a [ChatInstance] is mounted. *)
Definition mounted (st : State) : list Model.t :=
  if showConsentModal st then []
  else if negb (hasConsented st) then []
  else activeModels st.

(** Whether the master input is on display. *)
Definition masterInputShown (st : State) : bool :=
  negb (showConsentModal st) && hasConsented st
  && negb ((0 <? triggerSend st)%nat && negb (length (activeModels st) =? 0)%nat).

(** Whether the welcome screen is on display; the chat grid takes its place
    once [isStarted] is set. *)
Definition welcomeShown (st : State) : bool :=
  negb (showConsentModal st) && hasConsented st && negb (isStarted st).

(** Whether the save button of the add-model dialog can be clicked: the
    dialog is open and the button is not [disabled]. *)
Definition saveEnabled (st : State) : bool :=
  negb (showConsentModal st) && hasConsented st && showAddModal st
  && negb (savingApiKey (modal st)
           || negb (JS.nonempty (JS.trim (apiKeyInput (modal st))))).

End App.

(** ** The chat widget, [ChatInstance] *)
Module ChatInstance.

(** The props, after the defaults of the parameter list have been applied. *)
Record Props := {
  modelName : JS.value;
  modelIcon : string;
  modelIdentifier : string;
  modelUrl : string;
  masterPrompt : string;
  provider : string;
  encryptedApiKey : JS.value;
  hideInputFooter : bool;
  triggerSend : nat;
  onWinnerSelected : bool        (* whether a callback was passed *)
}.

Record State := {
  userPrompt : string;
  aiResponse : JS.value;
  isInputHidden : bool;
  showButtons : bool;
  isLoading : bool;
  error : option string
}.

(** The initial values of the [useState] calls. *)
Definition initial (p : Props) : State := {|
  userPrompt := masterPrompt p; aiResponse := JS.Str "";
  isInputHidden := hideInputFooter p; showButtons := false;
  isLoading := false; error := None
|}.

Definition setUserPrompt (v : string) (st : State) : State :=
  {| userPrompt := v; aiResponse := aiResponse st; isInputHidden := isInputHidden st;
     showButtons := showButtons st; isLoading := isLoading st; error := error st |}.

Definition setAiResponse (v : JS.value) (st : State) : State :=
  {| userPrompt := userPrompt st; aiResponse := v; isInputHidden := isInputHidden st;
     showButtons := showButtons st; isLoading := isLoading st; error := error st |}.

Definition setIsInputHidden (v : bool) (st : State) : State :=
  {| userPrompt := userPrompt st; aiResponse := aiResponse st; isInputHidden := v;
     showButtons := showButtons st; isLoading := isLoading st; error := error st |}.

Definition setShowButtons (v : bool) (st : State) : State :=
  {| userPrompt := userPrompt st; aiResponse := aiResponse st;
     isInputHidden := isInputHidden st; showButtons := v;
     isLoading := isLoading st; error := error st |}.

Definition setIsLoading (v : bool) (st : State) : State :=
  {| userPrompt := userPrompt st; aiResponse := aiResponse st;
     isInputHidden := isInputHidden st; showButtons := showButtons st;
     isLoading := v; error := error st |}.

Definition setError (v : option string) (st : State) : State :=
  {| userPrompt := userPrompt st; aiResponse := aiResponse st;
     isInputHidden := isInputHidden st; showButtons := showButtons st;
     isLoading := isLoading st; error := v |}.

(** *** The key fetch that runs on mount *)

(** Every identifier that the module of the widget imports or declares.  No
    global of the browser is called [setEncryptedApiKey] either. *)
Definition declared : list string :=
  [ "useState"; "useEffect"; "ChatInstance";
    "modelName"; "modelIcon"; "modelIdentifier"; "modelUrl"; "masterPrompt";
    "provider"; "encryptedApiKey"; "hideInputFooter"; "triggerSend";
    "onWinnerSelected";
    "userPrompt"; "setUserPrompt"; "aiResponse"; "setAiResponse";
    "isInputHidden"; "setIsInputHidden"; "showButtons"; "setShowButtons";
    "isLoading"; "setIsLoading"; "error"; "setError";
    "fetchApiKey"; "res"; "data"; "err";
    "handleSend"; "response"; "handleKeyPress"; "e"; "handleSelectWinner";
    "targetUrl"; "handleDismiss"; "container"; "element"; "handleIconClick" ].

(** Evaluating an identifier: one that nothing declares throws. *)
Definition resolve (name : string) : JS.completion string :=
  if bool_decide (name ∈ declared) then JS.Return name
  else JS.Throw (JS.Exn JS.ReferenceError (name +:+ " is not defined")).

Definition fetchApiKey_request (p : Props) : Net.effect :=
  Net.Fetch "/api/keys/get" false (JS.Obj [("provider", JS.Str (provider p))]).

(** The body of the [try] of [fetchApiKey].  Its one statement that could
    change anything is the call of [setEncryptedApiKey]. *)
Definition fetchApiKey_try (o : Net.outcome) : JS.completion unit :=
  res ← Net.await o;
  if Net.ok res then
    data ← Net.json res;
    apiKey ← JS.get data "apiKey";
    if JS.truthy apiKey then
      _ ← resolve "setEncryptedApiKey"; mret tt
    else mret tt
  else mret tt.

Definition fetchApiKey_settle (o : Net.outcome) : JS.completion unit * list Net.effect :=
  try_catch (fetchApiKey_try o)
    (fun err => (JS.Return tt, [Net.ConsoleError "Failed to load API key:" err])).

Definition fetchApiKey (p : Props) (o : Net.outcome)
  : JS.completion unit * list Net.effect :=
  App.with_request (fetchApiKey_request p) (fetchApiKey_settle o).

(** *** Sending *)

Definition process_request (p : Props) (st : State) : Net.effect :=
  Net.Fetch "/api/process" false
    (JS.Obj [("modelIdentifier", JS.Str (modelIdentifier p));
             ("prompt", JS.Str (userPrompt st));
             ("encryptedApiKey", encryptedApiKey p)]).

(** [handleSend] up to its [await]. *)
Definition handleSend_begin (p : Props) (st : State) : State * list Net.effect :=
  if negb (JS.nonempty (JS.trim (userPrompt st))) then (st, [])
  else if negb (JS.truthy (encryptedApiKey p)) then
    (setAiResponse (JS.Str "API key missing. Please add it first.") st, [])
  else (setError None (setIsLoading true st), [process_request p st]).

(** The body of the [try], after the request was made: the reply to show. *)
Definition reply_of (o : Net.outcome) : JS.completion JS.value :=
  response ← Net.await o;
  data ← Net.json response;
  if negb (Net.ok response) then
    e ← JS.get data "error"; mret (JS.or_else e (JS.Str "No reply received."))
  else
    r ← JS.get data "reply"; mret (JS.or_else r (JS.Str "No response from AI")).

(** [err.message || fallback] *)
Definition message_or (err : JS.exn) (fallback : string) : string :=
  if JS.nonempty (JS.message err) then JS.message err else fallback.

(** [handleSend] from the moment its request has settled: the rest of the
    [try], the [catch] and the [finally]. *)
Definition handleSend_resume (o : Net.outcome) (st : State) : State :=
  let st :=
    match reply_of o with
    | JS.Return reply => setAiResponse reply st
    | JS.Throw err =>
        setAiResponse (JS.Str ("Error: " +:+ message_or err "Could not reach server"))
          (setError (Some (message_or err "Failed to get AI response")) st)
    end in
  setShowButtons true (setIsInputHidden true (setIsLoading false st)).

Definition handleKeyPress (key : string) (shiftKey : bool) (p : Props) (st : State)
  : State * list Net.effect :=
  if String.eqb key "Enter" && negb shiftKey then handleSend_begin p st else (st, []).

(** *** The action buttons *)

Definition winner_request (p : Props) (st : State) : Net.effect :=
  Net.Fetch "/api/select-winner" false
    (JS.Obj [("modelIdentifier", JS.Str (modelIdentifier p));
             ("prompt", JS.Str (userPrompt st));
             ("response", aiResponse st)]).

Definition reply_parameter (st : State) : string :=
  "Reply:" +:+ JS.to_string (aiResponse st)
  +:+ "Await further instructions. If you understood, reply with "
  +:+ JS.dquote +:+ "Let's keep things going" +:+ JS.dquote +:+ ".".

Section Winner.
(** Whether [new URL(s)] accepts [s] (it throws a [TypeError] otherwise). *)
Variable URL_parses : string -> bool.

(** The [try] of [handleSelectWinner] after its request was made. *)
Definition winner_try (p : Props) (st : State) (o : Net.outcome)
  : JS.completion (list Net.effect) :=
  _ ← Net.await o;
  if URL_parses (modelUrl p) then
    mret (Net.WindowOpen (modelUrl p)
            [("prompt", "Prompt:" +:+ userPrompt st);
             ("reply", reply_parameter st)] "_blank"
          :: (if onWinnerSelected p
              then [Net.Callback "onWinnerSelected"
                      (JS.Obj [("modelIdentifier", JS.Str (modelIdentifier p));
                               ("modelName", modelName p);
                               ("prompt", JS.Str (userPrompt st));
                               ("response", aiResponse st)])]
              else []))
  else JS.Throw (JS.Exn JS.TypeError "Failed to construct 'URL': Invalid URL").

(** [handleSelectWinner] from the moment its request has settled; [p] and
    [st] are the props and the state of the render that was clicked. *)
Definition handleSelectWinner_resume (p : Props) (st : State) (o : Net.outcome)
  : list Net.effect :=
  match winner_try p st o with
  | JS.Return done => done
  | JS.Throw err =>
      [Net.ConsoleError "Failed to select winner:" err;
       Net.Alert "Failed to process winner selection"]
  end ++ [Net.SetTimeout Net.ReloadPage 500].

Definition handleSelectWinner (p : Props) (st : State) (o : Net.outcome)
  : list Net.effect :=
  winner_request p st :: handleSelectWinner_resume p st o.
End Winner.

Definition handleIconClick (p : Props) : list Net.effect :=
  if JS.nonempty (modelUrl p) && negb (String.eqb (modelUrl p) "#")
  then [Net.WindowOpen (modelUrl p) [] "_blank"]
  else [].

(** *** What the widget renders *)

(** The reply bubble, [{aiResponse && !isLoading && ...}]: the value that the
    bubble is given as its child, when the bubble is rendered. *)
Definition shownReply (st : State) : option JS.value :=
  if JS.truthy (aiResponse st) && negb (isLoading st) then Some (aiResponse st)
  else None.

(** The widget's own input and send button, [{!isInputHidden && ...}]. *)
Definition inputShown (st : State) : bool := negb (isInputHidden st).

(** The "Thinking" line, [{isLoading && ...}]. *)
Definition thinkingShown (st : State) : bool := isLoading st.

(** The error line, [{error && !aiResponse && ...}]. *)
Definition shownError (st : State) : option string :=
  match error st with
  | Some e => if JS.nonempty e && negb (JS.truthy (aiResponse st)) then Some e else None
  | None => None
  end.

(** What React makes of a value that JSX places as a child: the text of a
    string or of a number, nothing for [undefined], [null] and the booleans,
    the children of an array one after the other; it refuses an object. *)
Fixpoint childText (v : JS.value) : JS.completion string :=
  match v with
  | JS.Undefined | JS.Null | JS.Bool _ => JS.Return ""
  | JS.Num _ | JS.Str _ => JS.Return (JS.to_string v)
  | JS.Arr elems =>
      (fix children (l : list JS.value) : JS.completion string :=
         match l with
         | [] => JS.Return ""
         | e :: rest =>
             first ← childText e; others ← children rest; mret (first +:+ others)
         end) elems
  | JS.Obj _ =>
      JS.Throw (JS.Exn JS.Error "Objects are not valid as a React child")
  end.

(** The text in the reply bubble, [None] when the bubble is not rendered;
    the render throws when React refuses the reply. *)
Definition replyBubble (st : State) : JS.completion (option string) :=
  if JS.truthy (aiResponse st) && negb (isLoading st)
  then text ← childText (aiResponse st); mret (Some text)
  else mret None.

(** *** Dismissing *)

(** A [chatContainer] node: its [data-model] attribute and whether its
    [style.display] is ['none'].  The document holds one per mounted widget,
    in the order of the widgets. *)
Record node := { data_model : string; hidden : bool }.

Definition hide (i : nat) (dom : list node) : list node :=
  alter (fun n => {| data_model := data_model n; hidden := true |}) i dom.

Definition attribute_selector (id : string) : string :=
  "[data-model=" +:+ JS.dquote +:+ id +:+ JS.dquote +:+ "]".

Section Dismiss.
(** [document.querySelector]: the position of the first container that the
    selector matches, [None] for [null]; it throws on a selector that does
    not parse. *)
Variable querySelector : string -> list node -> JS.completion (option nat).

Definition handleDismiss (p : Props) (dom : list node) : JS.completion (list node) :=
  container ← querySelector (attribute_selector (modelIdentifier p)) dom;
  match container with
  | Some i => mret (hide i dom)
  | None =>
      element ← querySelector ".chatContainer" dom;
      mret (match element with
            | Some j => hide j dom
            | None => dom
            end)
  end.
End Dismiss.

(** What is known of [querySelector].  An identifier is plain when the
    selector text built around it is one quoted string: no quote, backslash,
    line break or NUL in it.  For a plain identifier the attribute selector
    matches the nodes whose attribute is that identifier, and the class selector
    matches every container. *)
Definition plain_char (c : ascii) : bool :=
  negb (bool_decide (c ∈ ["034"; "092"; "010"; "012"; "013"; "000"]%char)).

Fixpoint plain (id : string) : bool :=
  match id with
  | "" => true
  | String c rest => plain_char c && plain rest
  end.

Fixpoint first_with (id : string) (dom : list node) : option nat :=
  match dom with
  | [] => None
  | n :: rest => if String.eqb (data_model n) id then Some 0
                 else S <$> first_with id rest
  end.

Definition selects (querySelector : string -> list node -> JS.completion (option nat))
  : Prop :=
  (forall id dom, plain id = true ->
     querySelector (attribute_selector id) dom = JS.Return (first_with id dom))
  /\ (forall dom, querySelector ".chatContainer" dom
                  = JS.Return (match dom with [] => None | _ => Some 0 end)).

(** Inside the quoted string of a selector a backslash is an escape.  Before
    a hexadecimal digit it starts the number of a code point; before any
    other character that is no line break, the two stand for that character
    alone. *)
Definition is_hex (c : ascii) : bool :=
  let n := nat_of_ascii c in
  ((48 <=? n) && (n <=? 57) || (65 <=? n) && (n <=? 70) || (97 <=? n) && (n <=? 102))%nat.

Definition escapable (c : ascii) : bool := plain_char c && negb (is_hex c).

Definition reads_escapes
    (querySelector : string -> list node -> JS.completion (option nat)) : Prop :=
  forall front c back dom,
    plain front = true -> escapable c = true -> plain back = true ->
    querySelector (attribute_selector (front +:+ String "\" (String c back))) dom
    = JS.Return (first_with (front +:+ String c back) dom).

(** *** One widget over its lifetime *)

(** A mounted widget: its current props, its state, and how many requests
    to [/api/process] it has made that have not settled yet. *)
Record Inst := { props : Props; state : State; inflight : nat }.

Definition with_masterPrompt (v : string) (p : Props) : Props :=
  {| modelName := modelName p; modelIcon := modelIcon p;
     modelIdentifier := modelIdentifier p; modelUrl := modelUrl p;
     masterPrompt := v; provider := provider p;
     encryptedApiKey := encryptedApiKey p; hideInputFooter := hideInputFooter p;
     triggerSend := triggerSend p; onWinnerSelected := onWinnerSelected p |}.

Definition with_triggerSend (v : nat) (p : Props) : Props :=
  {| modelName := modelName p; modelIcon := modelIcon p;
     modelIdentifier := modelIdentifier p; modelUrl := modelUrl p;
     masterPrompt := masterPrompt p; provider := provider p;
     encryptedApiKey := encryptedApiKey p; hideInputFooter := (0 <? v)%nat;
     triggerSend := v; onWinnerSelected := onWinnerSelected p |}.

Definition with_encryptedApiKey (v : JS.value) (p : Props) : Props :=
  {| modelName := modelName p; modelIcon := modelIcon p;
     modelIdentifier := modelIdentifier p; modelUrl := modelUrl p;
     masterPrompt := masterPrompt p; provider := provider p;
     encryptedApiKey := v; hideInputFooter := hideInputFooter p;
     triggerSend := triggerSend p; onWinnerSelected := onWinnerSelected p |}.

(** What can happen to a mounted widget. *)
Inductive event :=
| MasterPromptChanged (v : string)   (* the coordinator passes a new masterPrompt *)
| TriggerChanged (n : nat)           (* the coordinator passes a larger triggerSend *)
| KeyChanged (k : JS.value)          (* the coordinator passes a new encryptedApiKey *)
| KeyFetched (o : Net.outcome)       (* the key fetch of the mount settles *)
| Typed (v : string)                 (* onChange of the widget's input *)
| KeyDown (key : string) (shiftKey : bool)   (* onKeyDown of the widget's input *)
| SendClicked                        (* the send button *)
| Settled (o : Net.outcome)          (* a request to /api/process settles *)
| WinnerClicked (o : Net.outcome)    (* the winner button; [o] settles its request *)
| DismissClicked                     (* the dismiss button *)
| IconClicked.                       (* the icon in the header *)

(** Which events the rendered widget lets happen: an element that is not
    rendered, or is [disabled], fires nothing. *)
Definition enabled (ev : event) (i : Inst) : bool :=
  let st := state i in
  match ev with
  | MasterPromptChanged v => negb (String.eqb v (masterPrompt (props i)))
  | TriggerChanged n => (triggerSend (props i) <? n)%nat
  | KeyChanged _ | KeyFetched _ => true
  | Typed _ | KeyDown _ _ => inputShown st && negb (isLoading st)
  | SendClicked =>
      inputShown st
      && negb (isLoading st || negb (JS.nonempty (JS.trim (userPrompt st))))
  | Settled _ => (0 <? inflight i)%nat
  | WinnerClicked _ | DismissClicked => showButtons st
  | IconClicked =>
      negb (negb (JS.nonempty (modelUrl (props i))) || String.eqb (modelUrl (props i)) "#")
  end.

Section Machine.
Variable URL_parses : string -> bool.

Definition sending (i : Inst) (r : State * list Net.effect) : Inst * list Net.effect :=
  ({| props := props i; state := r.1;
      inflight := inflight i + length (Net.requests_to "/api/process" r.2) |}, r.2).

Definition step (ev : event) (i : Inst) : Inst * list Net.effect :=
  match ev with
  | MasterPromptChanged v =>
      ({| props := with_masterPrompt v (props i);
          state := setUserPrompt v (state i); inflight := inflight i |}, [])
  | TriggerChanged n =>
      let i := {| props := with_triggerSend n (props i); state := state i;
                  inflight := inflight i |} in
      if (0 <? n)%nat then sending i (handleSend_begin (props i) (state i))
      else (i, [])
  | KeyChanged k =>
      ({| props := with_encryptedApiKey k (props i); state := state i;
          inflight := inflight i |}, [])
  | KeyFetched o => (i, (fetchApiKey_settle o).2)
  | Typed v =>
      ({| props := props i; state := setUserPrompt v (state i);
          inflight := inflight i |}, [])
  | KeyDown key shiftKey => sending i (handleKeyPress key shiftKey (props i) (state i))
  | SendClicked => sending i (handleSend_begin (props i) (state i))
  | Settled o =>
      ({| props := props i; state := handleSend_resume o (state i);
          inflight := inflight i - 1 |}, [])
  | WinnerClicked o => (i, handleSelectWinner URL_parses (props i) (state i) o)
  | DismissClicked => (i, [])
  | IconClicked => (i, handleIconClick (props i))
  end.

(** A run of events, each with the effects it had; [None] when some event
    of the list could not have happened where it stands. *)
Fixpoint run (evs : list event) (i : Inst)
  : option (Inst * list (event * list Net.effect)) :=
  match evs with
  | [] => Some (i, [])
  | ev :: rest =>
      if enabled ev i then
        r ← run rest (step ev i).1;
        Some (r.1, (ev, (step ev i).2) :: r.2)
      else None
  end.
End Machine.

(** Mounting: the first render and its effects, in the order the source
    declares them. *)
Definition mount (p : Props) : Inst * list Net.effect :=
  let st := setUserPrompt (masterPrompt p) (initial p) in
  let sent := if (0 <? triggerSend p)%nat then handleSend_begin p st else (st, []) in
  ({| props := p; state := sent.1;
      inflight := length (Net.requests_to "/api/process" sent.2) |},
   fetchApiKey_request p :: sent.2).

End ChatInstance.

(** ** The page: the coordinator, the storage and the mounted widgets *)
Module Arena.

(** A mounted widget as the page holds it: the record it renders, its React
    state, and whether its container node has been hidden. *)
Record cell := { model : Model.t; widget : ChatInstance.State; hidden : bool }.

Record World := {
  app : App.State;
  localStorage : gmap string Storage.item;
  cells : list cell
}.

(** The props that [App] passes to the widget of a record. *)
Definition props_of (a : App.State) (m : Model.t) : ChatInstance.Props := {|
  ChatInstance.modelName :=
    match Model.name m with JS.Undefined => JS.Str "AI Model" | v => v end;
  ChatInstance.modelIcon := Model.icon m;
  ChatInstance.modelIdentifier := Model.id m;
  ChatInstance.modelUrl := Model.url m;
  ChatInstance.masterPrompt := App.masterPrompt a;
  ChatInstance.provider := Model.provider m;
  ChatInstance.encryptedApiKey :=
    match Model.encryptedApiKey m with JS.Undefined => JS.Str "" | k => k end;
  ChatInstance.hideInputFooter := (0 <? App.triggerSend a)%nat;
  ChatInstance.triggerSend := App.triggerSend a;
  ChatInstance.onWinnerSelected := false
|}.

Definition with_widget (st : ChatInstance.State) (c : cell) : cell :=
  {| model := model c; widget := st; hidden := hidden c |}.

Definition with_hidden (h : bool) (c : cell) : cell :=
  {| model := model c; widget := widget c; hidden := h |}.

Definition dom (w : World) : list ChatInstance.node :=
  map (fun c => {| ChatInstance.data_model := Model.id (model c);
                   ChatInstance.hidden := hidden c |}) (cells w).

(** Loading the page from what the storage holds: the coordinator starts
    from its initial state, its mount effects run, and a fresh widget is
    mounted for every record it then renders. *)
Definition load (ls : gmap string Storage.item) : JS.completion World :=
  a ← App.mount ls;
  mret {| app := a; localStorage := ls;
          cells := map (fun m => {| model := m;
                                    widget := (ChatInstance.mount (props_of a m)).1.(ChatInstance.state);
                                    hidden := false |})
                       (App.mounted a) |}.

Definition reload (w : World) : JS.completion World := load (localStorage w).

(** The user types [v] into the master input; every widget's effect on
    [masterPrompt] copies it. *)
Definition changeMasterPrompt (v : string) (w : World) : World :=
  {| app := App.handleMasterPromptChange v (app w);
     localStorage := localStorage w;
     cells := if String.eqb v (App.masterPrompt (app w)) then cells w
              else map (fun c => with_widget (ChatInstance.setUserPrompt v (widget c)) c)
                       (cells w) |}.

(** The user types [v] into the input of widget [i]. *)
Definition typeInWidget (i : nat) (v : string) (w : World) : World :=
  {| app := app w; localStorage := localStorage w;
     cells := alter (fun c => with_widget (ChatInstance.setUserPrompt v (widget c)) c)
                    i (cells w) |}.

(** The effect of a widget on [triggerSend], run after a render in which
    the counter has changed. *)
Definition triggered (a : App.State) (c : cell) : cell * list Net.effect :=
  if (0 <? App.triggerSend a)%nat then
    let r := ChatInstance.handleSend_begin (props_of a (model c)) (widget c) in
    (with_widget r.1 c, r.2)
  else (c, []).

(** The master send: [handleSendMasterPrompt], then the re-render and the
    effects of the widgets.  The second component lists, widget by widget,
    what each one did. *)
Definition sendMasterPrompt (w : World) : World * list (list Net.effect) :=
  let a := App.handleSendMasterPrompt (app w) in
  let ran :=
    if (App.triggerSend a =? App.triggerSend (app w))%nat
    then map (fun c => (c, [])) (cells w)
    else map (triggered a) (cells w) in
  ({| app := a; localStorage := localStorage w; cells := ran.*1 |}, ran.*2).

(** The request that widget [i] made to [/api/process] settles. *)
Definition settleWidget (i : nat) (o : Net.outcome) (w : World) : World :=
  {| app := app w; localStorage := localStorage w;
     cells := alter (fun c => with_widget (ChatInstance.handleSend_resume o (widget c)) c)
                    i (cells w) |}.

(** The dismiss button of widget [i]. *)
Definition dismiss
    (querySelector : string -> list ChatInstance.node -> JS.completion (option nat))
    (i : nat) (w : World) : JS.completion World :=
  match cells w !! i with
  | None => mret w
  | Some c =>
      dom' ← ChatInstance.handleDismiss querySelector (props_of (app w) (model c)) (dom w);
      mret {| app := app w; localStorage := localStorage w;
              cells := zip_with (fun c n => with_hidden (ChatInstance.hidden n) c)
                                (cells w) dom' |}
  end.

End Arena.

(** * What the properties speak of *)

(** What the server sent under [field]: the member of the parsed body of an
    answer with a status in 200-299. *)
Definition served (field : string) (o : Net.outcome) : option JS.value :=
  match App.ok_json o with
  | JS.Return data =>
      match JS.get data field with
      | JS.Return v => Some v
      | JS.Throw _ => None
      end
  | JS.Throw _ => None
  end.

(** The provider names that [getProviderURL] knows, in lower case. *)
Definition recognized : list string :=
  ["openai"; "claude"; "cohere"; "copilot"; "deepseek"; "gemini"; "grok"; "llama";
   "mistral"; "qwen"].

(** How the save round trip can end.  It fails when the request is rejected,
    when the answer has a status outside 200-299, or when the body of the
    answer is not JSON; it succeeds otherwise. *)
Inductive fails : Net.outcome -> JS.exn -> Prop :=
| fails_rejected e : fails (Net.Rejected e) e
| fails_status r : Net.ok r = false -> fails (Net.Resolved r) (App.http_error r)
| fails_body r e : Net.ok r = true -> Net.json r = JS.Throw e -> fails (Net.Resolved r) e.

Inductive succeeds : Net.outcome -> JS.value -> Prop :=
| succeeds_with r data :
    Net.ok r = true -> Net.json r = JS.Return data -> succeeds (Net.Resolved r) data.

(** The three checks that [handleSaveApiKey] makes before it contacts the
    server: a key that is not blank, a model and a provider selected. *)
Definition valid (st : App.State) (provider : string) : Prop :=
  JS.nonempty (JS.trim (App.apiKeyInput (App.modal st))) = true
  /\ JS.truthy (App.selectedModel (App.modal st)) = true
  /\ App.selectedProvider (App.modal st) = Some provider
  /\ JS.nonempty provider = true.

(** What the closure of [handleSaveApiKey] holds once the checks have passed. *)
Definition closure (st : App.State) (provider : string) : App.saving :=
  {| App.s_provider := provider;
     App.s_apiKey := App.apiKeyInput (App.modal st);
     App.s_model := App.selectedModel (App.modal st);
     App.s_count := App.instanceCount (App.modal st) |}.

(** Whether a request was answered at all, with whatever status. *)
Definition answered (o : Net.outcome) : bool :=
  match o with Net.Resolved _ => true | Net.Rejected _ => false end.

(** The tab that the winner button opens: the target URL with the prompt and
    the reply appended as query parameters. *)
Definition opened (p : ChatInstance.Props) (st : ChatInstance.State) : Net.effect :=
  Net.WindowOpen (ChatInstance.modelUrl p)
    [("prompt", "Prompt:" +:+ ChatInstance.userPrompt st);
     ("reply", ChatInstance.reply_parameter st)] "_blank".

(** The strong form of the winner property: every winner selection posts the
    exchange, opens the provider's page with the prompt and the reply as
    query parameters, and ends by scheduling the reload. *)
Definition posts_opens_reloads (URL_parses : string -> bool)
    (p : ChatInstance.Props) (st : ChatInstance.State) (o : Net.outcome) : Prop :=
  let effects := ChatInstance.handleSelectWinner URL_parses p st o in
  ChatInstance.winner_request p st ∈ effects
  /\ opened p st ∈ effects
  /\ last effects = Some (Net.SetTimeout Net.ReloadPage 500).

(** The widget's own input is not rendered. *)
Definition hiddenInput (i : ChatInstance.Inst) : Prop :=
  ChatInstance.isInputHidden (ChatInstance.state i) = true.

(** The events of the widget's own input and send button. *)
Definition ownInput (ev : ChatInstance.event) : bool :=
  match ev with
  | ChatInstance.Typed _ | ChatInstance.KeyDown _ _ | ChatInstance.SendClicked => true
  | _ => false
  end.

(** Whether a widget, as it stands, would send: its own prompt is not blank
    and the record it renders has a key. *)
Definition ready (c : Arena.cell) : bool :=
  JS.nonempty (JS.trim (ChatInstance.userPrompt (Arena.widget c)))
  && JS.truthy (Model.encryptedApiKey (Arena.model c)).

(** The strong form of the master send property: the send raises the counter
    by one and every mounted widget makes exactly one request to
    [/api/process]. *)
Definition one_request_each (w : Arena.World) : Prop :=
  App.triggerSend (Arena.app (Arena.sendMasterPrompt w).1)
  = (App.triggerSend (Arena.app w) + 1)%nat
  /\ length (Arena.sendMasterPrompt w).2 = length (Arena.cells w)
  /\ Forall (fun effects => length (Net.requests_to "/api/process" effects) = 1%nat)
            (Arena.sendMasterPrompt w).2.

(** Whether the character [c] occurs in [s]. *)
Fixpoint occurs (c : ascii) (s : string) : bool :=
  match s with
  | "" => false
  | String c' rest => Ascii.eqb c' c || occurs c rest
  end.

(** The identifier that [handleSaveApiKey] gives the record of index [i]. *)
Definition identifier (now : nat -> Z) (suffix : nat -> string) (c : App.saving)
    (modelName : JS.value) (i : nat) : string :=
  App.s_provider c +:+ "-" +:+ JS.to_string modelName +:+ "-"
  +:+ JS.string_of_Z (now i) +:+ "-" +:+ JS.string_of_nat i +:+ "-" +:+ suffix i.

(** A record without regard to its key. *)
Definition keyless (m : Model.t) : Model.t := Model.with_key JS.Undefined m.

(** The keys of the storage that an event of the coordinator sets or removes. *)
Definition written (ev : App.event) : list string :=
  match ev with
  | App.ConsentClicked | App.RejectClicked => ["apiKeyConsent"]
  | App.SaveSettled _ _ => ["activeModels"]
  | _ => []
  end.

(** The settling of a save request. *)
Definition settlesSave (ev : App.event) : bool :=
  match ev with App.SaveSettled _ _ => true | _ => false end.

(** The two messages of the checks that [handleSaveApiKey] makes. *)
Definition refusals : list string :=
  ["❌ Please enter an API key"; "❌ Please select a model"].

(** The list that [fetchProviderModels] returns for a request that ended as [o]. *)
Definition fetchedModels (o : Net.outcome) : JS.value :=
  match (App.fetchProviderModels_settle o).1 with
  | JS.Return models => models
  | JS.Throw _ => JS.Arr []
  end.

(** The user picks provider [a], then provider [b] before the list of [a]
    has arrived; the list of [b] arrives first. *)
Definition pickedTwice (a b : string) (oa ob : Net.outcome) : list App.event :=
  [App.IconPicked a; App.IconPicked b; App.ModelsSettled ob; App.ModelsSettled oa].

(** The key that [fetchProviderApiKey] returns for a request that ended as [o]. *)
Definition fetchedKey (o : Net.outcome) : JS.value :=
  match (App.fetchProviderApiKey_settle o).1 with
  | JS.Return key => key
  | JS.Throw _ => JS.Null
  end.

(** The coordinator once the key-loading effect has run to its end, [os]
    being how the requests for the records without a key ended. *)
Definition keysLoaded (os : list Net.outcome) (st : App.State) : App.State :=
  (App.loadKeysForModels_resume (App.modelsNeedingKeys st) os st).1.1.

(** The request to [/api/process] of the widget of [m] for the prompt [v]. *)
Definition promptRequest (m : Model.t) (v : string) : Net.effect :=
  Net.Fetch "/api/process" false
    (JS.Obj [("modelIdentifier", JS.Str (Model.id m));
             ("prompt", JS.Str v);
             ("encryptedApiKey", Model.encryptedApiKey m)]).

(** What holds of a widget from its mount on: an error is only ever set
    together with a reply, and [isLoading] is only set while a request to
    [/api/process] has not settled. *)
Definition steady (i : ChatInstance.Inst) : Prop :=
  (ChatInstance.error (ChatInstance.state i) = None
   \/ JS.truthy (ChatInstance.aiResponse (ChatInstance.state i)) = true)
  /\ (ChatInstance.isLoading (ChatInstance.state i) = true ->
      (0 < ChatInstance.inflight i)%nat).

(** The member [name] of an object with the properties [props] is [v]: the
    value of the property of that name, [undefined] when there is none. *)
Definition member (props : list (string * JS.value)) (name : string) (v : JS.value) : Prop :=
  NoDup (props.*1)
  /\ ((name, v) ∈ props \/ (name ∉ props.*1) /\ v = JS.Undefined).

(** The [case] labels of [getProviderURL] with the URL each one returns. *)
Definition providerURLs : list (string * string) :=
  [("openai", "https://chatgpt.com/c/?prompt=");
   ("claude", "https://claude.ai/new?q=");
   ("cohere", "https://dashboard.cohere.com/playground/chat?q=");
   ("copilot", "https://copilot.microsoft.com/?q=");
   ("deepseek", "https://chat.deepseek.com/?q=");
   ("gemini", "https://aistudio.google.com/prompts/new_chat?prompt=");
   ("grok", "https://grok.com/?q=");
   ("llama", "https://llama.online/chat#");
   ("mistral", "https://console.mistral.ai/build/playground?from=agents#");
   ("qwen", "https://chat.qwen.ai/?text=")].

(** [name] spells the word [lower], which is in lower-case ASCII letters,
    with each letter in either case. *)
Fixpoint spells (name lower : string) : bool :=
  match name, lower with
  | "", "" => true
  | String c name, String l lower =>
      (97 <=? nat_of_ascii l)%nat && (nat_of_ascii l <=? 122)%nat
      && (Ascii.eqb c l || Ascii.eqb c (ascii_of_nat (nat_of_ascii l - 32)))
      && spells name lower
  | _, _ => false
  end.

(** * Sample pages, widgets and answers *)

(** An answer with the given status and JSON body. *)
Definition answer (status : Z) (body : JS.value) : Net.outcome :=
  Net.Resolved (Net.Response status (JS.Return body)).

(** The server lists one model. *)
Definition modelsAnswer : Net.outcome :=
  answer 200 (JS.Obj [("models", JS.Arr [JS.Str "model-a"])]).

(** A filled-in add-model dialog: consent given, the dialog opened, a provider
    picked and its models listed, a model picked, a key typed. *)
Definition filled (provider : string) : App.State :=
  App.setApiKeyInput "sk-1"
    (App.handleModelSelect (JS.Str "model-a")
       (App.handleIconSelect_resume modelsAnswer
          (App.handleIconSelect_begin provider
             (App.handleAddModel (App.handleConsent (App.initial, ∅)).1)).1).1.1).

(** A clock and a source of random suffixes. *)
Definition noon : nat -> Z := fun _ => 1700000000000%Z.
Definition abcde : nat -> string := fun _ => "abcde".

(** The filled-in dialog saved, with a server that accepts the key. *)
Definition added : (App.State * gmap string Storage.item) * list Net.effect * JS.completion unit :=
  App.handleSaveApiKey [] noon abcde (answer 200 (JS.Obj [])) (filled "openai", ∅).

(** What a status of 500 makes the helpers throw. *)
Definition error500 : JS.exn := App.http_error (Net.Response 500 (JS.Return JS.Null)).

(** The props of a widget for OpenAI, with the given key. *)
Definition someProps (key : JS.value) : ChatInstance.Props := {|
  ChatInstance.modelName := JS.Str "model-a";
  ChatInstance.modelIcon := "";
  ChatInstance.modelIdentifier := "openai-model-a-1700000000000-0-abcde";
  ChatInstance.modelUrl := "https://chatgpt.com/c/?prompt=";
  ChatInstance.masterPrompt := "hello";
  ChatInstance.provider := "openai";
  ChatInstance.encryptedApiKey := key;
  ChatInstance.hideInputFooter := false;
  ChatInstance.triggerSend := 0;
  ChatInstance.onWinnerSelected := false
|}.

(** The server has a key for the provider. *)
Definition keyAnswer : Net.response :=
  Net.Response 200 (JS.Return (JS.Obj [("apiKey", JS.Str "sk-from-server")])).

(** A widget that has sent "hello" and shows the reply "hi there". *)
Definition replied : ChatInstance.State :=
  ChatInstance.handleSend_resume (answer 200 (JS.Obj [("reply", JS.Str "hi there")]))
    (ChatInstance.handleSend_begin (someProps (JS.Str "sk-1"))
       (ChatInstance.initial (someProps (JS.Str "sk-1")))).1.

(** A widget is mounted, the user sends from its own input, the reply
    arrives; later the coordinator raises the trigger counter and the user
    picks the winner. *)
Definition firstSend : list ChatInstance.event := [ChatInstance.SendClicked].
Definition later : list ChatInstance.event :=
  [ChatInstance.TriggerChanged 1;
   ChatInstance.Settled (answer 200 (JS.Obj [("reply", JS.Str "again")]));
   ChatInstance.WinnerClicked (answer 200 (JS.Obj []))].
Definition hiThere : Net.outcome := answer 200 (JS.Obj [("reply", JS.Str "hi there")]).
Definition mounted0 : ChatInstance.Inst := (ChatInstance.mount (someProps (JS.Str "sk-1"))).1.
Definition afterFirst : ChatInstance.Inst * list (ChatInstance.event * list Net.effect) :=
  default (mounted0, [])
    (ChatInstance.run (fun _ => true) (firstSend ++ [ChatInstance.Settled hiThere]) mounted0).
Definition afterLater : ChatInstance.Inst * list (ChatInstance.event * list Net.effect) :=
  default (mounted0, []) (ChatInstance.run (fun _ => true) later afterFirst.1).

(** A stored record. *)
Definition record (i : string) : Model.t := {|
  Model.id := "openai-model-a-1700000000000-" +:+ i +:+ "-abcde";
  Model.name := JS.Str "model-a";
  Model.provider := "openai";
  Model.icon := "";
  Model.url := "https://chatgpt.com/c/?prompt=";
  Model.encryptedApiKey := JS.Str "sk-1"
|}.

(** The storage of a user who has consented and has added two widgets. *)
Definition stored : gmap string Storage.item :=
  <["activeModels" := Storage.ModelsJSON [record "0"; record "1"]]>
    (<["apiKeyConsent" := Storage.Text "true"]> ∅).

Definition emptyPage : Arena.World :=
  {| Arena.app := App.initial; Arena.localStorage := ∅; Arena.cells := [] |}.

(** The page loaded from that storage. *)
Definition opened_page : Arena.World :=
  match Arena.load stored with
  | JS.Return w => w
  | JS.Throw _ => emptyPage
  end.

(** The user types "hello" into the master input, then clears the input of
    the second widget. *)
Definition second_cleared : Arena.World :=
  Arena.typeInWidget 1 "" (Arena.changeMasterPrompt "hello" opened_page).

(** A [querySelector] for the two selectors of [handleDismiss], which reads
    the identifier back out of the attribute selector. *)
Fixpoint quoted (s : string) : option string :=
  match s with
  | "" => None
  | String c rest =>
      if ChatInstance.plain_char c then String c <$> quoted rest
      else if String.eqb s (JS.dquote +:+ "]") then Some "" else None
  end.

Definition querySelector_containers (selector : string) (dom : list ChatInstance.node)
  : JS.completion (option nat) :=
  if String.eqb selector ".chatContainer" then
    JS.Return (match dom with [] => None | _ => Some 0%nat end)
  else
    match JS.strip_prefix ("[data-model=" +:+ JS.dquote) selector ≫= quoted with
    | Some id => JS.Return (ChatInstance.first_with id dom)
    | None => JS.Throw (JS.Exn JS.SyntaxError "not a valid selector")
    end.

(** Both widgets of the page have been sent "hello" and have shown a reply. *)
Definition both_replied : Arena.World :=
  Arena.settleWidget 1 hiThere
    (Arena.settleWidget 0 hiThere
       (Arena.sendMasterPrompt (Arena.changeMasterPrompt "hello" opened_page)).1).

(** The second widget of that page. *)
Definition second : Arena.cell :=
  {| Arena.model := record "1";
     Arena.widget := replied;
     Arena.hidden := false |}.

(** The loaded page with "hello" typed into the master input, and its storage. *)
Definition typed_hello : App.State * gmap string Storage.item :=
  (Arena.app (Arena.changeMasterPrompt "hello" opened_page), stored).

(** A closure of [handleSaveApiKey] that asks for three instances, and the
    records built from it. *)
Definition three : App.saving :=
  {| App.s_provider := "openai"; App.s_apiKey := "sk-1";
     App.s_model := JS.Str "model-a"; App.s_count := 3 |}.

Definition batch : list Model.t :=
  match App.newModels [] noon abcde three with
  | JS.Return new => new
  | JS.Throw _ => []
  end.

(** A coordinator with consent and two records, the first without a key. *)
Definition keylessPage : App.State :=
  App.setActiveModels (fun _ => [Model.with_key JS.Null (record "0"); record "1"])
    (App.setHasConsented true App.initial).

(** The coordinator after "hello" was typed and sent with no widget mounted. *)
Definition sentPage : App.State :=
  App.handleSendMasterPrompt
    (App.handleMasterPromptChange "hello" (App.setHasConsented true App.initial)).

(** A widget whose send could not reach the server, and one that awaits
    its reply. *)
Definition failedSend : ChatInstance.Inst * list (ChatInstance.event * list Net.effect) :=
  default (mounted0, [])
    (ChatInstance.run (fun _ => true)
       [ChatInstance.SendClicked;
        ChatInstance.Settled (Net.Rejected (JS.Exn JS.TypeError "Failed to fetch"))]
       mounted0).

Definition awaitingReply : ChatInstance.Inst * list (ChatInstance.event * list Net.effect) :=
  default (mounted0, []) (ChatInstance.run (fun _ => true) [ChatInstance.SendClicked] mounted0).

(** A first visit: the storage is empty, the user accepts, opens the
    add-model dialog and fills it in. *)
Definition firstVisit : App.State := App.setShowConsentModal true App.initial.

Definition fillingIn : list App.event :=
  [App.ConsentClicked; App.AddClicked; App.IconPicked "openai";
   App.ModelsSettled modelsAnswer; App.ModelPicked (JS.Str "model-a");
   App.ApiKeyTyped "sk-1"].

Definition addedOnFirstVisit
  : (App.State * gmap string Storage.item) * list Net.effect * JS.completion unit :=
  App.handleSaveApiKey [] noon abcde (answer 200 (JS.Obj []))
    (App.run [] noon abcde fillingIn (firstVisit, ∅)).

(** The server answers with a number under [models], and with an object
    under [apiKey]. *)
Definition numberAnswer : Net.outcome := answer 200 (JS.Obj [("models", JS.Num 7)]).
Definition objectAnswer : Net.outcome := answer 200 (JS.Obj [("apiKey", JS.Obj [])]).

(** The server lists a model under a name with a backslash in it; the
    closure of [handleSaveApiKey] for that model, and the record built from
    it. *)
Definition slashedClosure : App.saving :=
  {| App.s_provider := "openai"; App.s_apiKey := "sk-1";
     App.s_model := JS.Str "gpt\mini"; App.s_count := 1 |}.

Definition slashed : Model.t := {|
  Model.id := "openai-gpt\mini-1700000000000-0-abcde";
  Model.name := JS.Str "gpt\mini";
  Model.provider := "openai";
  Model.icon := "";
  Model.url := "https://chatgpt.com/c/?prompt=";
  Model.encryptedApiKey := JS.Str "sk-1"
|}.

(** The page of a user who has added [record "0"] and then that model, after
    "hello" was sent to both widgets and both have shown a reply. *)
Definition slashed_page : Arena.World :=
  match Arena.load (<["activeModels" := Storage.ModelsJSON [record "0"; slashed]]>
                      (<["apiKeyConsent" := Storage.Text "true"]> ∅)) with
  | JS.Return w =>
      Arena.settleWidget 1 hiThere
        (Arena.settleWidget 0 hiThere
           (Arena.sendMasterPrompt (Arena.changeMasterPrompt "hello" w)).1)
  | JS.Throw _ => emptyPage
  end.

(** A [querySelector] for the two selectors of [handleDismiss] that reads
    the escapes of characters other than hexadecimal digits, and gives up on
    the text it does not know. *)
Fixpoint unescaped (s : string) : option string :=
  match s with
  | "" => None
  | String c rest =>
      if Ascii.eqb c "\" then
        match rest with
        | String d rest' => if ChatInstance.escapable d then String d <$> unescaped rest' else None
        | "" => None
        end
      else if ChatInstance.plain_char c then String c <$> unescaped rest
      else if String.eqb s (JS.dquote +:+ "]") then Some "" else None
  end.

Definition querySelector_escapes (selector : string) (dom : list ChatInstance.node)
  : JS.completion (option nat) :=
  if String.eqb selector ".chatContainer" then
    JS.Return (match dom with [] => None | _ => Some 0%nat end)
  else
    match JS.strip_prefix ("[data-model=" +:+ JS.dquote) selector ≫= unescaped with
    | Some id => JS.Return (ChatInstance.first_with id dom)
    | None => JS.Throw (JS.Exn JS.SyntaxError "not a valid selector")
    end.

(** * Properties *)

(** ** Helpers *)

Lemma mapM_Return {A B} (f : A -> JS.completion B) (l : list A) (l' : list B) :
  mapM f l = JS.Return l' -> Forall2 (fun x y => f x = JS.Return y) l l'.
Proof.
  revert l'. induction l as [|x l IH]; intros l' H; simpl in H.
  - injection H as <-. constructor.
  - destruct (f x) as [y|e] eqn:Hx; simpl in H; [|discriminate].
    destruct (mapM f l) as [ys|e] eqn:Hl; simpl in H; [|discriminate].
    injection H as <-. constructor; auto.
Qed.

Lemma mapM_Throw {A B} (f : A -> JS.completion B) (l : list A) (e : JS.exn) x rest :
  l = x :: rest -> f x = JS.Throw e -> mapM f l = JS.Throw e.
Proof. intros -> H. simpl. by rewrite H. Qed.

Lemma mapM_all_Return {A B} (f : A -> JS.completion B) (l : list A) :
  (forall x, x ∈ l -> exists y, f x = JS.Return y) -> exists l', mapM f l = JS.Return l'.
Proof.
  induction l as [|x l IH]; intros H; simpl.
  - by eexists.
  - destruct (H x) as [y Hy]; [left|].
    destruct IH as [ys Hys]; [intros z Hz; apply H; by right|].
    exists (y :: ys). by rewrite Hy; simpl; rewrite Hys.
Qed.

Lemma fetchProviderModels_returns providerName o :
  (App.fetchProviderModels providerName o).1
  = JS.Return (match served "models" o with
               | Some models => JS.or_else models (JS.Arr [])
               | None => JS.Arr []
               end).
Proof.
  unfold App.fetchProviderModels, App.fetchProviderModels_settle, served. simpl.
  unfold mbind, completion_bind.
  destruct (App.ok_json o) as [data|e]; simpl; [|done].
  by destruct (JS.get data "models").
Qed.

Lemma fetchProviderApiKey_returns provider o :
  (App.fetchProviderApiKey provider o).1
  = JS.Return (match served "apiKey" o with
               | Some apiKey => JS.or_else apiKey JS.Null
               | None => JS.Null
               end).
Proof.
  unfold App.fetchProviderApiKey, App.fetchProviderApiKey_settle, served. simpl.
  unfold mbind, completion_bind.
  destruct (App.ok_json o) as [data|e]; simpl; [|done].
  by destruct (JS.get data "apiKey").
Qed.

(** ** The embedding at work on small inputs *)

Example trim_both_ends : JS.trim ("  a b" +:+ JS.utf8 [9; 194; 160]%nat) = "a b".
Proof. reflexivity. Qed.

Example trim_blank : JS.trim (" " +:+ JS.utf8 [226; 128; 168; 10]%nat) = "".
Proof. reflexivity. Qed.

Example toLowerCase_kelvin : JS.toLowerCase ("GRO" +:+ JS.utf8 [226; 132; 170]%nat) = "grok".
Proof. reflexivity. Qed.

Example getProviderURL_OpenAI :
  App.getProviderURL "OpenAI" = JS.Return "https://chatgpt.com/c/?prompt=".
Proof. reflexivity. Qed.

Example fetchProviderModels_null_body :
  App.fetchProviderModels "openai" (answer 200 JS.Null)
  = (JS.Return (JS.Arr []),
     [App.fetchProviderModels_request "openai";
      Net.ConsoleError "Error fetching models:"
        (JS.Exn JS.TypeError "Cannot read properties of null (reading 'models')")]).
Proof. reflexivity. Qed.

Example fetchProviderModels_listed :
  App.fetchProviderModels "openai" modelsAnswer
  = (JS.Return (JS.Arr [JS.Str "model-a"]), [App.fetchProviderModels_request "openai"]).
Proof. reflexivity. Qed.

(** [data.models || []] hands on whatever truthy value sits under [models]. *)
Example fetchProviderModels_text :
  (App.fetchProviderModels "openai" (answer 200 (JS.Obj [("models", JS.Str "model-a")]))).1
  = JS.Return (JS.Str "model-a").
Proof. reflexivity. Qed.

Example added_identifier :
  Model.id <$> App.activeModels added.1.1.1 = ["openai-model-a-1700000000000-0-abcde"].
Proof. vm_compute. reflexivity. Qed.

Example replied_shows : ChatInstance.shownReply replied = Some (JS.Str "hi there").
Proof. reflexivity. Qed.

Example send_error_shows :
  ChatInstance.shownReply
    (ChatInstance.handleSend_resume (Net.Rejected (JS.Exn JS.TypeError "Failed to fetch"))
       (ChatInstance.handleSend_begin (someProps (JS.Str "sk-1"))
          (ChatInstance.initial (someProps (JS.Str "sk-1")))).1)
  = Some (JS.Str "Error: Failed to fetch").
Proof. reflexivity. Qed.

(** ** The fetch helpers of the coordinator *)

Lemma fails_ok_json o e : fails o e -> App.ok_json o = JS.Throw e.
Proof.
  destruct 1 as [e|r Hr|r e Hr Hj]; simpl; [done| |].
  - unfold App.ok_json; simpl. by rewrite Hr.
  - unfold App.ok_json; simpl. by rewrite Hr.
Qed.

Lemma succeeds_ok_json o data : succeeds o data -> App.ok_json o = JS.Return data.
Proof. destruct 1 as [r data Hr Hj]. unfold App.ok_json; simpl. by rewrite Hr. Qed.

Lemma ok_json_cases o :
  (exists e, fails o e) \/ (exists data, succeeds o data).
Proof.
  destruct o as [e|r]; [left; eexists; constructor|].
  destruct (Net.ok r) eqn:Hr; [|left; eexists; by apply fails_status].
  destruct (Net.json r) as [data|e] eqn:Hj.
  - right. eexists. by constructor.
  - left. eexists. by apply fails_body.
Qed.

Lemma assoc_member props name v : member props name v -> JS.assoc props name = v.
Proof.
  intros [Hnd H]. induction props as [|[k v'] props IH]; simpl.
  - destruct H as [H|[_ ->]]; [by apply elem_of_nil in H|done].
  - apply NoDup_cons in Hnd as [Hk Hnd]. simpl in Hk.
    destruct (String.eqb_spec k name) as [->|Hne].
    + destruct H as [[[= ->]|H]%elem_of_cons|[H _]]; [done| |].
      * exfalso. apply Hk, list_elem_of_fmap. by exists (name, v).
      * exfalso. apply H. by left.
    + apply IH; [done|]. destruct H as [[[= -> ->]|H]%elem_of_cons|[H ->]]; [done|by left|].
      right. split; [|done]. intros Hin. apply H. by right.
Qed.

(** C10, as given, fails: a server that answers with a number under [models]
    has [fetchProviderModels] return that number, which is no array, and one
    that answers with an object under [apiKey] has [fetchProviderApiKey]
    return that object, which is neither a string nor [null]. *)
Lemma fetch_helpers_hand_on_any_value :
  (App.fetchProviderModels "openai" numberAnswer).1 = JS.Return (JS.Num 7)
  /\ JS.is_array (JS.Num 7) = false
  /\ (App.fetchProviderApiKey "openai" objectAnswer).1 = JS.Return (JS.Obj [])
  /\ JS.is_string (JS.Obj []) = false
  /\ JS.Obj [] <> JS.Null.
Proof. repeat split; done. Qed.

(** C10, amended.  Whatever the provider name and however the request ends,
    [fetchProviderModels] and [fetchProviderApiKey] make their request, return
    and never throw.  When the request is rejected, is answered with a status
    outside 200-299 or with a body that is not JSON, they log the error and
    return the empty array and [null].  When the body is an object they
    return what it holds under [models] and under [apiKey] if that is truthy,
    and the empty array and [null] if it is falsy or missing: so a list under
    [models] is returned as it is, and a string under [apiKey] is returned
    unless it is empty.  A body that is [null] has them log a [TypeError] and
    return the empty array and [null]; any other body that is no object has
    them return the empty array and [null]. *)
Theorem fetch_helpers_total (providerName provider : string) (o1 o2 : Net.outcome) :
  (exists models logged,
      App.fetchProviderModels providerName o1
      = (JS.Return models, App.fetchProviderModels_request providerName :: logged))
  /\ (exists key logged,
         App.fetchProviderApiKey provider o2
         = (JS.Return key, App.fetchProviderApiKey_request provider :: logged))
  /\ (forall e, fails o1 e ->
        App.fetchProviderModels providerName o1
        = (JS.Return (JS.Arr []),
           [App.fetchProviderModels_request providerName;
            Net.ConsoleError "Error fetching models:" e]))
  /\ (forall e, fails o2 e ->
        App.fetchProviderApiKey provider o2
        = (JS.Return JS.Null,
           [App.fetchProviderApiKey_request provider;
            Net.ConsoleError "Error fetching API key:" e]))
  /\ (forall props models, succeeds o1 (JS.Obj props) -> member props "models" models ->
        App.fetchProviderModels providerName o1
        = (JS.Return (if JS.truthy models then models else JS.Arr []),
           [App.fetchProviderModels_request providerName]))
  /\ (forall props apiKey, succeeds o2 (JS.Obj props) -> member props "apiKey" apiKey ->
        App.fetchProviderApiKey provider o2
        = (JS.Return (if JS.truthy apiKey then apiKey else JS.Null),
           [App.fetchProviderApiKey_request provider]))
  /\ (forall props elems, succeeds o1 (JS.Obj props) -> member props "models" (JS.Arr elems) ->
        (App.fetchProviderModels providerName o1).1 = JS.Return (JS.Arr elems))
  /\ (forall props key, succeeds o2 (JS.Obj props) -> member props "apiKey" (JS.Str key) ->
        (App.fetchProviderApiKey provider o2).1
        = JS.Return (if JS.nonempty key then JS.Str key else JS.Null))
  /\ (forall data, succeeds o1 data -> data = JS.Null \/ data = JS.Undefined ->
        exists e,
          JS.kind e = JS.TypeError
          /\ App.fetchProviderModels providerName o1
             = (JS.Return (JS.Arr []),
                [App.fetchProviderModels_request providerName;
                 Net.ConsoleError "Error fetching models:" e]))
  /\ (forall data, succeeds o2 data -> data = JS.Null \/ data = JS.Undefined ->
        exists e,
          JS.kind e = JS.TypeError
          /\ App.fetchProviderApiKey provider o2
             = (JS.Return JS.Null,
                [App.fetchProviderApiKey_request provider;
                 Net.ConsoleError "Error fetching API key:" e]))
  /\ (forall data, succeeds o1 data ->
        (exists b, data = JS.Bool b) \/ (exists z, data = JS.Num z)
        \/ (exists s, data = JS.Str s) \/ (exists l, data = JS.Arr l) ->
        App.fetchProviderModels providerName o1
        = (JS.Return (JS.Arr []), [App.fetchProviderModels_request providerName]))
  /\ (forall data, succeeds o2 data ->
        (exists b, data = JS.Bool b) \/ (exists z, data = JS.Num z)
        \/ (exists s, data = JS.Str s) \/ (exists l, data = JS.Arr l) ->
        App.fetchProviderApiKey provider o2
        = (JS.Return JS.Null, [App.fetchProviderApiKey_request provider])).
Proof.
  unfold App.fetchProviderModels, App.fetchProviderApiKey, App.with_request,
    App.fetchProviderModels_settle, App.fetchProviderApiKey_settle.
  repeat split.
  - destruct (ok_json_cases o1) as [[e ->%fails_ok_json]|[data ->%succeeds_ok_json]]; simpl;
      [by eauto|]. destruct (JS.get data "models"); simpl; by eauto.
  - destruct (ok_json_cases o2) as [[e ->%fails_ok_json]|[data ->%succeeds_ok_json]]; simpl;
      [by eauto|]. destruct (JS.get data "apiKey"); simpl; by eauto.
  - by intros e ->%fails_ok_json.
  - by intros e ->%fails_ok_json.
  - intros props models ->%succeeds_ok_json Hm. simpl. by rewrite (assoc_member _ _ _ Hm).
  - intros props apiKey ->%succeeds_ok_json Hm. simpl. by rewrite (assoc_member _ _ _ Hm).
  - intros props elems ->%succeeds_ok_json Hm. simpl. by rewrite (assoc_member _ _ _ Hm).
  - intros props key ->%succeeds_ok_json Hm. simpl. by rewrite (assoc_member _ _ _ Hm).
  - intros data ->%succeeds_ok_json [->| ->]; simpl; (eexists; split; [|reflexivity]); done.
  - intros data ->%succeeds_ok_json [->| ->]; simpl; (eexists; split; [|reflexivity]); done.
  - by intros data ->%succeeds_ok_json [[b ->]|[[z ->]|[[s ->]|[l ->]]]].
  - by intros data ->%succeeds_ok_json [[b ->]|[[z ->]|[[s ->]|[l ->]]]].
Qed.

Lemma fetch_helpers_total_witness :
  App.fetchProviderModels "openai" modelsAnswer
  = (JS.Return (if JS.truthy (JS.Arr [JS.Str "model-a"])
                then JS.Arr [JS.Str "model-a"] else JS.Arr []),
     [App.fetchProviderModels_request "openai"])
  /\ App.fetchProviderApiKey "openai" (Net.Resolved keyAnswer)
     = (JS.Return (if JS.truthy (JS.Str "sk-from-server")
                   then JS.Str "sk-from-server" else JS.Null),
        [App.fetchProviderApiKey_request "openai"]).
Proof.
  destruct (fetch_helpers_total "openai" "openai" modelsAnswer (Net.Resolved keyAnswer))
    as (_ & _ & _ & _ & Hmodels & Hkey & _).
  split.
  - apply (Hmodels [("models", JS.Arr [JS.Str "model-a"])]); [by constructor|].
    split; [|left; by left]. repeat constructor. by intros ?%elem_of_nil.
  - apply (Hkey [("apiKey", JS.Str "sk-from-server")]); [by constructor|].
    split; [|left; by left]. repeat constructor. by intros ?%elem_of_nil.
Defined.

(** ** The add-model flow *)

Lemma saveProviderApiKey_settle_fails o e :
  fails o e ->
  App.saveProviderApiKey_settle o
  = (JS.Return (App.NotSaved (JS.message e)),
     [Net.ConsoleError "Error saving API key:" e]).
Proof.
  intros H%fails_ok_json. unfold App.saveProviderApiKey_settle. simpl. by rewrite H.
Qed.

Lemma saveProviderApiKey_settle_succeeds o data :
  succeeds o data -> App.saveProviderApiKey_settle o = (JS.Return (App.Saved data), []).
Proof.
  intros H%succeeds_ok_json. unfold App.saveProviderApiKey_settle. simpl. by rewrite H.
Qed.

Ltac split_eqb :=
  repeat match goal with
    | |- context [String.eqb ?a ?b] => destruct (String.eqb_spec a b)
    end.

Lemma getProviderURL_recognized name :
  JS.toLowerCase name ∈ recognized -> exists url, App.getProviderURL name = JS.Return url.
Proof.
  unfold App.getProviderURL, recognized. intros H.
  split_eqb; eauto. exfalso.
  repeat (apply elem_of_cons in H as [H|H]; [done|]). by apply elem_of_nil in H.
Qed.

Lemma getProviderURL_unrecognized name :
  JS.toLowerCase name ∉ recognized ->
  App.getProviderURL name = JS.Throw (JS.Exn JS.Error ("Unsupported provider: " +:+ name)).
Proof.
  unfold App.getProviderURL, recognized. intros H.
  split_eqb; try done; exfalso; apply H;
    match goal with E : JS.toLowerCase name = _ |- _ => rewrite E end;
    repeat first [by left | right].
Qed.

Lemma modelNameOf_selected selectedModel :
  JS.truthy selectedModel = true -> exists modelName, App.modelNameOf selectedModel = JS.Return modelName.
Proof.
  unfold App.modelNameOf. destruct selectedModel; simpl; intros H; try discriminate; eauto.
Qed.

Section AddModel.
Variable icons : list Icon.t.
Variable now : nat -> Z.
Variable suffix : nat -> string.

Lemma handleSaveApiKey_begin_valid st provider :
  valid st provider ->
  App.handleSaveApiKey_begin st
  = (App.setSaveMessage "⏳ Saving..." (App.setSavingApiKey true st),
     [App.saveProviderApiKey_request provider (App.apiKeyInput (App.modal st))],
     Some (closure st provider)).
Proof.
  intros (Hkey & Hmodel & Hprov & Hne). unfold App.handleSaveApiKey_begin, closure.
  rewrite Hkey, Hmodel, Hprov. simpl. by rewrite Hne.
Qed.

Lemma newModels_length c new :
  App.newModels icons now suffix c = JS.Return new ->
  length new = App.s_count c
  /\ Forall (fun m => Model.provider m = App.s_provider c
                      /\ Model.encryptedApiKey m = JS.Str (App.s_apiKey c)
                      /\ App.getProviderURL (App.s_provider c) = JS.Return (Model.url m))
            new.
Proof.
  unfold App.newModels.
  destruct (App.modelNameOf (App.s_model c)) as [modelName|e]; simpl; [|done].
  intros H%mapM_Return. split.
  - apply Forall2_length in H. by rewrite length_seq in H.
  - clear -H. induction H as [|i m l l' Hi _ IH]; constructor; [|done].
    unfold App.newModel in Hi.
    destruct (App.getProviderURL (App.s_provider c)) as [url|e]; simpl in Hi; [|done].
    by injection Hi as <-.
Qed.

Lemma newModels_recognized c :
  JS.truthy (App.s_model c) = true ->
  JS.toLowerCase (App.s_provider c) ∈ recognized ->
  exists new, App.newModels icons now suffix c = JS.Return new.
Proof.
  intros [modelName Hname]%modelNameOf_selected [url Hurl]%getProviderURL_recognized.
  unfold App.newModels. rewrite Hname. simpl.
  apply mapM_all_Return. intros i _. unfold App.newModel. rewrite Hurl. simpl. eauto.
Qed.

Lemma newModels_unrecognized c :
  JS.truthy (App.s_model c) = true ->
  (0 < App.s_count c)%nat ->
  JS.toLowerCase (App.s_provider c) ∉ recognized ->
  App.newModels icons now suffix c
  = JS.Throw (JS.Exn JS.Error ("Unsupported provider: " +:+ App.s_provider c)).
Proof.
  intros [modelName Hname]%modelNameOf_selected Hcount Hurl%getProviderURL_unrecognized.
  unfold App.newModels. rewrite Hname. simpl.
  destruct (App.s_count c) as [|n]; [lia|].
  apply (mapM_Throw _ _ _ 0%nat (seq 1 n)); [done|].
  unfold App.newModel. by rewrite Hurl.
Qed.

(** With a recognized provider the flow does run to completion. *)
Lemma add_model_completes o data st ls provider :
  valid st provider ->
  succeeds o data ->
  JS.toLowerCase provider ∈ recognized ->
  (App.handleSaveApiKey icons now suffix o (st, ls)).2 = JS.Return tt.
Proof.
  intros Hvalid Hok Hrec. unfold App.handleSaveApiKey. simpl.
  rewrite (handleSaveApiKey_begin_valid _ _ Hvalid).
  unfold App.handleSaveApiKey_resume.
  rewrite (saveProviderApiKey_settle_succeeds _ _ Hok).
  destruct (newModels_recognized (closure st provider)) as [new ->]; [apply Hvalid|done|].
  done.
Qed.

End AddModel.

(** The requested instance count is one from the mount on: every
    [setInstanceCount] of the source sets it to one. *)
Lemma step_instanceCount icons now suffix ev w :
  App.instanceCount (App.modal w.1) = 1%nat ->
  App.instanceCount (App.modal (App.step icons now suffix ev w).1.1) = 1%nat.
Proof.
  intros H. destruct ev; simpl; try done.
  - unfold App.handleMasterPromptChange. by destruct (_ && _).
  - unfold App.handleKeyPress, App.handleSendMasterPrompt.
    destruct (String.eqb key "Enter"); simpl; [|done].
    destruct (JS.nonempty _); [|done]. by destruct (App.isStarted w.1).
  - unfold App.handleIconSelect_resume.
    by destruct (App.fetchProviderModels_settle o) as [[models|e] logged].
  - unfold App.handleSaveApiKey_begin.
    destruct (negb (JS.nonempty _)); simpl; [done|]. by destruct (_ || _).
  - unfold App.handleSaveApiKey_resume.
    destruct (App.saveProviderApiKey_settle o) as [[[data|error]|e] logged]; simpl;
      try done.
    by destruct (App.newModels _ _ _ _).
  - unfold App.loadKeysForModels_resume. destruct needing; [done|].
    by destruct (mapM _ _).
Qed.

Lemma instanceCount_is_one icons now suffix ls a evs :
  App.mount ls = JS.Return a ->
  App.instanceCount (App.modal (App.run icons now suffix evs (a, ls)).1) = 1%nat.
Proof.
  intros Hmount.
  assert (H : App.instanceCount (App.modal (a, ls).1) = 1%nat).
  { unfold App.mount, App.loadActiveModels, App.loadConsent in Hmount.
    destruct (Storage.parse_models _) as [saved|e]; simpl in Hmount; [|done].
    injection Hmount as <-.
    by destruct (0 <? length saved)%nat, (Storage.is_text _ _). }
  revert H. generalize (a, ls). induction evs as [|ev evs IH]; intros w H; [done|].
  simpl. apply IH. by apply step_instanceCount.
Qed.

(** C2. When the add-model flow runs to completion with a key that is not
    blank, a provider and a model selected and a save round trip that
    succeeded, [activeModels] becomes the previous list followed by exactly
    [instanceCount] new records, the previous records keeping their order,
    and that same list is what ['activeModels'] holds in [localStorage]
    afterwards: the stored list, which mirrored [activeModels], has grown by
    the same records.  No other entry of the storage changes, and each new
    record carries the selected provider, its URL and the key typed. *)
Theorem add_model_appends icons now suffix o data st ls provider st' ls' effects :
  valid st provider ->
  succeeds o data ->
  App.handleSaveApiKey icons now suffix o (st, ls) = ((st', ls'), effects, JS.Return tt) ->
  exists new,
    length new = App.instanceCount (App.modal st)
    /\ App.activeModels st' = App.activeModels st ++ new
    /\ ls' !! "activeModels" = Some (Storage.ModelsJSON (App.activeModels st ++ new))
    /\ (forall old, ls !! "activeModels" = Some (Storage.ModelsJSON old) ->
                    old = App.activeModels st ->
                    ls' !! "activeModels" = Some (Storage.ModelsJSON (old ++ new)))
    /\ (forall k, k ≠ "activeModels" -> ls' !! k = ls !! k)
    /\ Forall (fun m => Model.provider m = provider
                        /\ Model.encryptedApiKey m = JS.Str (App.apiKeyInput (App.modal st))
                        /\ App.getProviderURL provider = JS.Return (Model.url m)) new.
Proof.
  intros Hvalid Hok H. unfold App.handleSaveApiKey in H. simpl in H.
  rewrite (handleSaveApiKey_begin_valid _ _ Hvalid) in H.
  unfold App.handleSaveApiKey_resume in H.
  rewrite (saveProviderApiKey_settle_succeeds _ _ Hok) in H.
  destruct (App.newModels icons now suffix (closure st provider)) as [new|e] eqn:Hnew;
    simpl in H; [|discriminate].
  injection H as <- <- <-. exists new.
  apply newModels_length in Hnew as [Hlen Hnew]. simpl in Hlen, Hnew.
  split; [done|]. split; [done|]. split; [by rewrite lookup_insert_eq|].
  split; [|split; [|done]].
  - intros old _ ->. by rewrite lookup_insert_eq.
  - intros k Hk. by rewrite lookup_insert_ne.
Qed.

(** C3. When the save round trip fails, [handleSaveApiKey] shows the message
    that begins with "❌ Failed to save:" and returns: [activeModels] and the
    storage are as they were, the save request was made once and no timer or
    other request follows it. *)
Theorem save_failure_adds_nothing icons now suffix o e st ls provider :
  valid st provider ->
  fails o e ->
  exists st',
    App.handleSaveApiKey icons now suffix o (st, ls)
    = ((st', ls),
       [App.saveProviderApiKey_request provider (App.apiKeyInput (App.modal st));
        Net.ConsoleError "Error saving API key:" e],
       JS.Return tt)
    /\ App.saveMessage (App.modal st') = "❌ Failed to save: " +:+ JS.message e
    /\ App.savingApiKey (App.modal st') = false
    /\ App.activeModels st' = App.activeModels st.
Proof.
  intros Hvalid Hfail. unfold App.handleSaveApiKey. simpl.
  rewrite (handleSaveApiKey_begin_valid _ _ Hvalid).
  unfold App.handleSaveApiKey_resume.
  rewrite (saveProviderApiKey_settle_fails _ _ Hfail). simpl.
  eexists. split; [reflexivity|]. done.
Qed.

Lemma spells_cons c name l lower :
  spells (String c name) (String l lower)
  = (97 <=? nat_of_ascii l)%nat && (nat_of_ascii l <=? 122)%nat
    && (Ascii.eqb c l || Ascii.eqb c (ascii_of_nat (nat_of_ascii l - 32)))
    && spells name lower.
Proof. reflexivity. Qed.

Lemma toLowerCase_spells name lower : spells name lower = true -> JS.toLowerCase name = lower.
Proof.
  revert lower. induction name as [|c name IH]; intros [|l lower]; try done.
  rewrite spells_cons.
  intros [[[Hlo Hhi]%andb_prop Hc]%andb_prop Hrest]%andb_prop.
  rewrite <- (IH _ Hrest). clear IH Hrest.
  assert (Hcase : c = l \/ c = ascii_of_nat (nat_of_ascii l - 32)).
  { apply orb_prop in Hc as [H|H]; apply Ascii.eqb_eq in H; auto. }
  clear Hc.
  destruct l as [[] [] [] [] [] [] [] []];
    try (vm_compute in Hlo; discriminate); try (vm_compute in Hhi; discriminate);
    destruct Hcase as [->| ->]; reflexivity.
Qed.

Lemma getProviderURL_table name :
  App.getProviderURL name
  = match List.find (fun entry => String.eqb entry.1 (JS.toLowerCase name)) providerURLs with
    | Some entry => JS.Return entry.2
    | None => JS.Throw (JS.Exn JS.Error ("Unsupported provider: " +:+ name))
    end.
Proof.
  unfold App.getProviderURL, providerURLs. cbn [List.find fst snd].
  rewrite !(String.eqb_sym _ (JS.toLowerCase name)).
  repeat match goal with
    | |- context [String.eqb (JS.toLowerCase name) ?b] =>
        destruct (String.eqb (JS.toLowerCase name) b); [reflexivity|]
    end.
  reflexivity.
Qed.

(** C9. [getProviderURL] returns the URL that its [switch] lists for the name
    in lower case, for each of the ten recognized names, and throws
    "Unsupported provider" with the name as given for every other name: it
    returns exactly for the names that are one of the ten in lower case.  The
    match is blind to case: a name that spells one of the ten with each
    letter in either case gets that provider's URL ("OpenAI", "DeepSeek" and
    "QWEN" among them).  [handleSaveApiKey] calls it once the save round trip
    has succeeded: with a provider that is not recognized (and at least one
    instance asked for) the handler throws after its save request, and
    [activeModels] and the storage are as they were. *)
Theorem unsupported_provider_aborts :
  (forall name,
      App.getProviderURL name
      = match List.find (fun entry => String.eqb entry.1 (JS.toLowerCase name)) providerURLs with
        | Some entry => JS.Return entry.2
        | None => JS.Throw (JS.Exn JS.Error ("Unsupported provider: " +:+ name))
        end)
  /\ providerURLs.*1 = recognized
  /\ (forall name lower url,
         (lower, url) ∈ providerURLs -> spells name lower = true ->
         App.getProviderURL name = JS.Return url)
  /\ App.getProviderURL "OpenAI" = JS.Return "https://chatgpt.com/c/?prompt="
  /\ App.getProviderURL "DeepSeek" = JS.Return "https://chat.deepseek.com/?q="
  /\ App.getProviderURL "QWEN" = JS.Return "https://chat.qwen.ai/?text="
  /\ (forall name,
      (exists url, App.getProviderURL name = JS.Return url)
      <-> JS.toLowerCase name ∈ recognized)
  /\ (forall name,
         JS.toLowerCase name ∉ recognized ->
         App.getProviderURL name
         = JS.Throw (JS.Exn JS.Error ("Unsupported provider: " +:+ name)))
  /\ (forall icons now suffix o data st ls provider,
         valid st provider ->
         succeeds o data ->
         (0 < App.instanceCount (App.modal st))%nat ->
         JS.toLowerCase provider ∉ recognized ->
         exists st',
           App.handleSaveApiKey icons now suffix o (st, ls)
           = ((st', ls),
              [App.saveProviderApiKey_request provider (App.apiKeyInput (App.modal st))],
              JS.Throw (JS.Exn JS.Error ("Unsupported provider: " +:+ provider)))
           /\ App.activeModels st' = App.activeModels st).
Proof.
  split; [apply getProviderURL_table|]. split; [reflexivity|].
  split; [|split; [reflexivity|split; [reflexivity|split; [reflexivity|]]]].
  { intros name lower url Hin Hs. rewrite getProviderURL_table, (toLowerCase_spells _ _ Hs).
    unfold providerURLs in Hin.
    repeat (apply elem_of_cons in Hin as [Hin|Hin]; [by injection Hin as -> ->|]).
    by apply elem_of_nil in Hin. }
  split; [|split].
  - intros name. split; [|apply getProviderURL_recognized].
    intros [url Hurl]. destruct (decide (JS.toLowerCase name ∈ recognized)) as [|Hn]; [done|].
    apply getProviderURL_unrecognized in Hn. congruence.
  - apply getProviderURL_unrecognized.
  - intros icons now suffix o data st ls provider Hvalid Hok Hcount Hn.
    unfold App.handleSaveApiKey. simpl.
    rewrite (handleSaveApiKey_begin_valid _ _ Hvalid).
    unfold App.handleSaveApiKey_resume.
    rewrite (saveProviderApiKey_settle_succeeds _ _ Hok).
    rewrite newModels_unrecognized; [|apply Hvalid|done|done]. simpl.
    eexists. split; [reflexivity|done].
Qed.

Lemma filled_valid provider : JS.nonempty provider = true -> valid (filled provider) provider.
Proof. intros H. by repeat split. Qed.

Lemma add_model_appends_witness :
  exists new,
    length new = App.instanceCount (App.modal (filled "openai"))
    /\ App.activeModels added.1.1.1 = App.activeModels (filled "openai") ++ new
    /\ added.1.1.2 !! "activeModels"
       = Some (Storage.ModelsJSON (App.activeModels (filled "openai") ++ new))
    /\ (forall old, (∅ : gmap string Storage.item) !! "activeModels"
                    = Some (Storage.ModelsJSON old) ->
                    old = App.activeModels (filled "openai") ->
                    added.1.1.2 !! "activeModels" = Some (Storage.ModelsJSON (old ++ new)))
    /\ (forall k, k ≠ "activeModels" ->
                  added.1.1.2 !! k = (∅ : gmap string Storage.item) !! k)
    /\ Forall (fun m => Model.provider m = "openai"
                        /\ Model.encryptedApiKey m
                           = JS.Str (App.apiKeyInput (App.modal (filled "openai")))
                        /\ App.getProviderURL "openai" = JS.Return (Model.url m)) new.
Proof.
  apply (add_model_appends [] noon abcde (answer 200 (JS.Obj [])) (JS.Obj [])
           (filled "openai") ∅ "openai" added.1.1.1 added.1.1.2 added.1.2).
  - by apply filled_valid.
  - by constructor.
  - vm_compute. reflexivity.
Defined.

Lemma save_failure_adds_nothing_witness :
  exists st',
    App.handleSaveApiKey [] noon abcde (answer 500 JS.Null) (filled "openai", ∅)
    = ((st', ∅),
       [App.saveProviderApiKey_request "openai" (App.apiKeyInput (App.modal (filled "openai")));
        Net.ConsoleError "Error saving API key:" error500],
       JS.Return tt)
    /\ App.saveMessage (App.modal st') = "❌ Failed to save: " +:+ JS.message error500
    /\ App.savingApiKey (App.modal st') = false
    /\ App.activeModels st' = App.activeModels (filled "openai").
Proof.
  apply (save_failure_adds_nothing [] noon abcde (answer 500 JS.Null) error500
           (filled "openai") ∅ "openai").
  - by apply filled_valid.
  - by apply fails_status.
Defined.

Lemma unsupported_provider_aborts_witness :
  App.getProviderURL "GeMiNi"
  = JS.Return "https://aistudio.google.com/prompts/new_chat?prompt="
  /\ exists st',
       App.handleSaveApiKey [] noon abcde (answer 200 (JS.Obj [])) (filled "perplexity", ∅)
       = ((st', ∅),
          [App.saveProviderApiKey_request "perplexity"
             (App.apiKeyInput (App.modal (filled "perplexity")))],
          JS.Throw (JS.Exn JS.Error ("Unsupported provider: " +:+ "perplexity")))
       /\ App.activeModels st' = App.activeModels (filled "perplexity").
Proof.
  destruct unsupported_provider_aborts as (_ & _ & Hspells & _ & _ & _ & _ & _ & H).
  split.
  - apply (Hspells "GeMiNi" "gemini"); [|reflexivity]. unfold providerURLs.
    do 5 right. left.
  - apply (H [] noon abcde (answer 200 (JS.Obj [])) (JS.Obj []) (filled "perplexity") ∅
             "perplexity").
    + by apply filled_valid.
    + by constructor.
    + simpl. lia.
    + vm_compute. intros H'. repeat (apply elem_of_cons in H' as [H'|H']; [discriminate|]).
      by apply elem_of_nil in H'.
Defined.

(** ** The chat widget: sending *)

(** C4. A send attempt with a prompt that is not blank and a key that is
    empty or absent makes no request and sets the reply to the "API key
    missing" message, which the widget then shows (it is not loading); a
    send attempt with a blank prompt makes no request and changes nothing, so
    no message appears. *)
Theorem send_needs_prompt_and_key (p : ChatInstance.Props) (st : ChatInstance.State) :
  (JS.nonempty (JS.trim (ChatInstance.userPrompt st)) = true ->
   JS.truthy (ChatInstance.encryptedApiKey p) = false ->
   (ChatInstance.handleSend_begin p st).2 = []
   /\ (ChatInstance.handleSend_begin p st).1
      = ChatInstance.setAiResponse (JS.Str "API key missing. Please add it first.") st
   /\ String.prefix "API key missing" "API key missing. Please add it first." = true
   /\ (ChatInstance.isLoading st = false ->
       ChatInstance.shownReply (ChatInstance.handleSend_begin p st).1
       = Some (JS.Str "API key missing. Please add it first.")))
  /\ (JS.nonempty (JS.trim (ChatInstance.userPrompt st)) = false ->
      ChatInstance.handleSend_begin p st = (st, [])).
Proof.
  unfold ChatInstance.handleSend_begin. split.
  - intros -> ->. simpl. repeat split; try done.
    unfold ChatInstance.shownReply. simpl. by intros ->.
  - by intros ->.
Qed.

Lemma send_needs_prompt_and_key_witness :
  ((ChatInstance.handleSend_begin (someProps JS.Null)
      (ChatInstance.initial (someProps JS.Null))).2 = []
   /\ (ChatInstance.handleSend_begin (someProps JS.Null)
         (ChatInstance.initial (someProps JS.Null))).1
      = ChatInstance.setAiResponse (JS.Str "API key missing. Please add it first.")
          (ChatInstance.initial (someProps JS.Null))
   /\ String.prefix "API key missing" "API key missing. Please add it first." = true
   /\ (ChatInstance.isLoading (ChatInstance.initial (someProps JS.Null)) = false ->
       ChatInstance.shownReply
         (ChatInstance.handleSend_begin (someProps JS.Null)
            (ChatInstance.initial (someProps JS.Null))).1
       = Some (JS.Str "API key missing. Please add it first.")))
  /\ ChatInstance.handleSend_begin (someProps JS.Null)
       (ChatInstance.setUserPrompt "   " (ChatInstance.initial (someProps JS.Null)))
     = (ChatInstance.setUserPrompt "   " (ChatInstance.initial (someProps JS.Null)), []).
Proof.
  split.
  - apply (send_needs_prompt_and_key (someProps JS.Null)
             (ChatInstance.initial (someProps JS.Null))); reflexivity.
  - apply (send_needs_prompt_and_key (someProps JS.Null)
             (ChatInstance.setUserPrompt "   " (ChatInstance.initial (someProps JS.Null)))).
    reflexivity.
Defined.

(** ** The chat widget: the key fetch on mount *)

(** Case analysis on membership in a list that is written out. *)
Ltac in_cases H :=
  repeat (apply elem_of_cons in H as [H|H]; [subst|]);
  try (by apply elem_of_nil in H).

Lemma handleSend_begin_effects p st e :
  e ∈ (ChatInstance.handleSend_begin p st).2 -> e = ChatInstance.process_request p st.
Proof.
  unfold ChatInstance.handleSend_begin.
  destruct (JS.nonempty _); simpl; [|by intros ?%elem_of_nil].
  destruct (JS.truthy _); simpl; [|by intros ?%elem_of_nil].
  by intros ->%list_elem_of_singleton.
Qed.

Lemma process_requests_carry_prop_key URL_parses ev i e :
  e ∈ (ChatInstance.step URL_parses ev i).2 ->
  Net.is_fetch_to "/api/process" e = true ->
  exists prompt,
    e = Net.Fetch "/api/process" false
          (JS.Obj [("modelIdentifier", JS.Str (ChatInstance.modelIdentifier (ChatInstance.props i)));
                   ("prompt", JS.Str prompt);
                   ("encryptedApiKey", ChatInstance.encryptedApiKey (ChatInstance.props i))]).
Proof.
  destruct ev; simpl; try (by intros ?%elem_of_nil).
  - destruct (0 <? n)%nat; simpl; [|by intros ?%elem_of_nil].
    intros ->%handleSend_begin_effects _. by eexists.
  - unfold ChatInstance.fetchApiKey_settle, try_catch.
    destruct (ChatInstance.fetchApiKey_try o); simpl; [by intros ?%elem_of_nil|].
    by intros ->%list_elem_of_singleton.
  - unfold ChatInstance.handleKeyPress.
    destruct (_ && _); simpl; [|by intros ?%elem_of_nil].
    intros ->%handleSend_begin_effects _. by eexists.
  - intros ->%handleSend_begin_effects _. by eexists.
  - unfold ChatInstance.handleSelectWinner, ChatInstance.handleSelectWinner_resume,
      ChatInstance.winner_try.
    intros He Hf. exfalso.
    destruct o; simpl in He;
      [|destruct (URL_parses _); simpl in He; [destruct (ChatInstance.onWinnerSelected _)|]];
      simpl in He; in_cases He; discriminate.
  - unfold ChatInstance.handleIconClick.
    destruct (_ && _); [|by intros ?%elem_of_nil].
    by intros ->%list_elem_of_singleton.
Qed.

(** C8. When the key fetch of the mount is answered with a status in 200-299
    and a body whose [apiKey] is truthy, the handler calls
    [setEncryptedApiKey], which nothing declares: a [ReferenceError] is thrown
    inside the [try], caught by its [catch] and logged, and the handler
    returns.  However that fetch ends, the widget's props and state are
    what they were, so the fetched key never replaces the one passed as a
    prop, and every request to [/api/process] carries the prop's key. *)
Theorem fetched_key_is_never_used (p : ChatInstance.Props) (r : Net.response)
    (data apiKey : JS.value) :
  Net.ok r = true ->
  Net.json r = JS.Return data ->
  JS.get data "apiKey" = JS.Return apiKey ->
  JS.truthy apiKey = true ->
  ChatInstance.fetchApiKey_try (Net.Resolved r)
  = JS.Throw (JS.Exn JS.ReferenceError "setEncryptedApiKey is not defined")
  /\ ChatInstance.fetchApiKey p (Net.Resolved r)
     = (JS.Return tt,
        [ChatInstance.fetchApiKey_request p;
         Net.ConsoleError "Failed to load API key:"
           (JS.Exn JS.ReferenceError "setEncryptedApiKey is not defined")])
  /\ (forall URL_parses o i, (ChatInstance.step URL_parses (ChatInstance.KeyFetched o) i).1 = i)
  /\ (forall URL_parses ev i e,
         e ∈ (ChatInstance.step URL_parses ev i).2 ->
         Net.is_fetch_to "/api/process" e = true ->
         exists prompt,
           e = Net.Fetch "/api/process" false
                 (JS.Obj [("modelIdentifier",
                           JS.Str (ChatInstance.modelIdentifier (ChatInstance.props i)));
                          ("prompt", JS.Str prompt);
                          ("encryptedApiKey",
                           ChatInstance.encryptedApiKey (ChatInstance.props i))])).
Proof.
  intros Hok Hjson Hget Htruthy.
  assert (Htry : ChatInstance.fetchApiKey_try (Net.Resolved r)
                 = JS.Throw (JS.Exn JS.ReferenceError "setEncryptedApiKey is not defined")).
  { unfold ChatInstance.fetchApiKey_try. simpl. rewrite Hok, Hjson. simpl.
    rewrite Hget. simpl. by rewrite Htruthy. }
  split; [done|]. split.
  { unfold ChatInstance.fetchApiKey, ChatInstance.fetchApiKey_settle, App.with_request.
    by rewrite Htry. }
  split; [done|]. apply process_requests_carry_prop_key.
Qed.

Lemma fetched_key_is_never_used_witness :
  ChatInstance.fetchApiKey_try (Net.Resolved keyAnswer)
  = JS.Throw (JS.Exn JS.ReferenceError "setEncryptedApiKey is not defined")
  /\ ChatInstance.fetchApiKey (someProps (JS.Str "sk-1")) (Net.Resolved keyAnswer)
     = (JS.Return tt,
        [ChatInstance.fetchApiKey_request (someProps (JS.Str "sk-1"));
         Net.ConsoleError "Failed to load API key:"
           (JS.Exn JS.ReferenceError "setEncryptedApiKey is not defined")]).
Proof.
  destruct (fetched_key_is_never_used (someProps (JS.Str "sk-1")) keyAnswer
              (JS.Obj [("apiKey", JS.Str "sk-from-server")]) (JS.Str "sk-from-server"))
    as (H1 & H2 & _); [reflexivity..|].
  split; [exact H1 | exact H2].
Defined.

(** ** The chat widget: picking the winner *)

(** C5, as given, fails: when the request to [/api/select-winner] is rejected
    (the server cannot be reached), no page is opened. *)
Lemma winner_opens_nothing_when_unreachable :
  ChatInstance.showButtons replied = true
  /\ ChatInstance.shownReply replied = Some (JS.Str "hi there")
  /\ ~ posts_opens_reloads (fun _ => true) (someProps (JS.Str "sk-1")) replied
         (Net.Rejected (JS.Exn JS.TypeError "Failed to fetch")).
Proof.
  split; [reflexivity|]. split; [reflexivity|].
  intros (_ & H & _). vm_compute in H. in_cases H; discriminate.
Qed.

(** C5, amended.  Every winner selection first posts the exchange (model
    identifier, prompt, response) to [/api/select-winner], once, and ends, on
    the success and on the failure path alike, by setting the 500 ms timer
    that reloads the page.  Between the two it opens the target URL in a new
    tab, with the prompt and the reply appended as query parameters, exactly
    when the request was answered and the target URL parses; otherwise it
    opens nothing and alerts instead. *)
Theorem winner_reports_and_reloads (URL_parses : string -> bool)
    (p : ChatInstance.Props) (st : ChatInstance.State) (o : Net.outcome) :
  head (ChatInstance.handleSelectWinner URL_parses p st o)
  = Some (Net.Fetch "/api/select-winner" false
            (JS.Obj [("modelIdentifier", JS.Str (ChatInstance.modelIdentifier p));
                     ("prompt", JS.Str (ChatInstance.userPrompt st));
                     ("response", ChatInstance.aiResponse st)]))
  /\ Net.requests_to "/api/select-winner" (ChatInstance.handleSelectWinner URL_parses p st o)
     = [ChatInstance.winner_request p st]
  /\ last (ChatInstance.handleSelectWinner URL_parses p st o)
     = Some (Net.SetTimeout Net.ReloadPage 500)
  /\ (opened p st ∈ ChatInstance.handleSelectWinner URL_parses p st o
      <-> answered o && URL_parses (ChatInstance.modelUrl p) = true)
  /\ (forall href appended target,
         Net.WindowOpen href appended target
           ∈ ChatInstance.handleSelectWinner URL_parses p st o ->
         Net.WindowOpen href appended target = opened p st)
  /\ (Net.Alert "Failed to process winner selection"
        ∈ ChatInstance.handleSelectWinner URL_parses p st o
      <-> answered o && URL_parses (ChatInstance.modelUrl p) = false).
Proof.
  unfold ChatInstance.handleSelectWinner, ChatInstance.handleSelectWinner_resume,
    ChatInstance.winner_try, opened.
  destruct o as [e|r]; simpl;
    [|destruct (URL_parses (ChatInstance.modelUrl p)); simpl;
      [destruct (ChatInstance.onWinnerSelected p); simpl|]].
  all: split; [done|]; split; [done|]; split; [done|].
  all: split; [split; [intros H; in_cases H; discriminate || done
                      | intros; try discriminate; repeat first [by left | right]]|].
  all: split; [intros href appended target H; in_cases H; discriminate || done|].
  all: split; [intros H; in_cases H; discriminate || done
              | intros; try discriminate; repeat first [by left | right]].
Qed.

(** ** The chat widget over its lifetime *)

Section Lifetime.
Variable URL_parses : string -> bool.

#[local] Abbreviation step := (ChatInstance.step URL_parses).
#[local] Abbreviation run := (ChatInstance.run URL_parses).

Lemma handleSend_begin_keeps_hidden p st :
  ChatInstance.isInputHidden (ChatInstance.handleSend_begin p st).1
  = ChatInstance.isInputHidden st.
Proof.
  unfold ChatInstance.handleSend_begin.
  destruct (JS.nonempty _); simpl; [|done]. by destruct (JS.truthy _).
Qed.

Lemma step_keeps_hidden ev i : hiddenInput i -> hiddenInput (step ev i).1.
Proof.
  unfold hiddenInput. intros H. destruct ev; simpl; try done.
  - destruct (0 <? n)%nat; simpl; [|done]. by rewrite handleSend_begin_keeps_hidden.
  - unfold ChatInstance.handleKeyPress. destruct (_ && _); simpl; [|done].
    by rewrite handleSend_begin_keeps_hidden.
  - by rewrite handleSend_begin_keeps_hidden.
Qed.

Lemma hidden_disables_own_input ev i :
  hiddenInput i -> ownInput ev = true -> ChatInstance.enabled ev i = false.
Proof.
  unfold hiddenInput, ChatInstance.enabled, ChatInstance.inputShown. intros ->.
  by destruct ev.
Qed.

Lemma winner_makes_no_process_request p st o :
  Net.requests_to "/api/process" (ChatInstance.handleSelectWinner URL_parses p st o) = [].
Proof.
  unfold ChatInstance.handleSelectWinner, ChatInstance.handleSelectWinner_resume,
    ChatInstance.winner_try.
  destruct o; simpl; [done|].
  destruct (URL_parses _); simpl; [|done]. by destruct (ChatInstance.onWinnerSelected p).
Qed.

Lemma hidden_only_trigger_requests ev i :
  hiddenInput i ->
  ChatInstance.enabled ev i = true ->
  Net.requests_to "/api/process" (step ev i).2 ≠ [] ->
  exists n, ev = ChatInstance.TriggerChanged n
            /\ (ChatInstance.triggerSend (ChatInstance.props i) < n)%nat.
Proof.
  intros Hhid Hen Hreq.
  destruct (ownInput ev) eqn:Hown.
  { rewrite (hidden_disables_own_input ev i Hhid Hown) in Hen. discriminate. }
  destruct ev; try discriminate; simpl in Hreq; try done.
  - exists n. split; [done|]. simpl in Hen. by apply Nat.ltb_lt.
  - exfalso. apply Hreq. unfold ChatInstance.fetchApiKey_settle, try_catch.
    by destruct (ChatInstance.fetchApiKey_try o).
  - exfalso. apply Hreq. apply winner_makes_no_process_request.
  - exfalso. apply Hreq. unfold ChatInstance.handleIconClick. by destruct (_ && _).
Qed.

Lemma run_cons ev rest i r :
  run (ev :: rest) i = Some r ->
  ChatInstance.enabled ev i = true
  /\ exists r', run rest (step ev i).1 = Some r'
                /\ r = (r'.1, (ev, (step ev i).2) :: r'.2).
Proof.
  simpl. destruct (ChatInstance.enabled ev i); [|done]. split; [done|].
  destruct (run rest (step ev i).1) as [r'|]; simpl in *; [|done].
  exists r'. split; [done|]. congruence.
Qed.

Lemma run_snoc evs ev i r :
  run (evs ++ [ev]) i = Some r ->
  exists i', ChatInstance.enabled ev i' = true /\ r.1 = (step ev i').1.
Proof.
  revert i r. induction evs as [|ev' evs IH]; intros i r H.
  - apply run_cons in H as (Hen & r' & Hr' & ->). simpl in Hr'.
    injection Hr' as <-. by exists i.
  - apply run_cons in H as (_ & r' & Hr' & ->). by apply IH in Hr'.
Qed.

Lemma run_hidden evs i r :
  hiddenInput i ->
  run evs i = Some r ->
  hiddenInput r.1
  /\ forall ev effects, (ev, effects) ∈ r.2 ->
       ownInput ev = false
       /\ (Net.requests_to "/api/process" effects ≠ [] ->
           exists n, ev = ChatInstance.TriggerChanged n).
Proof.
  revert i r. induction evs as [|ev evs IH]; intros i r Hhid H.
  - injection H as <-. split; [done|]. by intros ev effects ?%elem_of_nil.
  - apply run_cons in H as (Hen & r' & Hr' & ->).
    destruct (IH _ _ (step_keeps_hidden ev i Hhid) Hr') as [Hfinal Hlog].
    split; [done|]. intros ev' effects [Heq|Hin]%elem_of_cons; [|by apply Hlog].
    injection Heq as -> ->. split.
    + destruct (ownInput ev) eqn:Hown; [|done].
      rewrite (hidden_disables_own_input ev i Hhid Hown) in Hen. discriminate.
    + intros Hreq.
      destruct (hidden_only_trigger_requests ev i Hhid Hen Hreq) as (n & -> & _).
      by exists n.
Qed.

End Lifetime.

(** C7. Once a send of a widget has completed, with a reply or with an
    error, the widget's input is hidden, and it is hidden after any events
    that follow: none of them comes from the widget's own input or send
    button, and the only events after which the widget makes a request to
    [/api/process] are changes of the trigger counter that the coordinator
    passes down. *)
Theorem first_send_is_terminal (URL_parses : string -> bool)
    (before after : list ChatInstance.event) (o : Net.outcome)
    (i0 : ChatInstance.Inst)
    (r1 r2 : ChatInstance.Inst * list (ChatInstance.event * list Net.effect)) :
  ChatInstance.run URL_parses (before ++ [ChatInstance.Settled o]) i0 = Some r1 ->
  ChatInstance.run URL_parses after r1.1 = Some r2 ->
  ChatInstance.inputShown (ChatInstance.state r1.1) = false
  /\ ChatInstance.showButtons (ChatInstance.state r1.1) = true
  /\ ChatInstance.inputShown (ChatInstance.state r2.1) = false
  /\ forall ev effects, (ev, effects) ∈ r2.2 ->
       ownInput ev = false
       /\ (Net.requests_to "/api/process" effects ≠ [] ->
           exists n, ev = ChatInstance.TriggerChanged n).
Proof.
  intros H1 H2. apply run_snoc in H1 as (i' & _ & Hi').
  assert (Hhid : hiddenInput r1.1) by (by rewrite Hi').
  destruct (run_hidden URL_parses after r1.1 r2 Hhid H2) as [Hfinal Hlog].
  unfold ChatInstance.inputShown. rewrite Hhid, Hfinal.
  split; [done|]. split; [by rewrite Hi'|]. done.
Qed.

Lemma first_send_is_terminal_witness :
  ChatInstance.inputShown (ChatInstance.state afterFirst.1) = false
  /\ ChatInstance.showButtons (ChatInstance.state afterFirst.1) = true
  /\ ChatInstance.inputShown (ChatInstance.state afterLater.1) = false
  /\ forall ev effects, (ev, effects) ∈ afterLater.2 ->
       ownInput ev = false
       /\ (Net.requests_to "/api/process" effects ≠ [] ->
           exists n, ev = ChatInstance.TriggerChanged n).
Proof.
  apply (first_send_is_terminal (fun _ => true) firstSend later hiThere mounted0
           afterFirst afterLater).
  - vm_compute. reflexivity.
  - vm_compute. reflexivity.
Defined.

(** ** The master send *)

Lemma triggerSend_handleSendMasterPrompt st :
  App.triggerSend (App.handleSendMasterPrompt st)
  = if JS.nonempty (JS.trim (App.masterPrompt st))
    then (App.triggerSend st + 1)%nat else App.triggerSend st.
Proof.
  unfold App.handleSendMasterPrompt.
  destruct (JS.nonempty _); [|done]. by destruct (App.isStarted st).
Qed.

(** Of all that can happen to the coordinator, only Enter in the master input
    with a prompt that is not blank changes the counter, and it adds one. *)
Lemma step_triggerSend icons now suffix ev w :
  App.triggerSend (App.step icons now suffix ev w).1.1
  = match ev with
    | App.MasterKeyDown key =>
        if String.eqb key "Enter" && JS.nonempty (JS.trim (App.masterPrompt w.1))
        then (App.triggerSend w.1 + 1)%nat
        else App.triggerSend w.1
    | _ => App.triggerSend w.1
    end.
Proof.
  destruct ev; simpl; try done.
  - unfold App.handleMasterPromptChange. by destruct (_ && _).
  - unfold App.handleKeyPress. destruct (String.eqb key "Enter"); simpl; [|done].
    apply triggerSend_handleSendMasterPrompt.
  - unfold App.handleIconSelect_resume.
    by destruct (App.fetchProviderModels_settle o) as [[models|e] logged].
  - unfold App.handleSaveApiKey_begin.
    destruct (negb (JS.nonempty _)); simpl; [done|]. by destruct (_ || _).
  - unfold App.handleSaveApiKey_resume.
    destruct (App.saveProviderApiKey_settle o) as [[[data|error]|e] logged]; simpl;
      try done.
    by destruct (App.newModels _ _ _ _).
  - unfold App.loadKeysForModels_resume. destruct needing; [done|].
    by destruct (mapM _ _).
Qed.

Lemma step_triggerSend_le icons now suffix ev w :
  (App.triggerSend w.1 <= App.triggerSend (App.step icons now suffix ev w).1.1)%nat.
Proof.
  rewrite step_triggerSend. destruct ev; try lia. destruct (_ && _); lia.
Qed.

Lemma truthy_props_key a m :
  JS.truthy (ChatInstance.encryptedApiKey (Arena.props_of a m))
  = JS.truthy (Model.encryptedApiKey m).
Proof. simpl. by destruct (Model.encryptedApiKey m). Qed.

Lemma triggered_effects a c :
  (0 < App.triggerSend a)%nat ->
  (Arena.triggered a c).2
  = if ready c
    then [ChatInstance.process_request (Arena.props_of a (Arena.model c)) (Arena.widget c)]
    else [].
Proof.
  intros H%Nat.ltb_lt. unfold Arena.triggered, ready. rewrite H.
  unfold ChatInstance.handleSend_begin. rewrite truthy_props_key.
  destruct (JS.nonempty _); simpl; [|done]. by destruct (JS.truthy _).
Qed.

(** C1, as given, fails: the master prompt is "hello", two widgets are
    mounted, and the one whose own input was cleared makes no request. *)
Lemma cleared_widget_sends_nothing :
  length (Arena.cells second_cleared) = 2%nat
  /\ JS.nonempty (JS.trim (App.masterPrompt (Arena.app second_cleared))) = true
  /\ App.masterInputShown (Arena.app second_cleared) = true
  /\ ~ one_request_each second_cleared.
Proof.
  split; [reflexivity|]. split; [reflexivity|]. split; [reflexivity|].
  intros (_ & _ & H). vm_compute in H.
  apply Forall_cons in H as [_ H]. apply Forall_cons in H as [H _]. discriminate.
Qed.

(** C1, amended.  A master send with a master prompt that is not blank raises
    [triggerSend] by exactly one (and nothing that happens to the coordinator
    ever lowers it); as a result every mounted widget whose own prompt is not
    blank and whose record has a key makes exactly one request to
    [/api/process], and every other widget makes none. *)
Theorem master_send_fans_out (w : Arena.World) :
  JS.nonempty (JS.trim (App.masterPrompt (Arena.app w))) = true ->
  App.triggerSend (Arena.app (Arena.sendMasterPrompt w).1)
  = (App.triggerSend (Arena.app w) + 1)%nat
  /\ (forall icons now suffix ev w',
         App.triggerSend w'.1 <= App.triggerSend (App.step icons now suffix ev w').1.1)%nat
  /\ Forall2
       (fun c effects =>
          effects
          = if ready c
            then [ChatInstance.process_request
                    (Arena.props_of (Arena.app (Arena.sendMasterPrompt w).1) (Arena.model c))
                    (Arena.widget c)]
            else [])
       (Arena.cells w) (Arena.sendMasterPrompt w).2.
Proof.
  intros Hprompt. split; [|split].
  - simpl. by rewrite triggerSend_handleSendMasterPrompt, Hprompt.
  - intros icons now suffix ev w'. apply step_triggerSend_le.
  - unfold Arena.sendMasterPrompt. simpl.
    pose proof (triggerSend_handleSendMasterPrompt (Arena.app w)) as Ht.
    rewrite Hprompt in Ht.
    destruct (_ =? _)%nat eqn:Heq; [apply Nat.eqb_eq in Heq; lia|].
    rewrite <- list_fmap_compose. apply Forall2_fmap_r, Forall_Forall2_diag.
    apply Forall_forall. intros c _. simpl. apply triggered_effects. lia.
Qed.

Lemma master_send_fans_out_witness :
  App.triggerSend (Arena.app (Arena.sendMasterPrompt second_cleared).1)
  = (App.triggerSend (Arena.app second_cleared) + 1)%nat
  /\ Forall2
       (fun c effects =>
          effects
          = if ready c
            then [ChatInstance.process_request
                    (Arena.props_of (Arena.app (Arena.sendMasterPrompt second_cleared).1)
                       (Arena.model c))
                    (Arena.widget c)]
            else [])
       (Arena.cells second_cleared) (Arena.sendMasterPrompt second_cleared).2.
Proof.
  destruct (master_send_fans_out second_cleared) as (H1 & _ & H2); [reflexivity|].
  split; [exact H1 | exact H2].
Defined.

(** ** Dismissing a widget *)

Lemma with_hidden_same c : Arena.with_hidden (Arena.hidden c) c = c.
Proof. by destruct c. Qed.

Lemma zip_dom (cells : list Arena.cell) :
  zip_with (fun c n => Arena.with_hidden (ChatInstance.hidden n) c) cells
    (map (fun c => {| ChatInstance.data_model := Model.id (Arena.model c);
                      ChatInstance.hidden := Arena.hidden c |}) cells)
  = cells.
Proof.
  induction cells as [|c cells IH]; [done|]. simpl. by rewrite IH, with_hidden_same.
Qed.

Lemma zip_hide j (cells : list Arena.cell) :
  zip_with (fun c n => Arena.with_hidden (ChatInstance.hidden n) c) cells
    (ChatInstance.hide j
       (map (fun c => {| ChatInstance.data_model := Model.id (Arena.model c);
                         ChatInstance.hidden := Arena.hidden c |}) cells))
  = alter (Arena.with_hidden true) j cells.
Proof.
  revert j. induction cells as [|c cells IH]; intros j; [done|].
  destruct j as [|j]; simpl.
  - f_equal. apply zip_dom.
  - rewrite with_hidden_same. f_equal. apply IH.
Qed.

Lemma alter_hidden_others j (cells : list Arena.cell) :
  map Arena.model (alter (Arena.with_hidden true) j cells) = map Arena.model cells
  /\ map Arena.widget (alter (Arena.with_hidden true) j cells) = map Arena.widget cells.
Proof.
  split.
  - rewrite (list_fmap_alter Arena.model (Arena.with_hidden true) id);
      [by apply list_alter_id | by apply Forall_forall].
  - rewrite (list_fmap_alter Arena.widget (Arena.with_hidden true) id);
      [by apply list_alter_id | by apply Forall_forall].
Qed.

(** Whatever [querySelector] finds, a dismiss that returns leaves the
    coordinator, the storage and every widget's record and state alone. *)
Lemma dismiss_frame querySelector i w w' :
  Arena.dismiss querySelector i w = JS.Return w' ->
  Arena.app w' = Arena.app w
  /\ Arena.localStorage w' = Arena.localStorage w
  /\ map Arena.model (Arena.cells w') = map Arena.model (Arena.cells w)
  /\ map Arena.widget (Arena.cells w') = map Arena.widget (Arena.cells w).
Proof.
  unfold Arena.dismiss. destruct (Arena.cells w !! i) as [c|]; [|by intros [= <-]].
  unfold ChatInstance.handleDismiss, Arena.dom.
  destruct (querySelector (ChatInstance.attribute_selector _) _) as [[j|]|e]; simpl;
    [| |done].
  - intros [= <-]. simpl. rewrite zip_hide. split; [done|]. split; [done|].
    apply alter_hidden_others.
  - destruct (querySelector ".chatContainer" _) as [[j|]|e]; simpl; [| |done].
    + intros [= <-]. simpl. rewrite zip_hide. split; [done|]. split; [done|].
      apply alter_hidden_others.
    + intros [= <-]. simpl. by rewrite zip_dom.
Qed.

Lemma first_with_lookup (dom : list ChatInstance.node) i n :
  NoDup (map ChatInstance.data_model dom) ->
  dom !! i = Some n ->
  ChatInstance.first_with (ChatInstance.data_model n) dom = Some i.
Proof.
  revert i. induction dom as [|n0 dom IH]; intros i Hnd Hi; [done|].
  apply NoDup_cons in Hnd as [Hfresh Hnd]. destruct i as [|i]; simpl in *.
  - injection Hi as ->. by rewrite String.eqb_refl.
  - destruct (String.eqb_spec (ChatInstance.data_model n0) (ChatInstance.data_model n))
      as [Heq|_].
    + exfalso. apply Hfresh. rewrite Heq. apply list_elem_of_fmap. exists n.
      split; [done|]. by apply list_elem_of_lookup_2 in Hi.
    + by rewrite (IH i Hnd Hi).
Qed.

Lemma load_shows_all ls w :
  Arena.load ls = JS.Return w -> Forall (fun c => Arena.hidden c = false) (Arena.cells w).
Proof.
  unfold Arena.load. destruct (App.mount ls) as [a|e]; simpl; [|done].
  intros [= <-]. simpl. apply Forall_fmap, Forall_forall. done.
Qed.

Lemma load_mounts_stored ls l :
  Storage.is_text "true" (ls !! "apiKeyConsent") = true ->
  ls !! "activeModels" = Some (Storage.ModelsJSON l) ->
  exists w, Arena.load ls = JS.Return w /\ map Arena.model (Arena.cells w) = l.
Proof.
  intros Hconsent Hmodels.
  unfold Arena.load, App.mount, App.loadActiveModels, App.loadConsent.
  rewrite Hconsent, Hmodels. simpl. eexists. split; [reflexivity|]. simpl.
  rewrite <- list_fmap_compose. unfold App.mounted.
  destruct l as [|m l]; simpl; [done|]. f_equal. apply list_fmap_id.
Qed.

(** For a widget whose identifier is plain, on a page where no two widgets
    share an identifier, the dismiss does what it is meant to do.
    Dismissing widget [i] hides its container node and nothing else: the
    coordinator's state (and so [activeModels]), [localStorage], and the
    record, the state and the node of every other widget are what they were;
    the dismissed widget keeps its record and state too.  Reloading gives the
    page that a reload without the dismiss gives, with no node hidden, so the
    dismissed widget, whose record is stored, is back. *)
Theorem dismiss_hides_until_reload
    (querySelector : string -> list ChatInstance.node -> JS.completion (option nat))
    (i : nat) (c : Arena.cell) (w : Arena.World) :
  ChatInstance.selects querySelector ->
  NoDup (map (fun c => Model.id (Arena.model c)) (Arena.cells w)) ->
  Arena.cells w !! i = Some c ->
  ChatInstance.plain (Model.id (Arena.model c)) = true ->
  exists w',
    Arena.dismiss querySelector i w = JS.Return w'
    /\ Arena.app w' = Arena.app w
    /\ Arena.localStorage w' = Arena.localStorage w
    /\ Arena.cells w' !! i = Some (Arena.with_hidden true c)
    /\ (forall j, j ≠ i -> Arena.cells w' !! j = Arena.cells w !! j)
    /\ Arena.reload w' = Arena.reload w
    /\ (forall w'', Arena.reload w' = JS.Return w'' ->
                    Forall (fun c' => Arena.hidden c' = false) (Arena.cells w''))
    /\ (forall l,
           Storage.is_text "true" (Arena.localStorage w !! "apiKeyConsent") = true ->
           Arena.localStorage w !! "activeModels" = Some (Storage.ModelsJSON l) ->
           Arena.model c ∈ l ->
           exists w'' c'',
             Arena.reload w' = JS.Return w''
             /\ c'' ∈ Arena.cells w''
             /\ Arena.model c'' = Arena.model c
             /\ Arena.hidden c'' = false).
Proof.
  intros [Hattr _] Hnd Hi Hplain.
  assert (Hfound : ChatInstance.first_with (Model.id (Arena.model c)) (Arena.dom w) = Some i).
  { apply (first_with_lookup (Arena.dom w) i
             {| ChatInstance.data_model := Model.id (Arena.model c);
                ChatInstance.hidden := Arena.hidden c |}).
    - unfold Arena.dom. by rewrite <- list_fmap_compose.
    - unfold Arena.dom. by rewrite list_lookup_fmap, Hi. }
  eexists. split.
  { unfold Arena.dismiss. rewrite Hi. unfold ChatInstance.handleDismiss. simpl.
    rewrite (Hattr _ _ Hplain), Hfound. simpl. reflexivity. }
  simpl. unfold Arena.dom. rewrite zip_hide.
  split; [done|]. split; [done|].
  split; [by rewrite list_lookup_alter_eq, Hi|].
  split; [intros j Hj; by rewrite list_lookup_alter_ne|].
  split; [done|]. split; [apply load_shows_all|].
  intros l Hconsent Hmodels Hin. unfold Arena.reload. simpl.
  destruct (load_mounts_stored _ l Hconsent Hmodels) as (w'' & Hload & Hcells).
  rewrite <- Hcells in Hin. apply list_elem_of_fmap in Hin as (c'' & Hc'' & Hin).
  exists w'', c''. split; [done|]. split; [done|]. split; [done|].
  apply load_shows_all in Hload. by apply (proj1 (Forall_forall _ _) Hload).
Qed.

Lemma strip_prefix_app prefix s : JS.strip_prefix prefix (prefix +:+ s) = Some s.
Proof.
  induction prefix as [|a prefix IH]; [by destruct s|].
  change (String a prefix +:+ s) with (String a (prefix +:+ s)). simpl.
  by rewrite Ascii.eqb_refl.
Qed.

Lemma quoted_plain id :
  ChatInstance.plain id = true -> quoted (id +:+ JS.dquote +:+ "]") = Some id.
Proof.
  induction id as [|c id IH]; [done|]. simpl. intros [Hc Hid]%andb_prop.
  change (String c id +:+ JS.dquote +:+ "]") with (String c (id +:+ JS.dquote +:+ "]")).
  simpl. by rewrite Hc, (IH Hid).
Qed.

Lemma querySelector_containers_selects : ChatInstance.selects querySelector_containers.
Proof.
  split; [|done]. intros id dom Hplain. unfold querySelector_containers.
  change (ChatInstance.attribute_selector id)
    with (("[data-model=" +:+ JS.dquote) +:+ (id +:+ JS.dquote +:+ "]")).
  destruct (String.eqb_spec (("[data-model=" +:+ JS.dquote) +:+ (id +:+ JS.dquote +:+ "]"))
              ".chatContainer") as [Heq|_].
  { vm_compute in Heq. discriminate. }
  rewrite strip_prefix_app. simpl. by rewrite (quoted_plain id Hplain).
Qed.

Lemma dismiss_hides_until_reload_witness :
  exists w',
    Arena.dismiss querySelector_containers 1 both_replied = JS.Return w'
    /\ Arena.app w' = Arena.app both_replied
    /\ Arena.localStorage w' = Arena.localStorage both_replied
    /\ Arena.cells w' !! 1%nat = Some (Arena.with_hidden true second)
    /\ (forall j, j ≠ 1%nat -> Arena.cells w' !! j = Arena.cells both_replied !! j)
    /\ Arena.reload w' = Arena.reload both_replied.
Proof.
  destruct (dismiss_hides_until_reload querySelector_containers 1 second both_replied)
    as (w' & H1 & H2 & H3 & H4 & H5 & H6 & _).
  - exact querySelector_containers_selects.
  - vm_compute. repeat constructor; intros H; in_cases H; discriminate.
  - vm_compute. reflexivity.
  - vm_compute. reflexivity.
  - exists w'. repeat split; assumption.
Defined.

(** C6.  The code hides another widget.  The server lists a model under the
    name [gpt\mini]; [handleSaveApiKey] builds the record [slashed] for it.
    On the page that holds the widget of [record "0"] and then the widget of
    [slashed], both with a reply and their action buttons, no node is hidden,
    and the dismiss button of the second widget hides the first widget and
    leaves the second on display.  The selector that [handleDismiss] builds
    around the identifier reads [\m] as the letter [m], so it finds no node,
    and the fallback hides the first container of the document, where its
    comment says the nearest. *)
Theorem dismiss_hides_another_widget
    (querySelector : string -> list ChatInstance.node -> JS.completion (option nat)) :
  ChatInstance.selects querySelector ->
  ChatInstance.reads_escapes querySelector ->
  App.newModels [] noon abcde slashedClosure = JS.Return [slashed]
  /\ Arena.model <$> Arena.cells slashed_page = [record "0"; slashed]
  /\ ChatInstance.showButtons <$> (Arena.widget <$> Arena.cells slashed_page) = [true; true]
  /\ Arena.hidden <$> Arena.cells slashed_page = [false; false]
  /\ exists w',
       Arena.dismiss querySelector 1 slashed_page = JS.Return w'
       /\ Arena.hidden <$> Arena.cells w' = [true; false].
Proof.
  intros [_ Hclass] Hescapes. split; [vm_compute; reflexivity|].
  split; [reflexivity|]. split; [reflexivity|]. split; [reflexivity|].
  pose proof (Hescapes "openai-gpt" "m"%char "ini-1700000000000-0-abcde"
                (Arena.dom slashed_page) eq_refl eq_refl eq_refl) as Hown.
  pose proof (Hclass (Arena.dom slashed_page)) as Hfirst.
  unfold Arena.dismiss.
  change (Arena.cells slashed_page !! 1%nat)
    with (Some {| Arena.model := slashed; Arena.widget := replied; Arena.hidden := false |}).
  unfold ChatInstance.handleDismiss.
  change (ChatInstance.modelIdentifier
            (Arena.props_of (Arena.app slashed_page)
               (Arena.model {| Arena.model := slashed; Arena.widget := replied;
                               Arena.hidden := false |})))
    with ("openai-gpt" +:+ String "\" (String "m" "ini-1700000000000-0-abcde")).
  rewrite Hown.
  change (ChatInstance.first_with ("openai-gpt" +:+ String "m" "ini-1700000000000-0-abcde")
            (Arena.dom slashed_page)) with (@None nat).
  cbn [mbind completion_bind JS.bind]. rewrite Hfirst.
  eexists. split; [reflexivity|]. vm_compute. reflexivity.
Qed.

Lemma unescaped_plain id :
  ChatInstance.plain id = true -> unescaped (id +:+ JS.dquote +:+ "]") = Some id.
Proof.
  induction id as [|c id IH]; [done|]. simpl. intros [Hc Hid]%andb_prop.
  change (String c id +:+ JS.dquote +:+ "]") with (String c (id +:+ JS.dquote +:+ "]")).
  cbn [unescaped]. rewrite Hc, (IH Hid).
  destruct (Ascii.eqb_spec c "\") as [->|_]; [discriminate|done].
Qed.

Lemma unescaped_escape front c back :
  ChatInstance.plain front = true -> ChatInstance.escapable c = true -> ChatInstance.plain back = true ->
  unescaped ((front +:+ String "\" (String c back)) +:+ JS.dquote +:+ "]")
  = Some (front +:+ String c back).
Proof.
  intros Hfront Hc Hback. induction front as [|a front IH].
  - change (("" +:+ String "\" (String c back)) +:+ JS.dquote +:+ "]")
      with (String "\" (String c (back +:+ JS.dquote +:+ "]"))).
    cbn [unescaped]. rewrite Ascii.eqb_refl, Hc, (unescaped_plain _ Hback). done.
  - simpl in Hfront. apply andb_prop in Hfront as [Ha Hfront].
    change ((String a front +:+ String "\" (String c back)) +:+ JS.dquote +:+ "]")
      with (String a ((front +:+ String "\" (String c back)) +:+ JS.dquote +:+ "]")).
    cbn [unescaped]. rewrite Ha, (IH Hfront).
    destruct (Ascii.eqb_spec a "\") as [->|_]; [discriminate|done].
Qed.

Lemma querySelector_escapes_known :
  ChatInstance.selects querySelector_escapes /\ ChatInstance.reads_escapes querySelector_escapes.
Proof.
  split; [split; [|done]|].
  - intros id dom Hplain. unfold querySelector_escapes.
    change (ChatInstance.attribute_selector id)
      with (("[data-model=" +:+ JS.dquote) +:+ (id +:+ JS.dquote +:+ "]")).
    destruct (String.eqb_spec (("[data-model=" +:+ JS.dquote) +:+ (id +:+ JS.dquote +:+ "]"))
                ".chatContainer") as [Heq|_].
    { vm_compute in Heq. discriminate. }
    rewrite strip_prefix_app. simpl. by rewrite (unescaped_plain id Hplain).
  - intros front c back dom Hfront Hc Hback. unfold querySelector_escapes.
    change (ChatInstance.attribute_selector (front +:+ String "\" (String c back)))
      with (("[data-model=" +:+ JS.dquote)
            +:+ ((front +:+ String "\" (String c back)) +:+ JS.dquote +:+ "]")).
    destruct (String.eqb_spec
                (("[data-model=" +:+ JS.dquote)
                 +:+ ((front +:+ String "\" (String c back)) +:+ JS.dquote +:+ "]"))
                ".chatContainer") as [Heq|_].
    { vm_compute in Heq. discriminate. }
    rewrite strip_prefix_app. simpl. by rewrite (unescaped_escape _ _ _ Hfront Hc Hback).
Qed.

Lemma dismiss_hides_another_widget_witness :
  App.newModels [] noon abcde slashedClosure = JS.Return [slashed]
  /\ Arena.model <$> Arena.cells slashed_page = [record "0"; slashed]
  /\ ChatInstance.showButtons <$> (Arena.widget <$> Arena.cells slashed_page) = [true; true]
  /\ Arena.hidden <$> Arena.cells slashed_page = [false; false]
  /\ exists w',
       Arena.dismiss querySelector_escapes 1 slashed_page = JS.Return w'
       /\ Arena.hidden <$> Arena.cells w' = [true; false].
Proof.
  apply (dismiss_hides_another_widget querySelector_escapes);
    apply querySelector_escapes_known.
Defined.

(** ** The icons and the identifiers of new records *)

Lemma split_nonempty sep s : exists piece pieces, JS.split sep s = piece :: pieces.
Proof.
  induction s as [|c s (piece & pieces & IH)]; simpl; [by eauto|].
  destruct (Ascii.eqb c sep); [by eauto|]. rewrite IH. eauto.
Qed.

Lemma split_app sep a b :
  JS.split sep (a +:+ String sep b) = JS.split sep a ++ JS.split sep b.
Proof.
  induction a as [|c a IH].
  - change ("" +:+ String sep b) with (String sep b). simpl. by rewrite Ascii.eqb_refl.
  - change (String c a +:+ String sep b) with (String c (a +:+ String sep b)). simpl.
    destruct (Ascii.eqb c sep); [by rewrite IH|].
    rewrite IH. by destruct (split_nonempty sep a) as (piece & pieces & ->).
Qed.

Lemma split_whole sep s : occurs sep s = false -> JS.split sep s = [s].
Proof.
  induction s as [|c s IH]; [done|]. simpl. intros [Hc Hs]%orb_false_elim.
  by rewrite Hc, (IH Hs).
Qed.

Lemma replace_extension name :
  occurs "." name = false -> JS.replace ".svg" "" (name +:+ ".svg") = name.
Proof.
  induction name as [|c name IH]; [done|]. intros [Hc Hs]%orb_false_elim.
  change (String c name +:+ ".svg") with (String c (name +:+ ".svg")).
  cbn [JS.replace JS.strip_prefix]. rewrite Ascii.eqb_sym, Hc. by rewrite (IH Hs).
Qed.

(** X1. The name of an icon is the file name of its SVG without the
    extension: for a path [dir/name.svg] whose [name] holds no slash and no
    dot, [path.split('/').pop().replace('.svg', '')] is [name], and the icon
    made of that entry carries this name and the URL that the module exports. *)
Theorem icon_named_by_file (dir name url : string) :
  occurs "/" name = false ->
  occurs "." name = false ->
  App.fileName (dir +:+ "/" +:+ name +:+ ".svg") = name
  /\ App.iconsOf [(dir +:+ "/" +:+ name +:+ ".svg", url)]
     = [{| Icon.path := url; Icon.name := name |}].
Proof.
  intros Hslash Hdot.
  assert (H : App.fileName (dir +:+ "/" +:+ name +:+ ".svg") = name).
  { unfold App.fileName.
    change (dir +:+ "/" +:+ name +:+ ".svg") with (dir +:+ String "/" (name +:+ ".svg")).
    rewrite split_app, (split_whole "/" (name +:+ ".svg")).
    - rewrite last_snoc. simpl. by apply replace_extension.
    - clear -Hslash. induction name as [|c name IH]; [done|].
      apply orb_false_elim in Hslash as [Hc Hs].
      change (String c name +:+ ".svg") with (String c (name +:+ ".svg")). simpl.
      by rewrite Hc, (IH Hs). }
  split; [done|]. unfold App.iconsOf. simpl. by rewrite H.
Qed.

Lemma icon_named_by_file_witness :
  App.fileName ("./assets" +:+ "/" +:+ "openai" +:+ ".svg") = "openai"
  /\ App.iconsOf [("./assets" +:+ "/" +:+ "openai" +:+ ".svg", "/assets/openai-1a2b.svg")]
     = [{| Icon.path := "/assets/openai-1a2b.svg"; Icon.name := "openai" |}].
Proof. apply (icon_named_by_file "./assets" "openai" "/assets/openai-1a2b.svg"); reflexivity. Defined.

Lemma digits_no_dash d : occurs "-" (NilEmpty.string_of_uint d) = false.
Proof. induction d; simpl; done. Qed.

Lemma string_of_nat_no_dash n : occurs "-" (JS.string_of_nat n) = false.
Proof.
  unfold JS.string_of_nat, NilZero.string_of_uint.
  destruct (Nat.to_uint n); try apply digits_no_dash. done.
Qed.

Lemma string_of_nat_inj n n' : JS.string_of_nat n = JS.string_of_nat n' -> n = n'.
Proof.
  unfold JS.string_of_nat. intros H.
  assert (Hnn : forall k, Nat.to_uint k <> Decimal.Nil).
  { intros k. rewrite <- (DecimalNat.Unsigned.of_to k) at 1.
    rewrite DecimalNat.Unsigned.to_of. apply DecimalFacts.unorm_nonnil. }
  apply DecimalNat.Unsigned.to_uint_inj.
  pose proof (NilZero.usu _ (Hnn n)) as H1. pose proof (NilZero.usu _ (Hnn n')) as H2.
  rewrite H in H1. congruence.
Qed.

Lemma identifier_inj now suffix c modelName i j :
  (forall k, occurs "-" (suffix k) = false) ->
  identifier now suffix c modelName i = identifier now suffix c modelName j -> i = j.
Proof.
  intros Hsuffix H. apply (f_equal (JS.split "-")) in H. unfold identifier in H.
  change (JS.split "-"
            (App.s_provider c +:+ String "-" (JS.to_string modelName +:+ String "-"
               (JS.string_of_Z (now i) +:+ String "-" (JS.string_of_nat i +:+ String "-" (suffix i)))))
          = JS.split "-"
            (App.s_provider c +:+ String "-" (JS.to_string modelName +:+ String "-"
               (JS.string_of_Z (now j) +:+ String "-" (JS.string_of_nat j +:+ String "-" (suffix j))))))
    in H.
  rewrite !split_app in H.
  rewrite !(split_whole _ _ (Hsuffix _)), !(split_whole _ _ (string_of_nat_no_dash _)) in H.
  rewrite !app_assoc in H.
  apply app_inj_tail in H as [H _]. apply app_inj_tail in H as [_ H].
  by apply string_of_nat_inj.
Qed.

(** X12. The records that one run of [handleSaveApiKey] builds have
    pairwise different identifiers, whatever the clock gives and whatever the
    provider and the model are called, as long as the random suffixes hold no
    hyphen (they are made of digits and lower-case letters): the index alone
    tells two records of a batch apart. *)
Theorem batch_identifiers_distinct icons now suffix c new :
  (forall k, occurs "-" (suffix k) = false) ->
  App.newModels icons now suffix c = JS.Return new ->
  NoDup (Model.id <$> new).
Proof.
  intros Hsuffix. unfold App.newModels.
  destruct (App.modelNameOf (App.s_model c)) as [modelName|e]; simpl; [|done].
  intros H%mapM_Return.
  assert (Hids : Model.id <$> new = identifier now suffix c modelName <$> seq 0 (App.s_count c)).
  { revert H. generalize (seq 0 (App.s_count c)). intros l H.
    induction H as [|i m l l' Hi _ IH]; [done|]. rewrite !fmap_cons. f_equal; [|done].
    unfold App.newModel in Hi.
    destruct (App.getProviderURL (App.s_provider c)) as [url|e]; simpl in Hi; [|done].
    by injection Hi as <-. }
  rewrite Hids. apply NoDup_fmap_2; [|apply NoDup_seq].
  intros i j. by apply identifier_inj.
Qed.

Lemma batch_identifiers_distinct_witness : NoDup (Model.id <$> batch).
Proof.
  apply (batch_identifiers_distinct [] noon abcde three batch).
  - intros k. reflexivity.
  - vm_compute. reflexivity.
Defined.

(** ** Consent *)

(** X2. Accepting the consent dialog closes it and is remembered:
    [handleConsent] stores ['true'] under ['apiKeyConsent'], so a coordinator
    that mounts on that storage has consent, shows no dialog, and mounts a
    widget for every record it loaded. *)
Theorem consent_is_remembered (w : App.State * gmap string Storage.item) (a : App.State) :
  App.mount (App.handleConsent w).2 = JS.Return a ->
  App.hasConsented (App.handleConsent w).1 = true
  /\ App.showConsentModal (App.handleConsent w).1 = false
  /\ App.hasConsented a = true
  /\ App.showConsentModal a = false
  /\ App.mounted a = App.activeModels a.
Proof.
  unfold App.mount, App.loadActiveModels, App.loadConsent, App.handleConsent. simpl.
  rewrite lookup_insert_eq. simpl.
  destruct (Storage.parse_models _) as [saved|e]; simpl; [|done].
  intros [= <-]. by destruct (0 <? length saved)%nat.
Qed.

Lemma consent_is_remembered_witness :
  App.hasConsented (App.handleConsent (App.initial, ∅)).1 = true
  /\ App.showConsentModal (App.handleConsent (App.initial, ∅)).1 = false
  /\ App.hasConsented (App.setHasConsented true App.initial) = true
  /\ App.showConsentModal (App.setHasConsented true App.initial) = false
  /\ App.mounted (App.setHasConsented true App.initial)
     = App.activeModels (App.setHasConsented true App.initial).
Proof.
  apply (consent_is_remembered (App.initial, ∅) (App.setHasConsented true App.initial)).
  vm_compute. reflexivity.
Defined.

(** X3. Rejecting removes the stored consent and reloads the page,
    and that is all: the list stored under ['activeModels'] stays, keys
    included.  The coordinator that mounts afterwards shows the consent dialog
    and no widget, but it has loaded the stored records, and accepting then
    mounts a widget for each of them. *)
Theorem reject_keeps_stored_records (w : App.State * gmap string Storage.item)
    (a : App.State) :
  App.mount (App.handleReject w).1.2 = JS.Return a ->
  (App.handleReject w).2 = [Net.LocationReload]
  /\ App.showConsentModal a = true
  /\ App.mounted a = []
  /\ (App.handleReject w).1.2 !! "activeModels" = w.2 !! "activeModels"
  /\ Storage.parse_models (w.2 !! "activeModels") = JS.Return (App.activeModels a)
  /\ App.mounted (App.handleConsent (a, (App.handleReject w).1.2)).1 = App.activeModels a.
Proof.
  unfold App.mount, App.loadActiveModels, App.loadConsent, App.handleReject. simpl.
  rewrite lookup_delete_eq, lookup_delete_ne by done. simpl.
  destruct (Storage.parse_models _) as [saved|e]; simpl; [|done].
  intros [= <-]. destruct saved; done.
Qed.

Lemma reject_keeps_stored_records_witness :
  (App.handleReject (Arena.app opened_page, stored)).2 = [Net.LocationReload]
  /\ App.showConsentModal
       (App.setActiveModels (fun _ => [record "0"; record "1"])
          (App.setShowConsentModal true App.initial)) = true
  /\ App.mounted
       (App.setActiveModels (fun _ => [record "0"; record "1"])
          (App.setShowConsentModal true App.initial)) = []
  /\ (App.handleReject (Arena.app opened_page, stored)).1.2 !! "activeModels"
     = (Arena.app opened_page, stored).2 !! "activeModels"
  /\ Storage.parse_models ((Arena.app opened_page, stored).2 !! "activeModels")
     = JS.Return (App.activeModels
                    (App.setActiveModels (fun _ => [record "0"; record "1"])
                       (App.setShowConsentModal true App.initial)))
  /\ App.mounted
       (App.handleConsent
          (App.setActiveModels (fun _ => [record "0"; record "1"])
             (App.setShowConsentModal true App.initial),
           (App.handleReject (Arena.app opened_page, stored)).1.2)).1
     = App.activeModels
         (App.setActiveModels (fun _ => [record "0"; record "1"])
            (App.setShowConsentModal true App.initial)).
Proof.
  apply (reject_keeps_stored_records (Arena.app opened_page, stored)
           (App.setActiveModels (fun _ => [record "0"; record "1"])
              (App.setShowConsentModal true App.initial))).
  vm_compute. reflexivity.
Defined.

(** ** The coordinator over its lifetime *)

Lemma keyless_with_key k m : keyless (Model.with_key k m) = keyless m.
Proof. done. Qed.

(** What an event does to [activeModels] and to the list in the storage:
    either the records stay, up to their keys, and the stored list stays, or
    new records are appended and the whole list is stored. *)
Lemma step_models icons now suffix ev w :
  (keyless <$> App.activeModels (App.step icons now suffix ev w).1.1
   = keyless <$> App.activeModels w.1
   /\ (App.step icons now suffix ev w).1.2 !! "activeModels" = w.2 !! "activeModels")
  \/ (exists new,
        App.activeModels (App.step icons now suffix ev w).1.1 = App.activeModels w.1 ++ new
        /\ (App.step icons now suffix ev w).1.2 !! "activeModels"
           = Some (Storage.ModelsJSON (App.activeModels w.1 ++ new))).
Proof.
  destruct ev; simpl; try (by left).
  - left. split; [done|]. by rewrite lookup_insert_ne.
  - left. split; [done|]. by rewrite lookup_delete_ne.
  - left. unfold App.handleMasterPromptChange. by destruct (_ && _).
  - left. unfold App.handleKeyPress, App.handleSendMasterPrompt.
    destruct (String.eqb key "Enter"); simpl; [|done].
    destruct (JS.nonempty _); [|done]. by destruct (App.isStarted w.1).
  - left. unfold App.handleIconSelect_resume.
    by destruct (App.fetchProviderModels_settle o) as [[models|e] logged].
  - left. unfold App.handleSaveApiKey_begin.
    destruct (negb (JS.nonempty _)); simpl; [done|]. by destruct (_ || _).
  - unfold App.handleSaveApiKey_resume.
    destruct (App.saveProviderApiKey_settle o) as [[[data|error]|e] logged]; simpl;
      try (by left).
    destruct (App.newModels _ _ _ _) as [new|e]; simpl; [|by left].
    right. exists new. split; [done|]. by rewrite lookup_insert_eq.
  - left. unfold App.loadKeysForModels_resume. destruct needing; [done|].
    destruct (mapM _ _); simpl; [|done]. split; [|done].
    rewrite <- list_fmap_compose. apply list_fmap_ext. intros i m _. simpl.
    by destruct (_ !! Model.id m).
Qed.

(** X4. An event of the coordinator writes to at most one entry of
    [localStorage]: the consent buttons set or remove ['apiKeyConsent'], a
    save that has settled sets ['activeModels'].  Every other event, the
    settling of the key-loading effect among them, leaves every entry as it
    was, and each event leaves alone every entry but the one it writes. *)
Theorem storage_keys_written icons now suffix ev w k :
  k ∉ written ev ->
  (App.step icons now suffix ev w).1.2 !! k = w.2 !! k.
Proof.
  intros Hk. destruct ev; simpl in *; try done.
  - apply lookup_insert_ne. intros <-. apply Hk. by left.
  - apply lookup_delete_ne. intros <-. apply Hk. by left.
  - unfold App.handleSaveApiKey_resume.
    destruct (App.saveProviderApiKey_settle o) as [[[data|error]|e] logged]; simpl;
      try done.
    destruct (App.newModels _ _ _ _) as [new|e]; simpl; [|done].
    apply lookup_insert_ne. intros <-. apply Hk. by left.
Qed.

Lemma storage_keys_written_witness :
  (App.step [] noon abcde (App.KeysSettled [record "0"] [Net.Resolved keyAnswer])
     typed_hello).1.2 !! "activeModels"
  = typed_hello.2 !! "activeModels".
Proof.
  apply (storage_keys_written [] noon abcde
           (App.KeysSettled [record "0"] [Net.Resolved keyAnswer]) typed_hello "activeModels").
  apply not_elem_of_nil.
Defined.

(** X5. Whatever happens to the coordinator, [activeModels] keeps
    the records it had, in their order, and only ever grows at its end; all
    that can change in a record is its key. *)
Theorem models_are_never_removed icons now suffix evs w :
  exists new,
    keyless <$> App.activeModels (App.run icons now suffix evs w).1
    = (keyless <$> App.activeModels w.1) ++ new.
Proof.
  revert w. induction evs as [|ev evs IH]; intros w; simpl.
  - exists []. by rewrite app_nil_r.
  - destruct (IH (App.step icons now suffix ev w).1) as [new ->].
    destruct (step_models icons now suffix ev w) as [[-> _]|(new' & -> & _)]; [by eauto|].
    exists ((keyless <$> new') ++ new). by rewrite fmap_app, app_assoc.
Qed.

(** X6. At any moment after the mount, the list stored under
    ['activeModels'] holds the records of [activeModels] in the same order, up
    to their keys: a coordinator that mounts on the storage as it then stands
    does return, and loads those records. *)
Theorem reload_restores_models icons now suffix ls a evs :
  App.mount ls = JS.Return a ->
  exists a',
    App.mount (App.run icons now suffix evs (a, ls)).2 = JS.Return a'
    /\ keyless <$> App.activeModels a'
       = keyless <$> App.activeModels (App.run icons now suffix evs (a, ls)).1.
Proof.
  intros Hmount.
  assert (H : exists l, Storage.parse_models ((a, ls).2 !! "activeModels") = JS.Return l
                        /\ keyless <$> App.activeModels (a, ls).1 = keyless <$> l).
  { unfold App.mount, App.loadActiveModels in Hmount. simpl.
    destruct (Storage.parse_models _) as [saved|e]; simpl in Hmount; [|done].
    injection Hmount as <-. exists saved. split; [done|].
    destruct saved; [|done]. simpl. unfold App.loadConsent.
    by destruct (Storage.is_text _ _). }
  clear Hmount. revert H. generalize (a, ls). clear a ls.
  induction evs as [|ev evs IH]; intros w (l & Hparse & Hl).
  - simpl. unfold App.mount, App.loadActiveModels. rewrite Hparse. simpl.
    eexists. split; [reflexivity|]. rewrite Hl.
    destruct l; simpl; [|done]. unfold App.loadConsent. by destruct (Storage.is_text _ _).
  - simpl. apply IH.
    destruct (step_models icons now suffix ev w) as [[Hm Hs]|(new & Hm & Hs)].
    + exists l. rewrite Hs, Hm. done.
    + exists (App.activeModels w.1 ++ new). rewrite Hs, Hm. done.
Qed.

Lemma reload_restores_models_witness :
  exists a',
    App.mount (App.run [] noon abcde [App.MasterTyped "hello"; App.RejectClicked]
                 (Arena.app opened_page, stored)).2 = JS.Return a'
    /\ keyless <$> App.activeModels a'
       = keyless <$> App.activeModels
                       (App.run [] noon abcde [App.MasterTyped "hello"; App.RejectClicked]
                          (Arena.app opened_page, stored)).1.
Proof.
  apply (reload_restores_models [] noon abcde stored (Arena.app opened_page)
           [App.MasterTyped "hello"; App.RejectClicked]).
  vm_compute. reflexivity.
Defined.

Lemma step_length_models icons now suffix ev w :
  (length (App.activeModels w.1)
   <= length (App.activeModels (App.step icons now suffix ev w).1.1))%nat.
Proof.
  destruct (step_models icons now suffix ev w) as [[Hm _]|(new & -> & _)].
  - apply (f_equal length) in Hm. rewrite !length_fmap in Hm. lia.
  - rewrite length_app. lia.
Qed.

Lemma sent_master_input_stays_hidden icons now suffix evs w :
  (0 < App.triggerSend w.1)%nat ->
  (0 < length (App.activeModels w.1))%nat ->
  App.masterInputShown (App.run icons now suffix evs w).1 = false.
Proof.
  revert w. induction evs as [|ev evs IH]; intros w Ht Hm.
  - cbn [App.run]. unfold App.masterInputShown.
    apply Nat.ltb_lt in Ht. rewrite Ht.
    destruct (length (App.activeModels w.1)); [lia|]. simpl.
    by destruct (negb _ && _).
  - cbn [App.run]. apply IH.
    + pose proof (step_triggerSend_le icons now suffix ev w). lia.
    + pose proof (step_length_models icons now suffix ev w). lia.
Qed.

(** X7. Enter in the master input with a prompt that is not blank
    and at least one record takes the master input, and the add button that
    sits next to it, off the screen, and nothing that happens afterwards
    brings them back. *)
Theorem master_input_is_one_shot icons now suffix w evs :
  JS.nonempty (JS.trim (App.masterPrompt w.1)) = true ->
  (0 < length (App.activeModels w.1))%nat ->
  App.masterInputShown
    (App.run icons now suffix (App.MasterKeyDown "Enter" :: evs) w).1 = false.
Proof.
  intros Hprompt Hmodels. cbn [App.run]. apply sent_master_input_stays_hidden.
  - rewrite step_triggerSend. simpl. rewrite Hprompt. lia.
  - pose proof (step_length_models icons now suffix (App.MasterKeyDown "Enter") w). lia.
Qed.

Lemma master_input_is_one_shot_witness :
  App.masterInputShown
    (App.run [] noon abcde (App.MasterKeyDown "Enter" :: [App.MasterTyped ""]) typed_hello).1
  = false.
Proof.
  apply (master_input_is_one_shot [] noon abcde typed_hello [App.MasterTyped ""]).
  - reflexivity.
  - vm_compute. lia.
Defined.

Lemma step_isStarted icons now suffix ev w :
  App.isStarted w.1 = true -> App.isStarted (App.step icons now suffix ev w).1.1 = true.
Proof.
  intros H. destruct ev; simpl; try done.
  - unfold App.handleMasterPromptChange. simpl. rewrite H. by rewrite andb_false_r.
  - unfold App.handleKeyPress, App.handleSendMasterPrompt.
    destruct (String.eqb key "Enter"); simpl; [|done].
    destruct (JS.nonempty _); [|done]. by rewrite H.
  - unfold App.handleIconSelect_resume.
    by destruct (App.fetchProviderModels_settle o) as [[models|e] logged].
  - unfold App.handleSaveApiKey_begin.
    destruct (negb (JS.nonempty _)); simpl; [done|]. by destruct (_ || _).
  - unfold App.handleSaveApiKey_resume.
    destruct (App.saveProviderApiKey_settle o) as [[[data|error]|e] logged]; simpl;
      try done.
    by destruct (App.newModels _ _ _ _).
  - unfold App.loadKeysForModels_resume. destruct needing; [done|].
    by destruct (mapM _ _).
Qed.

Lemma step_sent_isStarted icons now suffix ev w :
  ((0 < App.triggerSend w.1)%nat -> App.isStarted w.1 = true) ->
  (0 < App.triggerSend (App.step icons now suffix ev w).1.1)%nat ->
  App.isStarted (App.step icons now suffix ev w).1.1 = true.
Proof.
  intros H. rewrite step_triggerSend.
  destruct ev; try (intros Ht; apply step_isStarted; by apply H).
  simpl. unfold App.handleKeyPress, App.handleSendMasterPrompt.
  destruct (String.eqb key "Enter"); simpl; [|done].
  destruct (JS.nonempty _); simpl; [|done].
  intros _. by destruct (App.isStarted w.1) eqn:Hs.
Qed.

Lemma run_isStarted icons now suffix evs w :
  App.isStarted w.1 = true -> App.isStarted (App.run icons now suffix evs w).1 = true.
Proof.
  revert w. induction evs as [|ev evs IH]; intros w H; [done|].
  cbn [App.run]. apply IH. by apply step_isStarted.
Qed.

(** X8. From the mount on, once the trigger counter is positive
    [isStarted] is set, and it stays set whatever follows: after a master
    send the chat grid is on display and the welcome screen never returns. *)
Theorem chat_grid_replaces_welcome icons now suffix ls a evs more :
  App.mount ls = JS.Return a ->
  (0 < App.triggerSend (App.run icons now suffix evs (a, ls)).1)%nat ->
  App.isStarted (App.run icons now suffix (evs ++ more) (a, ls)).1 = true
  /\ App.welcomeShown (App.run icons now suffix (evs ++ more) (a, ls)).1 = false.
Proof.
  intros Hmount Ht.
  assert (H : App.isStarted (App.run icons now suffix evs (a, ls)).1 = true).
  { assert (H0 : (0 < App.triggerSend (a, ls).1)%nat -> App.isStarted (a, ls).1 = true).
    { unfold App.mount, App.loadActiveModels, App.loadConsent in Hmount.
      destruct (Storage.parse_models _) as [saved|e]; simpl in Hmount; [|done].
      injection Hmount as <-. simpl.
      destruct (0 <? length saved)%nat, (Storage.is_text _ _); simpl; lia. }
    revert Ht H0. generalize (a, ls). clear.
    induction evs as [|ev evs IH]; intros w Ht H0; [by apply H0|].
    cbn [App.run] in *. apply IH; [done|]. by apply step_sent_isStarted. }
  assert (H' : App.isStarted (App.run icons now suffix (evs ++ more) (a, ls)).1 = true).
  { clear -H. revert H. generalize (a, ls). induction evs as [|ev evs IH]; intros w H.
    - by apply run_isStarted.
    - cbn [App.run app] in *. by apply IH. }
  split; [done|]. unfold App.welcomeShown. rewrite H'. by destruct (negb _ && _).
Qed.

Lemma chat_grid_replaces_welcome_witness :
  App.isStarted
    (App.run [] noon abcde
       ([App.MasterTyped "hello"; App.MasterKeyDown "Enter"] ++ [App.MasterTyped ""])
       (Arena.app opened_page, stored)).1 = true
  /\ App.welcomeShown
       (App.run [] noon abcde
          ([App.MasterTyped "hello"; App.MasterKeyDown "Enter"] ++ [App.MasterTyped ""])
          (Arena.app opened_page, stored)).1 = false.
Proof.
  apply (chat_grid_replaces_welcome [] noon abcde stored (Arena.app opened_page)
           [App.MasterTyped "hello"; App.MasterKeyDown "Enter"] [App.MasterTyped ""]).
  - vm_compute. reflexivity.
  - vm_compute. lia.
Defined.

(** ** The checks before a save *)

(** X9. [handleSaveApiKey] makes its request to [/api/keys/save] exactly
    when the key typed is not blank and a model and a provider are selected:
    it then sends that provider and the key as typed, with credentials, and
    holds on to them, to the selected model and to the instance count.  Every
    request it makes is of that kind.  When the checks fail it makes no
    request, holds on to nothing, and only sets the message to one of its
    two refusals. *)
Theorem save_contacts_server_iff_valid (st : App.State) :
  (forall provider,
      valid st provider ->
      App.handleSaveApiKey_begin st
      = (App.setSaveMessage "⏳ Saving..." (App.setSavingApiKey true st),
         [App.saveProviderApiKey_request provider (App.apiKeyInput (App.modal st))],
         Some (closure st provider)))
  /\ (forall request,
         request ∈ (App.handleSaveApiKey_begin st).1.2 ->
         exists provider,
           valid st provider
           /\ request
              = Net.Fetch "/api/keys/save" true
                  (JS.Obj [("provider", JS.Str provider);
                           ("apiKey", JS.Str (App.apiKeyInput (App.modal st)))]))
  /\ ((forall provider, ~ valid st provider) ->
      (App.handleSaveApiKey_begin st).1.2 = []
      /\ (App.handleSaveApiKey_begin st).2 = None
      /\ exists message,
           message ∈ refusals
           /\ (App.handleSaveApiKey_begin st).1.1 = App.setSaveMessage message st).
Proof.
  split; [apply handleSaveApiKey_begin_valid|].
  unfold App.handleSaveApiKey_begin, valid, refusals.
  destruct (JS.nonempty (JS.trim _)) eqn:Hkey; simpl.
  - destruct (JS.truthy (App.selectedModel _)) eqn:Hmodel; simpl.
    + destruct (App.selectedProvider _) as [provider|] eqn:Hprov; simpl.
      * destruct (JS.nonempty provider) eqn:Hne; simpl.
        -- split.
           ++ intros request ->%list_elem_of_singleton. by exists provider.
           ++ intros Hno. exfalso. by apply (Hno provider).
        -- split; [by intros request ?%elem_of_nil|]. intros _.
           split; [done|]. split; [done|]. eexists. split; [|done]. right. by left.
      * split; [by intros request ?%elem_of_nil|]. intros _.
        split; [done|]. split; [done|]. eexists. split; [|done]. right. by left.
    + split; [by intros request ?%elem_of_nil|]. intros _.
      split; [done|]. split; [done|]. eexists. split; [|done]. right. by left.
  - split; [by intros request ?%elem_of_nil|]. intros _.
    split; [done|]. split; [done|]. eexists. split; [|done]. by left.
Qed.

Lemma save_contacts_server_iff_valid_witness :
  App.handleSaveApiKey_begin (filled "openai")
  = (App.setSaveMessage "⏳ Saving..." (App.setSavingApiKey true (filled "openai")),
     [App.saveProviderApiKey_request "openai" (App.apiKeyInput (App.modal (filled "openai")))],
     Some (closure (filled "openai") "openai")).
Proof.
  apply (proj1 (save_contacts_server_iff_valid (filled "openai")) "openai").
  by apply filled_valid.
Defined.

(** X10. The save button is disabled while the key typed is blank or
    a save is under way.  So a click on it never produces the "Please enter
    an API key" message: it either asks for a model to be selected or makes
    the request, and once it has made the request the button is disabled. *)
Theorem save_button_guards (st : App.State) :
  App.saveEnabled st = true ->
  (App.handleSaveApiKey_begin st).1.1 <> App.setSaveMessage "❌ Please enter an API key" st
  /\ ((App.handleSaveApiKey_begin st).1.2 = [] ->
      (App.handleSaveApiKey_begin st).1.1 = App.setSaveMessage "❌ Please select a model" st)
  /\ ((App.handleSaveApiKey_begin st).1.2 <> [] ->
      App.saveEnabled (App.handleSaveApiKey_begin st).1.1 = false).
Proof.
  unfold App.saveEnabled. intros H.
  apply andb_prop in H as [_ H]. apply negb_true_iff, orb_false_elim in H as [_ H].
  apply negb_false_iff in H. unfold App.handleSaveApiKey_begin. rewrite H. simpl.
  destruct (_ || _); simpl.
  - split; [|done]. intros Heq. apply (f_equal (fun s => App.saveMessage (App.modal s))) in Heq.
    discriminate.
  - split; [|split; [done|]].
    + intros Heq. apply (f_equal (fun s => App.saveMessage (App.modal s))) in Heq. discriminate.
    + intros _. by rewrite !andb_false_r.
Qed.

Lemma save_button_guards_witness :
  (App.handleSaveApiKey_begin (filled "openai")).1.1
  <> App.setSaveMessage "❌ Please enter an API key" (filled "openai")
  /\ ((App.handleSaveApiKey_begin (filled "openai")).1.2 = [] ->
      (App.handleSaveApiKey_begin (filled "openai")).1.1
      = App.setSaveMessage "❌ Please select a model" (filled "openai"))
  /\ ((App.handleSaveApiKey_begin (filled "openai")).1.2 <> [] ->
      App.saveEnabled (App.handleSaveApiKey_begin (filled "openai")).1.1 = false).
Proof. apply (save_button_guards (filled "openai")). reflexivity. Defined.

Lemma step_savingApiKey icons now suffix ev w :
  settlesSave ev = false ->
  App.savingApiKey (App.modal w.1) = true ->
  App.savingApiKey (App.modal (App.step icons now suffix ev w).1.1) = true.
Proof.
  intros Hev H. destruct ev; simpl; try done.
  - unfold App.handleMasterPromptChange. by destruct (_ && _).
  - unfold App.handleKeyPress, App.handleSendMasterPrompt.
    destruct (String.eqb key "Enter"); simpl; [|done].
    destruct (JS.nonempty _); [|done]. by destruct (App.isStarted w.1).
  - unfold App.handleIconSelect_resume.
    by destruct (App.fetchProviderModels_settle o) as [[models|e] logged].
  - unfold App.handleSaveApiKey_begin.
    destruct (negb (JS.nonempty _)); simpl; [done|]. by destruct (_ || _).
  - unfold App.loadKeysForModels_resume. destruct needing; [done|].
    by destruct (mapM _ _).
Qed.

(** X11. When the key was saved for a provider that
    [getProviderURL] does not know, the handler throws before it resets
    [savingApiKey]: the flag stays set and the save button stays disabled,
    whatever the user does next, closing and reopening the dialog included;
    only the settling of a save request could reset the flag. *)
Theorem unsupported_provider_blocks_the_dialog icons now suffix o data st ls provider evs :
  valid st provider ->
  succeeds o data ->
  (0 < App.instanceCount (App.modal st))%nat ->
  JS.toLowerCase provider ∉ recognized ->
  forallb (fun ev => negb (settlesSave ev)) evs = true ->
  App.savingApiKey
    (App.modal (App.run icons now suffix evs
                  (App.handleSaveApiKey icons now suffix o (st, ls)).1.1).1) = true
  /\ App.saveEnabled (App.run icons now suffix evs
                    (App.handleSaveApiKey icons now suffix o (st, ls)).1.1).1 = false.
Proof.
  intros Hvalid Hok Hcount Hn Hevs.
  assert (H : App.savingApiKey
                (App.modal (App.handleSaveApiKey icons now suffix o (st, ls)).1.1.1) = true).
  { unfold App.handleSaveApiKey. simpl.
    rewrite (handleSaveApiKey_begin_valid _ _ Hvalid).
    unfold App.handleSaveApiKey_resume.
    rewrite (saveProviderApiKey_settle_succeeds _ _ Hok).
    rewrite newModels_unrecognized; [done|apply Hvalid|done|done]. }
  revert H. generalize (App.handleSaveApiKey icons now suffix o (st, ls)).1.1.
  clear -Hevs. induction evs as [|ev evs IH]; intros w H.
  - split; [done|]. unfold App.saveEnabled. cbn [App.run]. rewrite H. simpl.
    by rewrite andb_false_r.
  - cbn [App.run forallb] in *. apply andb_prop in Hevs as [Hev Hevs].
    apply IH; [done|]. apply step_savingApiKey; [|done]. by apply negb_true_iff.
Qed.

Lemma unsupported_provider_blocks_the_dialog_witness :
  App.savingApiKey
    (App.modal (App.run [] noon abcde [App.CloseClicked; App.AddClicked]
                  (App.handleSaveApiKey [] noon abcde (answer 200 (JS.Obj []))
                     (filled "perplexity", ∅)).1.1).1) = true
  /\ App.saveEnabled (App.run [] noon abcde [App.CloseClicked; App.AddClicked]
                    (App.handleSaveApiKey [] noon abcde (answer 200 (JS.Obj []))
                       (filled "perplexity", ∅)).1.1).1 = false.
Proof.
  apply (unsupported_provider_blocks_the_dialog [] noon abcde (answer 200 (JS.Obj []))
           (JS.Obj []) (filled "perplexity") ∅ "perplexity" [App.CloseClicked; App.AddClicked]).
  - by apply filled_valid.
  - by constructor.
  - simpl. lia.
  - vm_compute. intros H'. repeat (apply elem_of_cons in H' as [H'|H']; [discriminate|]).
    by apply elem_of_nil in H'.
  - reflexivity.
Defined.

(** ** Picking a provider *)

Lemma fetchProviderModels_settle_fetchedModels o :
  (App.fetchProviderModels_settle o).1 = JS.Return (fetchedModels o).
Proof.
  unfold fetchedModels. pose proof (fetchProviderModels_returns "" o) as H. simpl in H.
  by rewrite H.
Qed.

Lemma handleIconSelect_resume_settles o st :
  (App.handleIconSelect_resume o st).1.1
  = App.setLoadingModels false (App.setAvailableModels (fetchedModels o) st)
  /\ (App.handleIconSelect_resume o st).2 = JS.Return tt.
Proof.
  unfold App.handleIconSelect_resume.
  pose proof (fetchProviderModels_settle_fetchedModels o) as H.
  destruct (App.fetchProviderModels_settle o) as [models logged]. simpl in H. by rewrite H.
Qed.

(** X13. [handleIconSelect] does not check which provider its answer
    belongs to.  When the user picks provider [a] and then provider [b], and
    the list for [a] arrives after the list for [b], the dialog shows [b] as
    selected with the models of [a] under it. *)
Theorem late_model_list_overwrites icons now suffix (a b : string) (oa ob : Net.outcome)
    (w : App.State * gmap string Storage.item) :
  App.selectedProvider (App.modal (App.run icons now suffix (pickedTwice a b oa ob) w).1)
  = Some b
  /\ App.availableModels (App.modal (App.run icons now suffix (pickedTwice a b oa ob) w).1)
     = fetchedModels oa
  /\ App.loadingModels (App.modal (App.run icons now suffix (pickedTwice a b oa ob) w).1)
     = false.
Proof.
  unfold pickedTwice. cbn [App.run App.step].
  set (w2 := (App.handleIconSelect_begin b _).1).
  cbn [fst snd].
  destruct (handleIconSelect_resume_settles ob w2) as [-> _].
  destruct (handleIconSelect_resume_settles oa
              (App.setLoadingModels false (App.setAvailableModels (fetchedModels ob) w2)))
    as [-> _].
  done.
Qed.

(** ** The key-loading effect *)

Lemma fetchProviderApiKey_settle_fetchedKey o :
  (App.fetchProviderApiKey_settle o).1 = JS.Return (fetchedKey o).
Proof.
  unfold fetchedKey. pose proof (fetchProviderApiKey_returns "" o) as H. simpl in H.
  by rewrite H.
Qed.

Lemma updatedKeys_fetched (needing : list Model.t) (os : list Net.outcome) :
  mapM (fun s : string * (JS.completion JS.value * list Net.effect) =>
          key ← s.2.1; mret (s.1, key))
       (zip_with (fun m o => (Model.id m, App.fetchProviderApiKey_settle o)) needing os)
  = JS.Return (zip_with (fun m o => (Model.id m, fetchedKey o)) needing os).
Proof.
  revert os. induction needing as [|m needing IH]; intros [|o os]; try done.
  simpl. rewrite fetchProviderApiKey_settle_fetchedKey. simpl. by rewrite IH.
Qed.

(** What the effect makes of [activeModels]: the records whose identifier
    has an entry in the map take the key of that entry. *)
Lemma loadKeysForModels_resume_models needing os st :
  needing <> [] ->
  (App.loadKeysForModels_resume needing os st).1.1
  = App.setActiveModels
      (map (fun model =>
              match App.keyMap (zip_with (fun m o => (Model.id m, fetchedKey o)) needing os)
                    !! Model.id model with
              | Some k => Model.with_key k model
              | None => model
              end)) st
  /\ (App.loadKeysForModels_resume needing os st).2 = JS.Return tt.
Proof.
  intros Hne. unfold App.loadKeysForModels_resume. destruct needing as [|m needing]; [done|].
  by rewrite updatedKeys_fetched.
Qed.

Lemma keyMap_lookup_Some (l : list (string * JS.value)) id k :
  App.keyMap l !! id = Some k -> (id, k) ∈ l.
Proof. unfold App.keyMap. intros H%elem_of_list_to_map_2. by rewrite elem_of_reverse in H. Qed.

Lemma keyMap_lookup_is_Some (l : list (string * JS.value)) id :
  id ∈ l.*1 -> is_Some (App.keyMap l !! id).
Proof.
  unfold App.keyMap. intros H. destruct (list_to_map (reverse l) !! id) eqn:E; [by eexists|].
  apply not_elem_of_list_to_map_2 in E. exfalso. apply E.
  rewrite fmap_reverse. by rewrite elem_of_reverse.
Qed.

Lemma zip_keys_elem (needing : list Model.t) (os : list Net.outcome) id k :
  (id, k) ∈ zip_with (fun m o => (Model.id m, fetchedKey o)) needing os ->
  exists o, o ∈ os /\ k = fetchedKey o.
Proof.
  revert os. induction needing as [|m needing IH]; intros [|o os]; simpl;
    try (by intros ?%elem_of_nil).
  intros [[= -> ->]|H]%elem_of_cons.
  - exists o. split; [by left|done].
  - destruct (IH _ H) as (o' & Ho' & ->). exists o'. split; [by right|done].
Qed.

Lemma zip_keys_fst (needing : list Model.t) (os : list Net.outcome) m :
  length os = length needing ->
  m ∈ needing ->
  Model.id m ∈ (zip_with (fun m o => (Model.id m, fetchedKey o)) needing os).*1.
Proof.
  revert os. induction needing as [|m' needing IH]; intros [|o os] Hlen; simpl in *;
    try done; try (by intros ?%elem_of_nil).
  intros [->|H]%elem_of_cons; [by left|]. right. apply IH; [lia|done].
Qed.

Lemma filter_needing_nil (l : list Model.t) :
  Forall (fun m => JS.truthy (Model.encryptedApiKey m) = true) l ->
  filter (fun m => JS.truthy (Model.encryptedApiKey m) = false) l = [].
Proof.
  induction 1 as [|m l Hm _ IH]; [done|]. rewrite filter_cons.
  destruct (decide _) as [E|_]; [congruence|done].
Qed.

(** X14. When every key request of the key-loading effect is
    answered with a truthy key, the effect returns, [activeModels] keeps its
    records up to their keys, no record is left without a key, and the next run
    of the effect makes no request. *)
Theorem key_loading_stops_once_served (st : App.State) (os : list Net.outcome) :
  length os = length (App.modelsNeedingKeys st) ->
  Forall (fun o => JS.truthy (fetchedKey o) = true) os ->
  (App.loadKeysForModels_resume (App.modelsNeedingKeys st) os st).2 = JS.Return tt
  /\ keyless <$> App.activeModels (keysLoaded os st) = keyless <$> App.activeModels st
  /\ App.modelsNeedingKeys (keysLoaded os st) = []
  /\ (App.loadKeysForModels_begin (keysLoaded os st)).2 = [].
Proof.
  intros Hlen Hos. unfold keysLoaded.
  destruct (App.modelsNeedingKeys st) as [|m0 needing0] eqn:Hneeding.
  { simpl. split; [done|]. split; [done|]. rewrite Hneeding. split; [done|].
    unfold App.loadKeysForModels_begin. destruct (negb _); [done|]. by rewrite Hneeding. }
  assert (Hne : App.modelsNeedingKeys st <> []) by (by rewrite Hneeding).
  rewrite <- Hneeding in *. clear Hneeding m0 needing0.
  destruct (loadKeysForModels_resume_models (App.modelsNeedingKeys st) os st) as [-> ->];
    [done|].
  split; [done|]. split.
  { cbn [App.activeModels App.setActiveModels].
    rewrite <- list_fmap_compose. apply list_fmap_ext. intros i m _. simpl.
    by destruct (App.keyMap _ !! Model.id m). }
  assert (Hnil : App.modelsNeedingKeys
                   (App.setActiveModels
                      (map (fun model =>
                              match App.keyMap (zip_with (fun m o => (Model.id m, fetchedKey o))
                                                  (App.modelsNeedingKeys st) os)
                                    !! Model.id model with
                              | Some k => Model.with_key k model
                              | None => model
                              end)) st) = []).
  { unfold App.modelsNeedingKeys at 1. cbn [App.activeModels App.setActiveModels].
    apply filter_needing_nil, Forall_fmap, Forall_forall. intros m Hm.
    unfold compose. cbn beta.
    destruct (App.keyMap _ !! Model.id m) as [k|] eqn:Hk.
    - apply keyMap_lookup_Some, zip_keys_elem in Hk as (o & Ho & ->).
      cbn [Model.encryptedApiKey Model.with_key].
      by apply (proj1 (Forall_forall _ _) Hos).
    - destruct (JS.truthy (Model.encryptedApiKey m)) eqn:Hkey; [done|]. exfalso.
      assert (Hin : m ∈ App.modelsNeedingKeys st).
      { unfold App.modelsNeedingKeys. by apply list_elem_of_filter. }
      apply (zip_keys_fst _ os _ Hlen), keyMap_lookup_is_Some in Hin as [k Hin]. congruence. }
  split; [done|]. unfold App.loadKeysForModels_begin.
  destruct (negb _); [done|]. cbn [snd]. by rewrite Hnil.
Qed.

Lemma key_loading_stops_once_served_witness :
  (App.loadKeysForModels_resume (App.modelsNeedingKeys keylessPage) [Net.Resolved keyAnswer]
     keylessPage).2 = JS.Return tt
  /\ keyless <$> App.activeModels (keysLoaded [Net.Resolved keyAnswer] keylessPage)
     = keyless <$> App.activeModels keylessPage
  /\ App.modelsNeedingKeys (keysLoaded [Net.Resolved keyAnswer] keylessPage) = []
  /\ (App.loadKeysForModels_begin (keysLoaded [Net.Resolved keyAnswer] keylessPage)).2 = [].
Proof.
  apply (key_loading_stops_once_served keylessPage [Net.Resolved keyAnswer]).
  - reflexivity.
  - repeat constructor.
Defined.

(** X15. When no key request of the key-loading effect yields a truthy key
    (the server has none, or cannot be reached), every record that was
    without a key still is: it keeps its place and its other fields, and
    still counts among the records that need a key.  So the next run of the
    effect, which the update of [activeModels] sets off, requests the key of
    the provider of each such record again: it makes at least as many
    requests as the run before, and at least one if the run before made
    one. *)
Theorem key_loading_repeats_while_unserved (st : App.State) (os : list Net.outcome) :
  App.hasConsented st = true ->
  Forall (fun o => JS.truthy (fetchedKey o) = false) os ->
  Forall2
    (fun m m' =>
       keyless m' = keyless m
       /\ (JS.truthy (Model.encryptedApiKey m) = false ->
           JS.truthy (Model.encryptedApiKey m') = false
           /\ m' ∈ App.modelsNeedingKeys (keysLoaded os st)
           /\ App.fetchProviderApiKey_request (Model.provider m)
              ∈ (App.loadKeysForModels_begin (keysLoaded os st)).2))
    (App.activeModels st) (App.activeModels (keysLoaded os st))
  /\ (length (App.loadKeysForModels_begin st).2
      <= length (App.loadKeysForModels_begin (keysLoaded os st)).2)%nat
  /\ (App.modelsNeedingKeys st <> [] ->
      (App.loadKeysForModels_begin (keysLoaded os st)).2 <> []).
Proof.
  intros Hconsent Hos.
  assert (Hbegin : forall s, App.hasConsented s = true ->
            (App.loadKeysForModels_begin s).2
            = map (fun m => App.fetchProviderApiKey_request (Model.provider m))
                  (App.modelsNeedingKeys s)).
  { intros s Hs. unfold App.loadKeysForModels_begin. by rewrite Hs. }
  destruct (App.modelsNeedingKeys st) as [|m0 needing0] eqn:Hneeding.
  { unfold keysLoaded. rewrite Hneeding. simpl. split; [|split; [lia|done]].
    apply Forall_Forall2_diag, Forall_forall. intros m Hm. split; [done|]. intros Hkey.
    exfalso. assert (Hin : m ∈ App.modelsNeedingKeys st).
    { unfold App.modelsNeedingKeys. by apply list_elem_of_filter. }
    rewrite Hneeding in Hin. by apply elem_of_nil in Hin. }
  assert (Hne : App.modelsNeedingKeys st <> []) by (by rewrite Hneeding).
  rewrite <- Hneeding in *. clear Hneeding m0 needing0.
  assert (Hconsent' : App.hasConsented (keysLoaded os st) = true).
  { unfold keysLoaded.
    by destruct (loadKeysForModels_resume_models (App.modelsNeedingKeys st) os st) as [-> _]. }
  assert (Hall :
    Forall2
      (fun m m' =>
         keyless m' = keyless m
         /\ m' ∈ App.activeModels (keysLoaded os st)
         /\ (JS.truthy (Model.encryptedApiKey m) = false ->
             JS.truthy (Model.encryptedApiKey m') = false))
      (App.activeModels st) (App.activeModels (keysLoaded os st))).
  { unfold keysLoaded.
    destruct (loadKeysForModels_resume_models (App.modelsNeedingKeys st) os st) as [-> _];
      [done|].
    cbn [App.activeModels App.setActiveModels].
    apply Forall2_fmap_r, Forall_Forall2_diag, Forall_forall. intros m Hm.
    unfold compose. cbn beta. split; [|split].
    - by destruct (App.keyMap _ !! Model.id m).
    - apply list_elem_of_fmap. by exists m.
    - destruct (App.keyMap _ !! Model.id m) as [k|] eqn:Hk; [|done]. intros _.
      apply keyMap_lookup_Some, zip_keys_elem in Hk as (o & Ho & ->).
      by apply (proj1 (Forall_forall _ _) Hos). }
  assert (Hlens : (length (App.modelsNeedingKeys st)
                   <= length (App.modelsNeedingKeys (keysLoaded os st)))%nat).
  { unfold App.modelsNeedingKeys. revert Hall.
    generalize (App.activeModels st) (App.activeModels (keysLoaded os st)).
    induction 1 as [|m m' l l' (_ & _ & Hm) _ IH]; [done|].
    rewrite !filter_cons.
    destruct (decide (JS.truthy (Model.encryptedApiKey m) = false)) as [E|_].
    - rewrite decide_True by auto. simpl. lia.
    - destruct (decide _); simpl; lia. }
  split; [|split].
  - eapply Forall2_impl; [exact Hall|]. intros m m' (Hk & Hin & Hkeep). split; [done|].
    intros Hkey. specialize (Hkeep Hkey). split; [done|].
    assert (Hneeds : m' ∈ App.modelsNeedingKeys (keysLoaded os st)).
    { unfold App.modelsNeedingKeys. by apply list_elem_of_filter. }
    split; [done|]. rewrite Hbegin by done.
    apply (list_elem_of_fmap_2' _ _ m'); [done|].
    apply (f_equal Model.provider) in Hk. simpl in Hk. by rewrite Hk.
  - rewrite !Hbegin by done. rewrite !length_map. done.
  - intros _. rewrite Hbegin by done.
    destruct (App.modelsNeedingKeys (keysLoaded os st)) eqn:E; [|done].
    destruct (App.modelsNeedingKeys st); [done|]. simpl in Hlens. lia.
Qed.

Lemma key_loading_repeats_while_unserved_witness :
  Forall2
    (fun m m' =>
       keyless m' = keyless m
       /\ (JS.truthy (Model.encryptedApiKey m) = false ->
           JS.truthy (Model.encryptedApiKey m') = false
           /\ m' ∈ App.modelsNeedingKeys (keysLoaded [answer 404 JS.Null] keylessPage)
           /\ App.fetchProviderApiKey_request (Model.provider m)
              ∈ (App.loadKeysForModels_begin (keysLoaded [answer 404 JS.Null] keylessPage)).2))
    (App.activeModels keylessPage)
    (App.activeModels (keysLoaded [answer 404 JS.Null] keylessPage))
  /\ (length (App.loadKeysForModels_begin keylessPage).2
      <= length (App.loadKeysForModels_begin (keysLoaded [answer 404 JS.Null] keylessPage)).2)%nat
  /\ (App.modelsNeedingKeys keylessPage <> [] ->
      (App.loadKeysForModels_begin (keysLoaded [answer 404 JS.Null] keylessPage)).2 <> []).
Proof.
  apply (key_loading_repeats_while_unserved keylessPage [answer 404 JS.Null]).
  - reflexivity.
  - repeat constructor.
Defined.

Lemma zip_keys_ids (needing : list Model.t) (os : list Net.outcome) id k :
  (id, k) ∈ zip_with (fun m o => (Model.id m, fetchedKey o)) needing os ->
  id ∈ Model.id <$> needing.
Proof.
  revert os. induction needing as [|m needing IH]; intros [|o os]; simpl;
    try (by intros ?%elem_of_nil).
  intros [[= -> ->]|H]%elem_of_cons; [by left|]. right. by apply (IH os).
Qed.

(** X16. However its requests end, the key-loading effect
    never throws, and it changes nothing but keys: every record keeps its
    place and its other fields, and a record whose identifier is not among
    those the effect asked for (one added while the requests were under way,
    say) is left exactly as it was. *)
Theorem key_loading_leaves_other_records (needing : list Model.t) (os : list Net.outcome)
    (st : App.State) :
  (App.loadKeysForModels_resume needing os st).2 = JS.Return tt
  /\ Forall2
       (fun m m' =>
          keyless m' = keyless m /\ (Model.id m ∉ Model.id <$> needing -> m' = m))
       (App.activeModels st)
       (App.activeModels (App.loadKeysForModels_resume needing os st).1.1).
Proof.
  destruct needing as [|m0 needing0] eqn:Hneeding.
  { split; [done|]. simpl. apply Forall_Forall2_diag, Forall_forall. done. }
  rewrite <- Hneeding.
  destruct (loadKeysForModels_resume_models needing os st) as [-> ->]; [by subst|].
  split; [done|]. cbn [App.activeModels App.setActiveModels].
  apply Forall2_fmap_r, Forall_Forall2_diag, Forall_forall. intros m _. unfold compose. cbn beta.
  destruct (App.keyMap _ !! Model.id m) as [k|] eqn:Hk; [|done].
  split; [done|]. intros Hid. exfalso. apply Hid.
  by apply keyMap_lookup_Some, zip_keys_ids in Hk.
Qed.

(** ** The chat widget: how a send ends *)

Lemma or_else_truthy a b : JS.truthy b = true -> JS.truthy (JS.or_else a b) = true.
Proof. unfold JS.or_else. by destruct (JS.truthy a) eqn:E. Qed.

Lemma reply_of_truthy o reply : ChatInstance.reply_of o = JS.Return reply -> JS.truthy reply = true.
Proof.
  unfold ChatInstance.reply_of. destruct o as [e|r]; simpl; [done|].
  destruct (Net.json r) as [data|e]; simpl; [|done].
  destruct (negb (Net.ok r)).
  - destruct (JS.get data "error") as [v|e]; simpl; [|done].
    intros [= <-]. by apply or_else_truthy.
  - destruct (JS.get data "reply") as [v|e]; simpl; [|done].
    intros [= <-]. by apply or_else_truthy.
Qed.

Lemma handleSend_resume_truthy o st :
  JS.truthy (ChatInstance.aiResponse (ChatInstance.handleSend_resume o st)) = true.
Proof.
  unfold ChatInstance.handleSend_resume.
  destruct (ChatInstance.reply_of o) as [reply|err] eqn:Hr; simpl; [|done].
  by apply reply_of_truthy in Hr.
Qed.

(** X17. However the request of a send ends, the widget is left with a reply
    that is truthy, not loading, with its input hidden, its action buttons
    switched on and its prompt unchanged, and the error line is not shown:
    the [catch] sets the reply together with the error.  A reply that is a
    string is not empty, and the bubble shows it; a reply that is an object
    makes the render throw.  When the request could not be made or its body
    is not JSON, the reply is the string "Error: " followed by the message of
    the failure, or by "Could not reach server" when that message is empty.
    When the body is an object, the reply is what it holds under [reply]
    (under [error] for a status outside 200-299) if that is truthy, and the
    string "No response from AI" ("No reply received.") otherwise. *)
Theorem send_always_ends_with_reply (o : Net.outcome) (st : ChatInstance.State) :
  JS.truthy (ChatInstance.aiResponse (ChatInstance.handleSend_resume o st)) = true
  /\ ChatInstance.isLoading (ChatInstance.handleSend_resume o st) = false
  /\ ChatInstance.isInputHidden (ChatInstance.handleSend_resume o st) = true
  /\ ChatInstance.showButtons (ChatInstance.handleSend_resume o st) = true
  /\ ChatInstance.userPrompt (ChatInstance.handleSend_resume o st)
     = ChatInstance.userPrompt st
  /\ ChatInstance.shownError (ChatInstance.handleSend_resume o st) = None
  /\ (forall text,
        ChatInstance.aiResponse (ChatInstance.handleSend_resume o st) = JS.Str text ->
        JS.nonempty text = true
        /\ ChatInstance.replyBubble (ChatInstance.handleSend_resume o st) = JS.Return (Some text))
  /\ (forall props,
        ChatInstance.aiResponse (ChatInstance.handleSend_resume o st) = JS.Obj props ->
        exists e, ChatInstance.replyBubble (ChatInstance.handleSend_resume o st) = JS.Throw e)
  /\ (forall err,
        ChatInstance.reply_of o = JS.Throw err ->
        ChatInstance.aiResponse (ChatInstance.handleSend_resume o st)
        = JS.Str ("Error: " +:+ ChatInstance.message_or err "Could not reach server"))
  /\ (forall e, ChatInstance.reply_of (Net.Rejected e) = JS.Throw e)
  /\ (forall r e, Net.json r = JS.Throw e -> ChatInstance.reply_of (Net.Resolved r) = JS.Throw e)
  /\ (forall r props,
        Net.json r = JS.Return (JS.Obj props) ->
        ChatInstance.reply_of (Net.Resolved r)
        = JS.Return (if Net.ok r
                     then JS.or_else (JS.assoc props "reply") (JS.Str "No response from AI")
                     else JS.or_else (JS.assoc props "error") (JS.Str "No reply received."))).
Proof.
  pose proof (handleSend_resume_truthy o st) as Ht.
  split; [done|]. split; [|split; [|split; [|split; [|split]]]].
  1-4: unfold ChatInstance.handleSend_resume; by destruct (ChatInstance.reply_of o).
  { unfold ChatInstance.shownError. rewrite Ht.
    destruct (ChatInstance.error _); [by rewrite andb_false_r|done]. }
  split; [|split; [|split; [|split; [|split]]]].
  - intros text Htext. unfold ChatInstance.replyBubble. rewrite Ht, Htext in *.
    assert (Hl : ChatInstance.isLoading (ChatInstance.handleSend_resume o st) = false).
    { unfold ChatInstance.handleSend_resume; by destruct (ChatInstance.reply_of o). }
    rewrite Hl. split; [exact Ht|done].
  - intros props Hobj. unfold ChatInstance.replyBubble. rewrite Ht, Hobj.
    assert (Hl : ChatInstance.isLoading (ChatInstance.handleSend_resume o st) = false).
    { unfold ChatInstance.handleSend_resume; by destruct (ChatInstance.reply_of o). }
    rewrite Hl. simpl. by eexists.
  - intros err Herr. unfold ChatInstance.handleSend_resume. by rewrite Herr.
  - done.
  - intros r e Hj. unfold ChatInstance.reply_of. simpl. by rewrite Hj.
  - intros r props Hj. unfold ChatInstance.reply_of. simpl. rewrite Hj. simpl.
    by destruct (Net.ok r).
Qed.

(** ** The chat widget from its mount on *)

Lemma sending_steady i p :
  steady i ->
  steady (ChatInstance.sending
            {| ChatInstance.props := p; ChatInstance.state := ChatInstance.state i;
               ChatInstance.inflight := ChatInstance.inflight i |}
            (ChatInstance.handleSend_begin p (ChatInstance.state i))).1.
Proof.
  unfold steady, ChatInstance.sending, ChatInstance.handleSend_begin. intros [He Hl].
  destruct (negb (JS.nonempty _)); simpl; [split; [done|]; intros H; apply Hl in H; lia|].
  destruct (negb (JS.truthy _)); simpl.
  - split; [by right|]. intros H; apply Hl in H; lia.
  - split; [by left|]. intros _. lia.
Qed.

Lemma step_steady URL_parses ev i :
  steady i -> steady (ChatInstance.step URL_parses ev i).1.
Proof.
  intros H. destruct i as [p st k]. destruct ev; simpl; try done.
  - destruct (0 <? n)%nat; [|done].
    by apply (sending_steady {| ChatInstance.props := p; ChatInstance.state := st;
                                ChatInstance.inflight := k |}).
  - unfold ChatInstance.handleKeyPress. destruct (_ && _).
    + by apply (sending_steady {| ChatInstance.props := p; ChatInstance.state := st;
                                  ChatInstance.inflight := k |}).
    + unfold steady in *. simpl in *. by rewrite Nat.add_0_r.
  - by apply (sending_steady {| ChatInstance.props := p; ChatInstance.state := st;
                                ChatInstance.inflight := k |}).
  - split; simpl.
    + right. apply handleSend_resume_truthy.
    + done.
Qed.

Lemma mount_steady p : steady (ChatInstance.mount p).1.
Proof.
  unfold ChatInstance.mount. destruct (0 <? ChatInstance.triggerSend p)%nat.
  - apply (sending_steady
             {| ChatInstance.props := p;
                ChatInstance.state := ChatInstance.setUserPrompt (ChatInstance.masterPrompt p)
                                        (ChatInstance.initial p);
                ChatInstance.inflight := 0 |}).
    split; [by left|done].
  - split; [by left|done].
Qed.

Lemma run_steady URL_parses evs i r :
  steady i -> ChatInstance.run URL_parses evs i = Some r -> steady r.1.
Proof.
  revert i r. induction evs as [|ev evs IH]; intros i r H Hrun.
  - by injection Hrun as <-.
  - apply run_cons in Hrun as (_ & r' & Hr' & ->). simpl.
    apply (IH _ _ (step_steady URL_parses ev i H) Hr').
Qed.

(** X18. The error line of the widget is never on display: from the
    mount on, whatever the events, either no error is set or there is a
    reply, and the line is rendered only without a reply. *)
Theorem error_line_is_never_shown (URL_parses : string -> bool) (p : ChatInstance.Props)
    (evs : list ChatInstance.event)
    (r : ChatInstance.Inst * list (ChatInstance.event * list Net.effect)) :
  ChatInstance.run URL_parses evs (ChatInstance.mount p).1 = Some r ->
  ChatInstance.shownError (ChatInstance.state r.1) = None.
Proof.
  intros Hrun. destruct (run_steady URL_parses evs _ r (mount_steady p) Hrun) as [[He|Ht] _];
    unfold ChatInstance.shownError.
  - by rewrite He.
  - rewrite Ht. destruct (ChatInstance.error _); [by rewrite andb_false_r|done].
Qed.

Lemma error_line_is_never_shown_witness :
  ChatInstance.shownError (ChatInstance.state failedSend.1) = None.
Proof.
  apply (error_line_is_never_shown (fun _ => true) (someProps (JS.Str "sk-1"))
           [ChatInstance.SendClicked;
            ChatInstance.Settled (Net.Rejected (JS.Exn JS.TypeError "Failed to fetch"))]
           failedSend).
  vm_compute. reflexivity.
Defined.

(** X19. From the mount on, whenever the "Thinking" line is on
    display a request to [/api/process] has not settled yet; until it does,
    no reply is shown and the widget's own input and send button are
    disabled. *)
Theorem thinking_means_in_flight (URL_parses : string -> bool) (p : ChatInstance.Props)
    (evs : list ChatInstance.event)
    (r : ChatInstance.Inst * list (ChatInstance.event * list Net.effect)) :
  ChatInstance.run URL_parses evs (ChatInstance.mount p).1 = Some r ->
  ChatInstance.thinkingShown (ChatInstance.state r.1) = true ->
  (0 < ChatInstance.inflight r.1)%nat
  /\ (forall o, ChatInstance.enabled (ChatInstance.Settled o) r.1 = true)
  /\ (forall ev, ownInput ev = true -> ChatInstance.enabled ev r.1 = false)
  /\ ChatInstance.shownReply (ChatInstance.state r.1) = None.
Proof.
  intros Hrun Hl. destruct (run_steady URL_parses evs _ r (mount_steady p) Hrun) as [_ Hin].
  unfold ChatInstance.thinkingShown in Hl. specialize (Hin Hl).
  split; [done|]. split; [|split].
  - intros o. simpl. by apply Nat.ltb_lt.
  - intros ev Hev. destruct ev; try discriminate; simpl; rewrite Hl; simpl;
      by rewrite ?andb_false_r.
  - unfold ChatInstance.shownReply. rewrite Hl. simpl. by rewrite andb_false_r.
Qed.

Lemma thinking_means_in_flight_witness :
  (0 < ChatInstance.inflight awaitingReply.1)%nat
  /\ (forall o, ChatInstance.enabled (ChatInstance.Settled o) awaitingReply.1 = true)
  /\ (forall ev, ownInput ev = true -> ChatInstance.enabled ev awaitingReply.1 = false)
  /\ ChatInstance.shownReply (ChatInstance.state awaitingReply.1) = None.
Proof.
  apply (thinking_means_in_flight (fun _ => true) (someProps (JS.Str "sk-1"))
           [ChatInstance.SendClicked] awaitingReply).
  - vm_compute. reflexivity.
  - reflexivity.
Defined.

(** ** Widgets and the master prompt *)

Lemma props_key_truthy a m :
  JS.truthy (Model.encryptedApiKey m) = true ->
  ChatInstance.encryptedApiKey (Arena.props_of a m) = Model.encryptedApiKey m.
Proof. simpl. by destruct (Model.encryptedApiKey m). Qed.

(** X20. A widget that is mounted after a master send (the trigger
    counter is positive, the master prompt not blank) never shows an input of
    its own: not when it mounts, and not after any events that follow, none
    of which comes from its own input or send button.  With a key it sends the master prompt as soon as it mounts, next
    to its key fetch; without a key it only makes the key fetch and shows the
    "API key missing" message, with no action buttons. *)
Theorem late_widget_sends_at_once (a : App.State) (m : Model.t) :
  (0 < App.triggerSend a)%nat ->
  JS.nonempty (JS.trim (App.masterPrompt a)) = true ->
  ChatInstance.inputShown (ChatInstance.state (ChatInstance.mount (Arena.props_of a m)).1)
  = false
  /\ ChatInstance.showButtons (ChatInstance.state (ChatInstance.mount (Arena.props_of a m)).1)
     = false
  /\ (JS.truthy (Model.encryptedApiKey m) = true ->
      (ChatInstance.mount (Arena.props_of a m)).2
      = [ChatInstance.fetchApiKey_request (Arena.props_of a m);
         promptRequest m (App.masterPrompt a)]
      /\ ChatInstance.thinkingShown
           (ChatInstance.state (ChatInstance.mount (Arena.props_of a m)).1) = true)
  /\ (JS.truthy (Model.encryptedApiKey m) = false ->
      (ChatInstance.mount (Arena.props_of a m)).2
      = [ChatInstance.fetchApiKey_request (Arena.props_of a m)]
      /\ ChatInstance.shownReply
           (ChatInstance.state (ChatInstance.mount (Arena.props_of a m)).1)
         = Some (JS.Str "API key missing. Please add it first."))
  /\ (forall URL_parses evs r,
        ChatInstance.run URL_parses evs (ChatInstance.mount (Arena.props_of a m)).1 = Some r ->
        ChatInstance.inputShown (ChatInstance.state r.1) = false
        /\ forall ev effects, (ev, effects) ∈ r.2 -> ownInput ev = false).
Proof.
  intros Ht%Nat.ltb_lt Hprompt.
  assert (Hlater : forall URL_parses evs r,
            hiddenInput (ChatInstance.mount (Arena.props_of a m)).1 ->
            ChatInstance.run URL_parses evs (ChatInstance.mount (Arena.props_of a m)).1 = Some r ->
            ChatInstance.inputShown (ChatInstance.state r.1) = false
            /\ forall ev effects, (ev, effects) ∈ r.2 -> ownInput ev = false).
  { intros URL_parses evs r Hhid Hrun.
    destruct (run_hidden URL_parses evs _ r Hhid Hrun) as [Hfinal Hlog].
    unfold ChatInstance.inputShown. rewrite Hfinal. split; [done|].
    intros ev effects Hin. by apply (Hlog ev effects). }
  revert Hlater. unfold hiddenInput, ChatInstance.mount.
  change (ChatInstance.triggerSend (Arena.props_of a m)) with (App.triggerSend a).
  rewrite Ht. unfold ChatInstance.handleSend_begin.
  cbn [ChatInstance.userPrompt ChatInstance.setUserPrompt].
  change (ChatInstance.masterPrompt (Arena.props_of a m)) with (App.masterPrompt a).
  rewrite Hprompt, truthy_props_key. cbn [negb].
  destruct (JS.truthy (Model.encryptedApiKey m)) eqn:Hkey; cbn [negb fst snd].
  - intros Hlater.
    split; [|split; [|split; [|split]]];
      [by change (negb (0 <? App.triggerSend a)%nat = false); rewrite Ht|done| |done|].
    + intros _. split; [|done]. unfold promptRequest, ChatInstance.process_request.
      by rewrite (props_key_truthy a m Hkey).
    + intros URL_parses evs r. apply Hlater.
      by change ((0 <? App.triggerSend a)%nat = true).
  - intros Hlater.
    split; [|split; [|split; [|split]]];
      [by change (negb (0 <? App.triggerSend a)%nat = false); rewrite Ht|done|done| |].
    + intros _. done.
    + intros URL_parses evs r. apply Hlater.
      by change ((0 <? App.triggerSend a)%nat = true).
Qed.

Lemma late_widget_sends_at_once_witness :
  ChatInstance.inputShown
    (ChatInstance.state (ChatInstance.mount (Arena.props_of sentPage (record "0"))).1) = false
  /\ ChatInstance.showButtons
       (ChatInstance.state (ChatInstance.mount (Arena.props_of sentPage (record "0"))).1)
     = false
  /\ (JS.truthy (Model.encryptedApiKey (record "0")) = true ->
      (ChatInstance.mount (Arena.props_of sentPage (record "0"))).2
      = [ChatInstance.fetchApiKey_request (Arena.props_of sentPage (record "0"));
         promptRequest (record "0") (App.masterPrompt sentPage)]
      /\ ChatInstance.thinkingShown
           (ChatInstance.state (ChatInstance.mount (Arena.props_of sentPage (record "0"))).1)
         = true)
  /\ (JS.truthy (Model.encryptedApiKey (record "0")) = false ->
      (ChatInstance.mount (Arena.props_of sentPage (record "0"))).2
      = [ChatInstance.fetchApiKey_request (Arena.props_of sentPage (record "0"))]
      /\ ChatInstance.shownReply
           (ChatInstance.state (ChatInstance.mount (Arena.props_of sentPage (record "0"))).1)
         = Some (JS.Str "API key missing. Please add it first."))
  /\ (forall URL_parses evs r,
        ChatInstance.run URL_parses evs (ChatInstance.mount (Arena.props_of sentPage (record "0"))).1 = Some r ->
        ChatInstance.inputShown (ChatInstance.state r.1) = false
        /\ forall ev effects, (ev, effects) ∈ r.2 -> ownInput ev = false).
Proof.
  apply (late_widget_sends_at_once sentPage (record "0")).
  - vm_compute. lia.
  - reflexivity.
Defined.

(** X21. When the user types a new master prompt that is not blank
    and sends it, every widget takes over that prompt, whatever its own input
    held; a widget whose record has a key makes exactly one request to
    [/api/process], carrying its identifier, that prompt and that key, and
    shows "Thinking"; a widget without a key makes no request and holds the
    "API key missing" message. *)
Theorem typed_master_prompt_is_sent (w : Arena.World) (v : string) :
  v <> App.masterPrompt (Arena.app w) ->
  JS.nonempty (JS.trim v) = true ->
  Forall2
    (fun c sent =>
       sent.2 = (if JS.truthy (Model.encryptedApiKey (Arena.model c))
                 then [promptRequest (Arena.model c) v] else [])
       /\ Arena.model sent.1 = Arena.model c
       /\ ChatInstance.userPrompt (Arena.widget sent.1) = v
       /\ (JS.truthy (Model.encryptedApiKey (Arena.model c)) = true ->
           ChatInstance.thinkingShown (Arena.widget sent.1) = true)
       /\ (JS.truthy (Model.encryptedApiKey (Arena.model c)) = false ->
           ChatInstance.aiResponse (Arena.widget sent.1)
           = JS.Str "API key missing. Please add it first."))
    (Arena.cells w)
    (zip (Arena.cells (Arena.sendMasterPrompt (Arena.changeMasterPrompt v w)).1)
         (Arena.sendMasterPrompt (Arena.changeMasterPrompt v w)).2).
Proof.
  intros Hv Hprompt. unfold Arena.sendMasterPrompt.
  pose proof (triggerSend_handleSendMasterPrompt (Arena.app (Arena.changeMasterPrompt v w)))
    as Ht.
  assert (Hm : App.masterPrompt (Arena.app (Arena.changeMasterPrompt v w)) = v).
  { simpl. unfold App.handleMasterPromptChange. by destruct (_ && _). }
  rewrite Hm, Hprompt in Ht.
  destruct (_ =? _)%nat eqn:Heq; [apply Nat.eqb_eq in Heq; lia|].
  cbn [Arena.cells fst snd]. rewrite zip_fst_snd.
  cbn [Arena.changeMasterPrompt Arena.cells].
  destruct (String.eqb_spec v (App.masterPrompt (Arena.app w))) as [|_]; [done|].
  rewrite <- list_fmap_compose. apply Forall2_fmap_r, Forall_Forall2_diag.
  apply Forall_forall. intros c _. unfold compose, Arena.triggered.
  assert (Hpos : (0 <? App.triggerSend
                         (App.handleSendMasterPrompt
                            (Arena.app (Arena.changeMasterPrompt v w))))%nat = true).
  { apply Nat.ltb_lt. lia. }
  rewrite Hpos. unfold ChatInstance.handleSend_begin.
  cbn [Arena.widget Arena.with_widget Arena.model ChatInstance.userPrompt
       ChatInstance.setUserPrompt].
  rewrite Hprompt, truthy_props_key. cbn [negb].
  destruct (JS.truthy (Model.encryptedApiKey (Arena.model c))) eqn:Hkey; cbn [negb fst snd].
  - split; [|done]. unfold promptRequest, ChatInstance.process_request.
    by rewrite (props_key_truthy _ _ Hkey).
  - done.
Qed.

Lemma typed_master_prompt_is_sent_witness :
  Forall2
    (fun c sent =>
       sent.2 = (if JS.truthy (Model.encryptedApiKey (Arena.model c))
                 then [promptRequest (Arena.model c) "hello"] else [])
       /\ Arena.model sent.1 = Arena.model c
       /\ ChatInstance.userPrompt (Arena.widget sent.1) = "hello"
       /\ (JS.truthy (Model.encryptedApiKey (Arena.model c)) = true ->
           ChatInstance.thinkingShown (Arena.widget sent.1) = true)
       /\ (JS.truthy (Model.encryptedApiKey (Arena.model c)) = false ->
           ChatInstance.aiResponse (Arena.widget sent.1)
           = JS.Str "API key missing. Please add it first."))
    (Arena.cells opened_page)
    (zip (Arena.cells (Arena.sendMasterPrompt (Arena.changeMasterPrompt "hello" opened_page)).1)
         (Arena.sendMasterPrompt (Arena.changeMasterPrompt "hello" opened_page)).2).
Proof.
  apply (typed_master_prompt_is_sent opened_page "hello").
  - vm_compute. discriminate.
  - reflexivity.
Defined.

(** ** One record per add *)

(** X22. No control of the dialog changes [instanceCount], which starts at
    one and is only ever reset to one.  So, from the mount on and whatever
    came before, an add that runs to completion appends exactly one record,
    of the selected provider, to [activeModels], and stores the list so
    extended. *)
Theorem every_add_appends_one_record icons now suffix ls a evs o data provider st' ls' effects :
  App.mount ls = JS.Return a ->
  valid (App.run icons now suffix evs (a, ls)).1 provider ->
  succeeds o data ->
  App.handleSaveApiKey icons now suffix o (App.run icons now suffix evs (a, ls))
  = ((st', ls'), effects, JS.Return tt) ->
  App.instanceCount (App.modal (App.run icons now suffix evs (a, ls)).1) = 1%nat
  /\ exists m,
       App.activeModels st' = App.activeModels (App.run icons now suffix evs (a, ls)).1 ++ [m]
       /\ Model.provider m = provider
       /\ ls' !! "activeModels"
          = Some (Storage.ModelsJSON
                    (App.activeModels (App.run icons now suffix evs (a, ls)).1 ++ [m])).
Proof.
  intros Hmount Hvalid Hok H.
  pose proof (instanceCount_is_one icons now suffix ls a evs Hmount) as Hone.
  split; [done|].
  unfold App.handleSaveApiKey in H.
  rewrite (handleSaveApiKey_begin_valid _ _ Hvalid) in H.
  unfold App.handleSaveApiKey_resume in H.
  rewrite (saveProviderApiKey_settle_succeeds _ _ Hok) in H.
  destruct (App.newModels icons now suffix _) as [new|e] eqn:Hnew; simpl in H; [|discriminate].
  injection H as <- <- <-.
  apply newModels_length in Hnew as [Hlen Hnew]. simpl in Hlen, Hnew. rewrite Hone in Hlen.
  destruct new as [|m [|m' new]]; try discriminate.
  exists m. split; [done|]. split; [|by rewrite lookup_insert_eq].
  by apply Forall_inv in Hnew as [? _].
Qed.

Lemma every_add_appends_one_record_witness :
  App.instanceCount
    (App.modal (App.run [] noon abcde fillingIn (firstVisit, ∅)).1) = 1%nat
  /\ exists m,
       App.activeModels addedOnFirstVisit.1.1.1
       = App.activeModels (App.run [] noon abcde fillingIn (firstVisit, ∅)).1 ++ [m]
       /\ Model.provider m = "openai"
       /\ addedOnFirstVisit.1.1.2 !! "activeModels"
          = Some (Storage.ModelsJSON
                    (App.activeModels (App.run [] noon abcde fillingIn (firstVisit, ∅)).1
                     ++ [m])).
Proof.
  apply (every_add_appends_one_record [] noon abcde ∅ firstVisit fillingIn
           (answer 200 (JS.Obj [])) (JS.Obj []) "openai"
           addedOnFirstVisit.1.1.1 addedOnFirstVisit.1.1.2 addedOnFirstVisit.1.2).
  - vm_compute. reflexivity.
  - repeat split; vm_compute; reflexivity.
  - by constructor.
  - vm_compute. reflexivity.
Defined.

(** ** Reloading the page *)

Lemma mount_fresh ls a :
  App.mount ls = JS.Return a ->
  App.masterPrompt a = "" /\ App.triggerSend a = 0%nat /\ App.isStarted a = false
  /\ App.showConsentModal a = negb (App.hasConsented a).
Proof.
  unfold App.mount, App.loadActiveModels, App.loadConsent.
  destruct (Storage.parse_models _) as [saved|e]; simpl; [|done].
  intros [= <-]. by destruct (0 <? length saved)%nat, (Storage.is_text _ _).
Qed.

(** X23. Nothing of a conversation outlives a reload.  The page that loads
    has an empty master prompt, a trigger counter of zero and the welcome
    screen; the master input is shown as soon as there is consent; and every
    widget it mounts has an empty prompt, shows no reply, no "Thinking" line
    and no action buttons, has its own input on display, and has made no
    request but its key fetch. *)
Theorem reload_forgets_conversations (ls : gmap string Storage.item) (w : Arena.World) :
  Arena.load ls = JS.Return w ->
  App.masterPrompt (Arena.app w) = ""
  /\ App.triggerSend (Arena.app w) = 0%nat
  /\ App.isStarted (Arena.app w) = false
  /\ App.masterInputShown (Arena.app w) = App.hasConsented (Arena.app w)
  /\ Forall (fun c =>
               ChatInstance.userPrompt (Arena.widget c) = ""
               /\ ChatInstance.shownReply (Arena.widget c) = None
               /\ ChatInstance.thinkingShown (Arena.widget c) = false
               /\ ChatInstance.inputShown (Arena.widget c) = true
               /\ ChatInstance.showButtons (Arena.widget c) = false
               /\ (ChatInstance.mount (Arena.props_of (Arena.app w) (Arena.model c))).2
                  = [ChatInstance.fetchApiKey_request
                       (Arena.props_of (Arena.app w) (Arena.model c))])
            (Arena.cells w).
Proof.
  unfold Arena.load. destruct (App.mount ls) as [a|e] eqn:Hmount; simpl; [|done].
  intros [= <-]. cbn [Arena.app Arena.cells].
  apply mount_fresh in Hmount as (Hp & Ht & Hs & Hc).
  split; [done|]. split; [done|]. split; [done|]. split.
  { unfold App.masterInputShown. rewrite Ht, Hc. simpl.
    by destruct (App.hasConsented a). }
  apply Forall_fmap, Forall_forall. intros m _. unfold compose. cbn beta.
  cbn [Arena.widget Arena.model]. unfold ChatInstance.mount.
  change (ChatInstance.triggerSend (Arena.props_of a m)) with (App.triggerSend a).
  change (ChatInstance.masterPrompt (Arena.props_of a m)) with (App.masterPrompt a).
  rewrite Ht, Hp. cbn [Nat.ltb Nat.leb fst snd ChatInstance.state].
  unfold ChatInstance.inputShown.
  change (ChatInstance.isInputHidden
            (ChatInstance.setUserPrompt "" (ChatInstance.initial (Arena.props_of a m))))
    with (0 <? App.triggerSend a)%nat.
  by rewrite Ht.
Qed.

Lemma reload_forgets_conversations_witness :
  App.masterPrompt (Arena.app opened_page) = ""
  /\ App.triggerSend (Arena.app opened_page) = 0%nat
  /\ App.isStarted (Arena.app opened_page) = false
  /\ App.masterInputShown (Arena.app opened_page) = App.hasConsented (Arena.app opened_page)
  /\ Forall (fun c =>
               ChatInstance.userPrompt (Arena.widget c) = ""
               /\ ChatInstance.shownReply (Arena.widget c) = None
               /\ ChatInstance.thinkingShown (Arena.widget c) = false
               /\ ChatInstance.inputShown (Arena.widget c) = true
               /\ ChatInstance.showButtons (Arena.widget c) = false
               /\ (ChatInstance.mount (Arena.props_of (Arena.app opened_page) (Arena.model c))).2
                  = [ChatInstance.fetchApiKey_request
                       (Arena.props_of (Arena.app opened_page) (Arena.model c))])
            (Arena.cells opened_page).
Proof.
  apply (reload_forgets_conversations stored opened_page). vm_compute. reflexivity.
Defined.
